(** * Resilient structured extraction: response parsing, field extraction
      and batch processing

    A shallow embedding of the parsing and batching code of the repository's
    Invoice_Extractor, MCQ-Maker, HR-Resume-Screener and Ticketing-Sys
    applications, and the properties their specification states about it.

    Modelling scope.
    - A Python [str] is a [string]: a sequence of code points below 256.
      On such text the classes used by the code ([str.strip], [\s], [\d],
      [re.IGNORECASE] on ASCII letters) are exactly the ones defined here.
    - Library functions ([re.search], [json.loads], [sorted], [int]) are
      modelled by executable definitions of their behaviour, the
      interpreter's limits included: [int] and [json.loads] refuse an
      integer of more than 4300 digits with [ValueError], and [json.loads]
      ends with [RecursionError] on a document nested too deep.
    - Calls that leave the process (PDF text extraction, the model call) are
      parameters of the sections that use them. *)

From Stdlib Require Import String Ascii List Bool ZArith NArith Arith Lia.
From Stdlib Require Import Permutation.
Import ListNotations.
Set Warnings "-register-all".
Local Open Scope string_scope.
Local Open Scope list_scope.

(* ===================================================================== *)
(** ** Exceptions *)

(** The exceptions the modelled code raises or catches.  [ExceptionFrom p e]
    is [Exception(p + str(e))]: the text of a library exception is not
    modelled, so the cause is kept instead of its rendering. *)
Inductive exn : Type :=
| JSONDecodeError
| ValueError
| RecursionError
| TypeError
| AttributeError
| External (msg : string)
| Exception (msg : string)
| ExceptionFrom (prefix : string) (cause : exn).

Inductive result (A : Type) : Type :=
| Returned (a : A)
| Raised (e : exn).
Arguments Returned {A} a.
Arguments Raised {A} e.

Definition bind {A B} (r : result A) (f : A -> result B) : result B :=
  match r with
  | Returned a => f a
  | Raised e => Raised e
  end.

(** The call returns: it raises nothing. *)
Definition returns {A} (r : result A) : bool :=
  match r with
  | Returned _ => true
  | Raised _ => false
  end.

(** [try: body except <filter>: handler]. *)
Definition try_except {A} (body : result A) (catches : exn -> bool)
    (handler : exn -> result A) : result A :=
  match body with
  | Returned a => Returned a
  | Raised e => if catches e then handler e else Raised e
  end.

(** [except Exception] and a bare [except] catch every exception modelled. *)
Definition any_exception (e : exn) : bool := true.

Definition is_JSONDecodeError (e : exn) : bool :=
  match e with JSONDecodeError => true | _ => false end.

(** [x is not None] *)
Definition is_some {A} (o : option A) : bool :=
  match o with Some _ => true | None => false end.

Declare Scope py_scope.
Delimit Scope py_scope with py.
Notation "x <- c ;; k" := (bind c (fun x => k))
  (at level 61, c at next level, right associativity) : py_scope.

(* ===================================================================== *)
(** ** Python string primitives *)

Module Py.

Definition code (c : ascii) : N := N_of_ascii c.

(** [str.isspace] on one character, which is also the class [\s]. *)
Definition isspace (c : ascii) : bool :=
  let n := code c in
  ((9 <=? n) && (n <=? 13) || (28 <=? n) && (n <=? 32)
   || (n =? 133) || (n =? 160))%N.

(** The class [\d]. *)
Definition isdigit (c : ascii) : bool :=
  let n := code c in ((48 <=? n) && (n <=? 57))%N.

(** The class [[A-Z]]. *)
Definition isupper_ascii (c : ascii) : bool :=
  let n := code c in ((65 <=? n) && (n <=? 90))%N.

(** Lower-casing of the ASCII letters, for [re.IGNORECASE]. *)
Definition lower (c : ascii) : ascii :=
  if isupper_ascii c then ascii_of_N (code c + 32) else c.

Fixpoint all_chars (p : ascii -> bool) (s : string) : bool :=
  match s with
  | EmptyString => true
  | String c s' => p c && all_chars p s'
  end.

Fixpoint lstrip (s : string) : string :=
  match s with
  | EmptyString => EmptyString
  | String c s' => if isspace c then lstrip s' else s
  end.

Fixpoint rstrip (s : string) : string :=
  match s with
  | EmptyString => EmptyString
  | String c s' =>
      match rstrip s' with
      | EmptyString => if isspace c then EmptyString else String c EmptyString
      | r => String c r
      end
  end.

(** [s.strip()] *)
Definition strip (s : string) : string := rstrip (lstrip s).

(** [s.startswith(p)] *)
Definition startswith (p s : string) : bool := prefix p s.

(** [s[a:-b]] for literal [a >= 0] and [b > 0]. *)
Definition slice (a b : nat) (s : string) : string :=
  substring a (String.length s - (a + b)) s.

(** [s[:n]] *)
Definition take (n : nat) (s : string) : string := substring 0 n s.

(** [c in s] for a one-character [c]. *)
Fixpoint contains (c : ascii) (s : string) : bool :=
  match s with
  | EmptyString => false
  | String d s' => Ascii.eqb c d || contains c s'
  end.

(** [sub in s] *)
Fixpoint has_substring (sub s : string) : bool :=
  prefix sub s ||
  match s with
  | EmptyString => false
  | String _ s' => has_substring sub s'
  end.

(** [s.split('\n')] *)
Fixpoint split_lines (s : string) : list string :=
  match s with
  | EmptyString => [EmptyString]
  | String c s' =>
      if Ascii.eqb c "010"%char then EmptyString :: split_lines s'
      else match split_lines s' with
           | l :: ls => String c l :: ls
           | [] => [String c EmptyString]
           end
  end.

(** The line feed. *)
Definition nl : string := String "010"%char EmptyString.

(** Truthiness of a [str]. *)
Definition truthy (s : string) : bool :=
  match s with EmptyString => false | _ => true end.

Definition digit_value (c : ascii) : Z := Z.of_N (code c) - 48.

Fixpoint digits_value (acc : Z) (s : string) : Z :=
  match s with
  | EmptyString => acc
  | String c s' => digits_value (10 * acc + digit_value c) s'
  end.

(** [sys.int_info.default_max_str_digits]: the conversion of a text to an
    integer raises [ValueError] when the text has more digits. *)
Definition MAX_STR_DIGITS : nat := 4300.

(** [int(s)] as the call sites use it, on a captured run of decimal digits.
    Any other argument is reported as [ValueError]; the theorems below show
    the call sites never pass one. *)
Definition int_of_digits (s : string) : result Z :=
  match s with
  | EmptyString => Raised ValueError
  | _ =>
      if all_chars isdigit s then
        if (String.length s <=? MAX_STR_DIGITS)%nat
        then Returned (digits_value 0 s)
        else Raised ValueError
      else Raised ValueError
  end.

(** [c * n] *)
Fixpoint repeat (c : ascii) (n : nat) : string :=
  match n with
  | O => EmptyString
  | S n' => String c (repeat c n')
  end.

End Py.

(* ===================================================================== *)
(** ** Regular expressions

    The fragment of [re] the code uses, with Python's matching discipline:
    the leftmost start position wins, alternatives are tried left to right
    and repetition is greedy with backtracking. *)

Module Re.

Inductive re : Type :=
| Eps
| Chr (p : ascii -> bool)
| Seq (a b : re)
| Alt (a b : re)
| Star (p : ascii -> bool)
| Grp (a : re).

Definition Plus (p : ascii -> bool) : re := Seq (Chr p) (Star p).

(** [seq [a; b; c]] is the pattern [abc]. *)
Fixpoint seq (rs : list re) : re :=
  match rs with
  | [] => Eps
  | [r] => r
  | r :: rs' => Seq r (seq rs')
  end.

(** A literal, case-sensitive or under [re.IGNORECASE]. *)
Fixpoint lit (s : string) : re :=
  match s with
  | EmptyString => Eps
  | String c s' => Seq (Chr (Ascii.eqb c)) (lit s')
  end.

Fixpoint liti (s : string) : re :=
  match s with
  | EmptyString => Eps
  | String c s' =>
      Seq (Chr (fun x => Ascii.eqb (Py.lower x) (Py.lower c))) (liti s')
  end.

(** The text between a position [s] and a later position [s'] of it. *)
Definition taken (s s' : string) : string :=
  substring 0 (String.length s - String.length s') s.

Section Matcher.
Context {X : Type}.

Fixpoint star_loop (p : ascii -> bool) (k : string -> option X)
    (s : string) : option X :=
  match s with
  | String c s' =>
      if p c then
        match star_loop p k s' with
        | Some x => Some x
        | None => k s
        end
      else k s
  | EmptyString => k s
  end.

(** [rmatch r s g k]: match [r] at the head of [s], with [g] the text of
    group 1 so far, and continue with [k] on the rest. *)
Fixpoint rmatch (r : re) (s : string) (g : option string)
    (k : string -> option string -> option X) : option X :=
  match r with
  | Eps => k s g
  | Chr p =>
      match s with
      | String c s' => if p c then k s' g else None
      | EmptyString => None
      end
  | Seq a b => rmatch a s g (fun s' g' => rmatch b s' g' k)
  | Alt a b =>
      match rmatch a s g k with
      | Some x => Some x
      | None => rmatch b s g k
      end
  | Star p => star_loop p (fun s' => k s' g) s
  | Grp a => rmatch a s g (fun s' _ => k s' (Some (taken s s')))
  end.

End Matcher.

(** A match object: [group()] and [group(1)]. *)
Record match_obj : Type := { group0 : string; group1 : option string }.

Definition match_at (r : re) (s : string) : option match_obj :=
  rmatch r s None
    (fun s' g => Some {| group0 := taken s s'; group1 := g |}).

(** [re.search(r, s)] *)
Fixpoint search (r : re) (s : string) : option match_obj :=
  match match_at r s with
  | Some m => Some m
  | None =>
      match s with
      | EmptyString => None
      | String _ s' => search r s'
      end
  end.

(** The words a pattern denotes. *)
Fixpoint lang (r : re) (w : string) : Prop :=
  match r with
  | Eps => w = EmptyString
  | Chr p => exists c, w = String c EmptyString /\ p c = true
  | Seq a b => exists u v, w = (u ++ v)%string /\ lang a u /\ lang b v
  | Alt a b => lang a w \/ lang b w
  | Star p => Py.all_chars p w = true
  | Grp a => lang a w
  end.

(** The words a group of the pattern can capture, and whether every match
    of the pattern goes through a group. *)
Fixpoint group_lang (r : re) (u : string) : Prop :=
  match r with
  | Eps | Chr _ | Star _ => False
  | Seq a b | Alt a b => group_lang a u \/ group_lang b u
  | Grp a => lang a u
  end.

Fixpoint sets_group (r : re) : bool :=
  match r with
  | Eps | Chr _ | Star _ => false
  | Seq a b => sets_group a || sets_group b
  | Alt a b => sets_group a && sets_group b
  | Grp _ => true
  end.

(** How a match of [r] may change the text of group 1. *)
Definition captured (r : re) (g g' : option string) : Prop :=
  (g' = g /\ sets_group r = false) \/
  (exists u, g' = Some u /\ group_lang r u).

End Re.

(* ===================================================================== *)
(** ** JSON documents and [json.loads]

    [json.loads] with its default settings, as a deterministic pushdown
    automaton that reads the document one character at a time.  It accepts
    what the library's scanner accepts (RFC 8259 documents, and the
    constants [NaN], [Infinity], [-Infinity]) and rejects the rest with
    [JSONDecodeError].  An object becomes a dictionary: members in the order
    of first occurrence, a repeated key keeping its last value.  A decoded
    string is a sequence of code points, since an escape can name any.  A
    number with a fraction or an exponent is kept as its literal.

    Two failures are not [JSONDecodeError], and they are raised where the
    scanner meets them, whatever follows in the document:
    - an integer literal is converted with [int], which raises [ValueError]
      when it has more than [Py.MAX_STR_DIGITS] digits;
    - every array or object that is opened inside another one is a
      recursive call of the scanner, and the interpreter ends the descent
      with [RecursionError] at the bracket that goes one level too deep.
      (Within three levels of that depth the library reports some
      malformed documents with [RecursionError] too, as building the
      [JSONDecodeError] takes frames of its own; here a malformed document
      is [JSONDecodeError] at every depth.) *)

Module Json.

Definition pystr : Type := list N.

Inductive json : Type :=
| JNull
| JBool (b : bool)
| JInt (z : Z)
| JFloat (literal : string)
| JStr (s : pystr)
| JArr (items : list json)
| JObj (members : list (pystr * json)).

Definition codes (s : string) : pystr :=
  map Py.code (list_ascii_of_string s).

Fixpoint pystr_eqb (a b : pystr) : bool :=
  match a, b with
  | [], [] => true
  | x :: a', y :: b' => N.eqb x y && pystr_eqb a' b'
  | _, _ => false
  end.

(** [d[k] = v] *)
Fixpoint dict_set (k : pystr) (v : json) (d : list (pystr * json))
    : list (pystr * json) :=
  match d with
  | [] => [(k, v)]
  | (k', v') :: d' =>
      if pystr_eqb k k' then (k, v) :: d' else (k', v') :: dict_set k v d'
  end.

(** [d.get(k)] *)
Fixpoint dict_get (k : pystr) (d : list (pystr * json)) : option json :=
  match d with
  | [] => None
  | (k', v) :: d' => if pystr_eqb k k' then Some v else dict_get k d'
  end.

(** [k in d] *)
Definition dict_has (k : pystr) (d : list (pystr * json)) : bool :=
  match dict_get k d with Some _ => true | None => false end.

(** The number of arrays and objects, one inside the other, that the
    recursion limit of the interpreter leaves room for.  The limit
    ([sys.getrecursionlimit()], 1000 unless the program changes it) counts
    the frames of the caller as well, and every frame in use lowers the room
    by one; this is the room of a call made at the top level of a module: a
    document nested 995 deep is decoded, a document nested 996 deep raises
    [RecursionError]. *)
Definition NESTING_LIMIT : nat := 995.

Inductive frame : Type :=
| FArr (items : list json)
| FObj (members : list (pystr * json))
| FObjKey (members : list (pystr * json)) (k : pystr).

Inductive numstate : Type :=
| NMinus | NZero | NInt | NDot | NFrac | NExp | NExpSign | NExpDigits.

Inductive mode : Type :=
| Value
| ValueOrClose
| KeyOrClose
| Key
| Colon
| After
| Done (v : json)
| InString (is_key : bool) (acc : pystr) (high : bool)
| Escape (is_key : bool) (acc : pystr) (high : bool)
| Unicode (is_key : bool) (acc : pystr) (high : bool) (n : nat) (u : N)
| Number (ns : numstate) (lexeme : list ascii)
| Literal (rest : string) (v : json).

Definition state : Type := (mode * list frame)%type.

(** The document cannot go on: [raise JSONDecodeError(...)]. *)
Definition malformed {A} : result A := Raised JSONDecodeError.

Definition is_ws (c : ascii) : bool :=
  let n := Py.code c in ((n =? 32) || (n =? 9) || (n =? 10) || (n =? 13))%N.

Definition hex_value (c : ascii) : option N :=
  let n := Py.code c in
  if ((48 <=? n) && (n <=? 57))%N then Some (n - 48)%N
  else if ((97 <=? n) && (n <=? 102))%N then Some (n - 87)%N
  else if ((65 <=? n) && (n <=? 70))%N then Some (n - 55)%N
  else None.

Definition is_high_surrogate (u : N) : bool :=
  ((55296 <=? u) && (u <=? 56319))%N.

Definition is_low_surrogate (u : N) : bool :=
  ((56320 <=? u) && (u <=? 57343))%N.

Definition join_surrogates (hi lo : N) : N :=
  (65536 + N.lor (N.shiftl (hi - 55296) 10) (lo - 56320))%N.

(** A complete value [v] is handed to the enclosing container. *)
Definition push_value (v : json) (stk : list frame) : result state :=
  match stk with
  | [] => Returned (Done v, [])
  | FArr items :: rest => Returned (After, FArr (v :: items) :: rest)
  | FObjKey members k :: rest =>
      Returned (After, FObj (dict_set k v members) :: rest)
  | FObj _ :: _ => malformed
  end.

(** What may follow a complete value. *)
Definition after_value (st : state) (c : ascii) : result state :=
  match st with
  | (Done v, _) => if is_ws c then Returned st else malformed
  | (After, FArr items :: rest) =>
      if is_ws c then Returned st
      else if Ascii.eqb c ","%char then Returned (Value, FArr items :: rest)
      else if Ascii.eqb c "]"%char then push_value (JArr (rev items)) rest
      else malformed
  | (After, FObj members :: rest) =>
      if is_ws c then Returned st
      else if Ascii.eqb c ","%char then Returned (Key, FObj members :: rest)
      else if Ascii.eqb c "}"%char then push_value (JObj members) rest
      else malformed
  | _ => malformed
  end.

(** An array or an object is opened: one more level of recursion. *)
Definition open_container (m : mode) (f : frame) (stk : list frame)
    : result state :=
  if (length stk <? NESTING_LIMIT)%nat then Returned (m, f :: stk)
  else Raised RecursionError.

(** The first character of a value. *)
Definition start_value (stk : list frame) (c : ascii) : result state :=
  if Ascii.eqb c "034"%char then Returned (InString false [] false, stk)
  else if Ascii.eqb c "{"%char then open_container KeyOrClose (FObj []) stk
  else if Ascii.eqb c "["%char then open_container ValueOrClose (FArr []) stk
  else if Ascii.eqb c "n"%char then Returned (Literal "ull" JNull, stk)
  else if Ascii.eqb c "t"%char then Returned (Literal "rue" (JBool true), stk)
  else if Ascii.eqb c "f"%char
       then Returned (Literal "alse" (JBool false), stk)
  else if Ascii.eqb c "N"%char then Returned (Literal "aN" (JFloat "NaN"), stk)
  else if Ascii.eqb c "I"%char
       then Returned (Literal "nfinity" (JFloat "Infinity"), stk)
  else if Ascii.eqb c "-"%char then Returned (Number NMinus [c], stk)
  else if Ascii.eqb c "0"%char then Returned (Number NZero [c], stk)
  else if Py.isdigit c then Returned (Number NInt [c], stk)
  else malformed.

Definition is_e (c : ascii) : bool :=
  Ascii.eqb c "e"%char || Ascii.eqb c "E"%char.

(** The number scanner: the next state while [c] extends the literal. *)
Definition number_next (ns : numstate) (c : ascii) : option numstate :=
  match ns with
  | NMinus =>
      if Ascii.eqb c "0"%char then Some NZero
      else if Py.isdigit c then Some NInt else None
  | NZero =>
      if Ascii.eqb c "."%char then Some NDot
      else if is_e c then Some NExp else None
  | NInt =>
      if Py.isdigit c then Some NInt
      else if Ascii.eqb c "."%char then Some NDot
      else if is_e c then Some NExp else None
  | NDot => if Py.isdigit c then Some NFrac else None
  | NFrac =>
      if Py.isdigit c then Some NFrac
      else if is_e c then Some NExp else None
  | NExp =>
      if Ascii.eqb c "+"%char || Ascii.eqb c "-"%char then Some NExpSign
      else if Py.isdigit c then Some NExpDigits else None
  | NExpSign => if Py.isdigit c then Some NExpDigits else None
  | NExpDigits => if Py.isdigit c then Some NExpDigits else None
  end.

Definition int_of_literal (s : string) : Z :=
  match s with
  | String "-"%char s' => - Py.digits_value 0 s'
  | _ => Py.digits_value 0 s
  end.

(** The number of digits of the literal read so far, and whether it has a
    fraction. *)
Definition digit_count (lexeme : list ascii) : nat :=
  length (filter Py.isdigit lexeme).

Definition has_fraction (lexeme : list ascii) : bool :=
  existsb (Ascii.eqb "."%char) lexeme.

(** [int(integer)], which the scanner calls on a literal without fraction
    and without exponent. *)
Definition int_value (lexeme : list ascii) : result json :=
  if (digit_count lexeme <=? Py.MAX_STR_DIGITS)%nat
  then Returned (JInt (int_of_literal (string_of_list_ascii (rev lexeme))))
  else Raised ValueError.

(** The value of a literal when the scanner leaves it in state [ns].
    After a point or an exponent mark that no digit follows, the scanner
    takes the number before the mark, converts it, and only then meets the
    mark, which cannot follow a value. *)
Definition number_value (ns : numstate) (lexeme : list ascii) : result json :=
  match ns with
  | NZero | NInt => int_value lexeme
  | NFrac | NExpDigits =>
      Returned (JFloat (string_of_list_ascii (rev lexeme)))
  | NMinus => malformed
  | NDot => (_ <- int_value lexeme ;; malformed)%py
  | NExp | NExpSign =>
      if has_fraction lexeme then malformed
      else (_ <- int_value lexeme ;; malformed)%py
  end.

(** The escapes of one letter: quote, backslash, slash, b, f, n, r, t. *)
Definition simple_escape (c : ascii) : option N :=
  let n := Py.code c in
  if (n =? 34)%N then Some 34%N
  else if (n =? 92)%N then Some 92%N
  else if (n =? 47)%N then Some 47%N
  else if (n =? 98)%N then Some 8%N
  else if (n =? 102)%N then Some 12%N
  else if (n =? 110)%N then Some 10%N
  else if (n =? 114)%N then Some 13%N
  else if (n =? 116)%N then Some 9%N
  else None.

(** The end of a string: an object key waits for its colon, any other
    string is a value. *)
Definition close_string (is_key : bool) (acc : pystr) (stk : list frame)
    : result state :=
  if is_key then
    match stk with
    | FObj members :: rest =>
        Returned (Colon, FObjKey members (rev acc) :: rest)
    | _ => malformed
    end
  else push_value (JStr (rev acc)) stk.

(** A decoded [\uXXXX]; a low surrogate right after an escaped high one
    is joined with it. *)
Definition add_escape (acc : pystr) (high : bool) (u : N) : pystr :=
  match acc with
  | hi :: acc' =>
      if high && is_low_surrogate u then join_surrogates hi u :: acc'
      else u :: acc
  | [] => [u]
  end.

Definition step (st : state) (c : ascii) : result state :=
  let (m, stk) := st in
  match m with
  | Value => if is_ws c then Returned st else start_value stk c
  | ValueOrClose =>
      if is_ws c then Returned st
      else if Ascii.eqb c "]"%char then
        match stk with
        | FArr items :: rest => push_value (JArr (rev items)) rest
        | _ => malformed
        end
      else start_value stk c
  | KeyOrClose =>
      if is_ws c then Returned st
      else if Ascii.eqb c "}"%char then
        match stk with
        | FObj members :: rest => push_value (JObj members) rest
        | _ => malformed
        end
      else if Ascii.eqb c "034"%char
           then Returned (InString true [] false, stk)
      else malformed
  | Key =>
      if is_ws c then Returned st
      else if Ascii.eqb c "034"%char
           then Returned (InString true [] false, stk)
      else malformed
  | Colon =>
      if is_ws c then Returned st
      else if Ascii.eqb c ":"%char then Returned (Value, stk)
      else malformed
  | After | Done _ => after_value st c
  | InString is_key acc high =>
      if Ascii.eqb c "034"%char then close_string is_key acc stk
      else if Ascii.eqb c "092"%char
           then Returned (Escape is_key acc high, stk)
      else if (Py.code c <? 32)%N then malformed
      else Returned (InString is_key (Py.code c :: acc) false, stk)
  | Escape is_key acc high =>
      if Ascii.eqb c "u"%char
      then Returned (Unicode is_key acc high 0 0%N, stk)
      else match simple_escape c with
           | Some u => Returned (InString is_key (u :: acc) false, stk)
           | None => malformed
           end
  | Unicode is_key acc high n u =>
      match hex_value c with
      | Some d =>
          let u' := (16 * u + d)%N in
          if Nat.eqb n 3
          then Returned (InString is_key (add_escape acc high u')
                           (is_high_surrogate u'), stk)
          else Returned (Unicode is_key acc high (S n) u', stk)
      | None => malformed
      end
  | Number ns lexeme =>
      match number_next ns c with
      | Some ns' => Returned (Number ns' (c :: lexeme), stk)
      | None =>
          match ns with
          | NMinus =>
              if Ascii.eqb c "I"%char
              then Returned (Literal "nfinity" (JFloat "-Infinity"), stk)
              else malformed
          | _ =>
              (v <- number_value ns lexeme ;;
               st' <- push_value v stk ;;
               after_value st' c)%py
          end
      end
  | Literal rest v =>
      match rest with
      | String c' rest' =>
          if Ascii.eqb c c' then
            match rest' with
            | EmptyString => push_value v stk
            | _ => Returned (Literal rest' v, stk)
            end
          else malformed
      | EmptyString => malformed
      end
  end.

Fixpoint run (st : state) (s : string) : result state :=
  match s with
  | EmptyString => Returned st
  | String c s' => (st' <- step st c ;; run st' s')%py
  end.

(** The end of the document: one complete value and nothing open.  A
    number that the end of the text cuts off is converted first. *)
Definition finish (st : state) : result json :=
  match st with
  | (Done v, []) => Returned v
  | (Number ns lexeme, stk) =>
      (v <- number_value ns lexeme ;;
       match stk with
       | [] => Returned v
       | _ :: _ => malformed
       end)%py
  | _ => malformed
  end.

(** [json.loads(s)] *)
Definition loads (s : string) : result json :=
  (st <- run (Value, []) s ;; finish st)%py.

End Json.

(* ===================================================================== *)
(** ** HR-Resume-Screener: score and recommendation extractors *)

Module HR.

Import Re.

(** [MATCH SCORE:\s*(\d+)] *)
Definition re_match_score : re :=
  seq [lit "MATCH SCORE:"; Star Py.isspace; Grp (Plus Py.isdigit)].

Definition colon_or_space (c : ascii) : bool :=
  Ascii.eqb c ":"%char || Py.isspace c.

(** [score[:\s]+(\d+)], [(\d+)/10] and [(\d+)\s*out\s*of\s*10], each
    compiled with [re.IGNORECASE]. *)
Definition score_patterns : list re :=
  [ seq [liti "score"; Plus colon_or_space; Grp (Plus Py.isdigit)];
    seq [Grp (Plus Py.isdigit); liti "/10"];
    seq [Grp (Plus Py.isdigit); Star Py.isspace; liti "out";
         Star Py.isspace; liti "of"; Star Py.isspace; liti "10"] ].

(** [int(m.group(1))]; a group that took no part in the match is [None],
    which [int] rejects. *)
Definition int_group1 (m : match_obj) : result Z :=
  match group1 m with
  | Some g => Py.int_of_digits g
  | None => Raised TypeError
  end.

(** The [for pattern in score_patterns] loop and the [return 5] after it. *)
Fixpoint score_loop (patterns : list re) (analysis : string) : result Z :=
  match patterns with
  | [] => Returned 5%Z
  | pattern :: rest =>
      match search pattern analysis with
      | Some m => int_group1 m
      | None => score_loop rest analysis
      end
  end.

Definition parse_score_from_analysis (analysis : string) : result Z :=
  try_except
    (match search re_match_score analysis with
     | Some score_match => int_group1 score_match
     | None => score_loop score_patterns analysis
     end)
    any_exception
    (fun _ => Returned 5%Z).

(** The patterns in the order the code tries them, and the first of a list
    of patterns that matches a text. *)
Definition ordered_patterns : list re := re_match_score :: score_patterns.

Fixpoint first_match (patterns : list re) (text : string)
    : option match_obj :=
  match patterns with
  | [] => None
  | pattern :: rest =>
      match search pattern text with
      | Some m => Some m
      | None => first_match rest text
      end
  end.

(** The labels the prompt asks for, and the default. *)
Definition LABELS : list string := ["HIRE"; "INTERVIEW"; "REJECT"; "REVIEW"].

(** [RECOMMENDATION:\s*([A-Z]+)] *)
Definition re_recommendation : re :=
  seq [lit "RECOMMENDATION:"; Star Py.isspace; Grp (Plus Py.isupper_ascii)].

Definition re_hire : re := Alt (liti "hire") (liti "recommend").
Definition re_interview : re := liti "interview".
Definition re_reject : re := liti "reject".

Definition found (r : re) (s : string) : bool :=
  match search r s with Some _ => true | None => false end.

(** The value returned is [rec_match.group(1)] as it is, or a literal;
    [None] stands for Python's [None]. *)
Definition parse_recommendation_from_analysis (analysis : string)
    : result (option string) :=
  try_except
    (match search re_recommendation analysis with
     | Some rec_match => Returned (group1 rec_match)
     | None =>
         if found re_hire analysis then Returned (Some "HIRE")
         else if found re_interview analysis then Returned (Some "INTERVIEW")
         else if found re_reject analysis then Returned (Some "REJECT")
         else Returned (Some "REVIEW")
     end)
    any_exception
    (fun _ => Returned (Some "REVIEW")).

(** *** The fallback labels in the words of the specification

    Presence of a keyword in the text, letter case set aside, tested in a
    fixed order of priority; REVIEW when no keyword is present. *)

Fixpoint starts_nocase (keyword text : string) : bool :=
  match keyword, text with
  | EmptyString, _ => true
  | String k keyword', String c text' =>
      Ascii.eqb (Py.lower c) (Py.lower k) && starts_nocase keyword' text'
  | String _ _, EmptyString => false
  end.

Fixpoint mentions (keyword text : string) : bool :=
  starts_nocase keyword text ||
  match text with
  | EmptyString => false
  | String _ text' => mentions keyword text'
  end.

Definition keyword_label (analysis : string) : string :=
  if mentions "hire" analysis || mentions "recommend" analysis then "HIRE"
  else if mentions "interview" analysis then "INTERVIEW"
  else if mentions "reject" analysis then "REJECT"
  else "REVIEW".

End HR.

(** [\{.*\}] compiled with [re.DOTALL]: from the first opening brace to
    the last closing brace after it. *)
Definition re_json_span : Re.re :=
  Re.seq [Re.lit "{"; Re.Star (fun _ => true); Re.lit "}"].

(* ===================================================================== *)
(** ** MCQ-Maker: [parse_mcq_response] and [parse_text_response] *)

Module MCQ.

Import Json.

Definition is_option_line (line : string) : bool :=
  Py.startswith "A)" line || Py.startswith "B)" line
  || Py.startswith "C)" line || Py.startswith "D)" line.

Definition is_question_line (line : string) : bool :=
  Py.contains "?"%char line && negb (is_option_line line).

(** The dictionary appended for a question and its options. *)
Definition question_item (question : string) (options : list string) : json :=
  JObj [ (codes "question", JStr (codes question));
         (codes "options", JArr (map (fun o => JStr (codes o)) options));
         (codes "correct_answer", JStr (codes "A"));
         (codes "explanation",
          JStr (codes "Please verify the correct answer.")) ].

(** The variables of the loop. *)
Record loop_state : Type := {
  questions : list json;
  current_question : option string;
  current_options : list string
}.

Definition initial : loop_state :=
  {| questions := []; current_question := None; current_options := [] |}.

(** [if current_question and current_options: questions.append({...})] *)
Definition flush (st : loop_state) : list json :=
  match current_question st, current_options st with
  | Some question, _ :: _ =>
      if Py.truthy question
      then questions st ++ [question_item question (current_options st)]
      else questions st
  | _, _ => questions st
  end.

(** The loop body on a trimmed line that is not blank. *)
Definition on_line (st : loop_state) (line : string) : loop_state :=
  if is_question_line line then
    {| questions := flush st;
       current_question := Some line;
       current_options := [] |}
  else if is_option_line line then
    {| questions := questions st;
       current_question := current_question st;
       current_options := current_options st ++ [line] |}
  else st.

Definition loop_body (st : loop_state) (raw_line : string) : loop_state :=
  let line := Py.strip raw_line in
  if negb (Py.truthy line) then st else on_line st line.

Definition parsed_questions (response : string) : list json :=
  flush (fold_left loop_body (Py.split_lines response) initial).

Definition parse_text_response (response : string) : json :=
  JObj [ (codes "questions", JArr (parsed_questions response)) ].

(** *** The result of the loop as a function of the lines

    The lines are taken trimmed and without the blank ones.  A question
    line starts an item; the option lines up to the next question line are
    its options; an item without options is dropped. *)

Definition trimmed_lines (response : string) : list string :=
  filter Py.truthy (map Py.strip (Py.split_lines response)).

Fixpoint options_until_question (lines : list string) : list string :=
  match lines with
  | [] => []
  | line :: rest =>
      if is_question_line line then []
      else if is_option_line line then line :: options_until_question rest
      else options_until_question rest
  end.

Fixpoint items (lines : list string) : list (string * list string) :=
  match lines with
  | [] => []
  | line :: rest =>
      if is_question_line line
      then (line, options_until_question rest) :: items rest
      else items rest
  end.

Definition has_options (item : string * list string) : bool :=
  match snd item with [] => false | _ :: _ => true end.

Definition kept_items (lines : list string) : list json :=
  map (fun item => question_item (fst item) (snd item))
      (filter has_options (items lines)).

Definition line_parse (response : string) : list json :=
  kept_items (trimmed_lines response).

(** *** The line parse in the words of the specification

    A line that contains a question mark and is not prefixed by an option
    marker starts a new item; a line prefixed by one of the option markers
    is collected as a sub-field of the current item; the current item is
    flushed when a new question line is seen or the input ends; an item
    without sub-fields is discarded. *)

Definition OPTION_MARKERS : list string := ["A)"; "B)"; "C)"; "D)"].

Definition has_marker (line : string) : bool :=
  existsb (fun marker => prefix marker line) OPTION_MARKERS.

Definition starts_item (line : string) : bool :=
  Py.contains "?"%char line && negb (has_marker line).

Record item : Type := {
  item_question : string;
  item_options : list string
}.

Definition collect (line : string) (current : item) : item :=
  {| item_question := item_question current;
     item_options := item_options current ++ [line] |}.

Definition flushed (current : option item) : list item :=
  match current with
  | Some it =>
      match item_options it with
      | [] => []
      | _ :: _ => [it]
      end
  | None => []
  end.

Fixpoint line_items (current : option item) (lines : list string)
    : list item :=
  match lines with
  | [] => flushed current
  | line :: rest =>
      if starts_item line then
        flushed current
        ++ line_items (Some {| item_question := line; item_options := [] |})
             rest
      else if has_marker line then
        line_items (option_map (collect line) current) rest
      else line_items current rest
  end.

(** What an item holds in the record: its question, its options in the
    order of the lines, and the two constants. *)
Definition item_record (it : item) : json :=
  JObj [ (codes "question", JStr (codes (item_question it)));
         (codes "options",
          JArr (map (fun option => JStr (codes option)) (item_options it)));
         (codes "correct_answer", JStr (codes "A"));
         (codes "explanation",
          JStr (codes "Please verify the correct answer.")) ].

Definition questions_record (items : list item) : json :=
  JObj [ (codes "questions", JArr (map item_record items)) ].

(** The claim read to the letter, on the lines as they are split, and with
    each line trimmed first, as the loop does. *)
Definition line_parse_as_split (response : string) : json :=
  questions_record (line_items None (Py.split_lines response)).

Definition line_parse_trimmed (response : string) : json :=
  questions_record (line_items None (map Py.strip (Py.split_lines response))).

(** The item the loop is working on. *)
Definition current_item (st : loop_state) : option item :=
  match current_question st with
  | Some question =>
      Some {| item_question := question;
              item_options := current_options st |}
  | None => None
  end.

(** The item in progress, if it is kept when it is flushed. *)
Definition pending (question : option string) (options : list string)
    : list json :=
  match question, options with
  | Some q, _ :: _ => if Py.truthy q then [question_item q options] else []
  | _, _ => []
  end.

(** A field of a dictionary value. *)
Definition field (name : string) (v : json) : option json :=
  match v with
  | JObj members => dict_get (codes name) members
  | _ => None
  end.

Definition parse_mcq_response (response : string) : result json :=
  try_except
    (match Re.search re_json_span response with
     | Some json_match => Json.loads (Re.group0 json_match)
     | None => Returned (parse_text_response response)
     end)
    is_JSONDecodeError
    (fun _ => Returned (parse_text_response response)).

End MCQ.

(* ===================================================================== *)
(** ** Invoice_Extractor: [extract_invoice_data], [process_multiple_files] *)

Module Invoice.

Import Json.

Definition fence : string := "```".

(** The cleaning step before the first [json.loads]. *)
Definition clean_response (response : string) : string :=
  let response := Py.strip response in
  if Py.startswith (fence ++ Py.nl)%string response then Py.slice 7 3 response
  else if Py.startswith fence response then Py.slice 3 3 response
  else response.

(** Tier 1, the body of the inner [try]: the cleaned response is decoded as
    a whole. *)
Definition strict_parse (response : string) : result json :=
  Json.loads (clean_response response).

(** Tier 2, the handler of [json.JSONDecodeError]: the span from the first
    opening brace to the last closing brace is decoded. *)
Definition recover (response : string) : result json :=
  match Re.search re_json_span response with
  | Some json_match => Json.loads (Re.group0 json_match)
  | None => Raised (Exception "Unable to parse JSON from model response")
  end.

(** The inner [try] of [extract_invoice_data], from the model's response to
    the extracted data.  The handler sees [response] as the cleaning step
    left it. *)
Definition parse_response (response : string) : result json :=
  let response := clean_response response in
  try_except
    (Json.loads response)
    is_JSONDecodeError
    (fun _ => recover response).

(** The fields the prompt asks for. *)
Definition REQUIRED_FIELDS : list string :=
  [ "invoice_number"; "invoice_date"; "company_name"; "company_address";
    "customer_name"; "customer_address"; "items"; "subtotal"; "tax_amount";
    "total_amount"; "phone"; "email" ].

(** A record that has every required field. *)
Definition complete (v : json) : bool :=
  match v with
  | JObj members =>
      forallb (fun k => dict_has (codes k) members) REQUIRED_FIELDS
  | _ => false
  end.

(** One entry of the list [process_multiple_files] returns: the extracted
    dictionary with its ['filename'], or the dictionary
    [{'filename': ..., 'error': str(e)}]. *)
Inductive entry : Type :=
| Data (d : list (pystr * json))
| Failure (filename : string) (error : exn).

(** [data['filename'] = name]: only a dictionary supports it. *)
Definition set_filename (data : json) (name : string)
    : result (list (pystr * json)) :=
  match data with
  | JObj members =>
      Returned (dict_set (codes "filename") (JStr (codes name)) members)
  | _ => Raised TypeError
  end.


(** ['error' in r], the test the application uses to tell a failed entry. *)
Definition has_error_key (r : entry) : bool :=
  match r with
  | Data d => dict_has (codes "error") d
  | Failure _ _ => true
  end.

Section Pipeline.

(** An uploaded file, the text PyPDF2 reads from each of its pages, and the
    model call [self.chain.run]. *)
Variable File : Type.
Variable name : File -> string.
Variable pdf_pages : File -> result (list string).
Variable chain_run : string -> result string.

Definition extract_text_from_pdf (pdf_file : File) : result string :=
  try_except
    (pages <- pdf_pages pdf_file ;;
     Returned
       (Py.strip (String.concat "" (map (fun p => (p ++ Py.nl)%string) pages))))%py
    any_exception
    (fun e => Raised (ExceptionFrom "Error extracting text from PDF: " e)).

Definition extract_invoice_data (pdf_file : File) : result json :=
  try_except
    (invoice_text <- extract_text_from_pdf pdf_file ;;
     if negb (Py.truthy invoice_text)
     then Raised (Exception "No text found in the PDF file")
     else response <- chain_run invoice_text ;; parse_response response)%py
    any_exception
    (fun e => Raised (ExceptionFrom "Error processing invoice: " e)).

(** What one file contributes, taken on its own. *)
Definition entry_of (pdf_file : File) : entry :=
  match (data <- extract_invoice_data pdf_file ;;
         set_filename data (name pdf_file))%py with
  | Returned d => Data d
  | Raised e => Failure (name pdf_file) e
  end.

(** Whether the processing of a file raises, before or after the parse. *)
Definition fails (pdf_file : File) : bool :=
  match (data <- extract_invoice_data pdf_file ;;
         set_filename data (name pdf_file))%py with
  | Returned _ => false
  | Raised _ => true
  end.

(** The body of the [for] loop: one entry is appended whatever happens. *)
Definition process_file (results : list entry) (pdf_file : File)
    : list entry :=
  match (data <- extract_invoice_data pdf_file ;;
         set_filename data (name pdf_file))%py with
  | Returned d => results ++ [Data d]
  | Raised e => results ++ [Failure (name pdf_file) e]
  end.

Definition process_multiple_files (pdf_files : list File) : list entry :=
  fold_left process_file pdf_files [].

End Pipeline.

End Invoice.

(* ===================================================================== *)
(** ** Ticketing-Sys: [classify_text] *)

Module Ticket.

Import Json.

Definition CATEGORIES : list string :=
  [ "PRODUCT_BUG"; "ACCOUNT_ACCESS"; "BILLING"; "FEATURE_REQUEST";
    "USAGE_QUESTION"; "OTHER" ].

(** [category in CATEGORIES]: only a string equal to a label is. *)
Definition in_categories (category : json) : bool :=
  match category with
  | JStr s => existsb (fun cat => pystr_eqb s (codes cat)) CATEGORIES
  | _ => false
  end.

(** [data.get("category", "OTHER")]; only a dictionary has [get]. *)
Definition get_category (data : json) : result json :=
  match data with
  | JObj members =>
      match dict_get (codes "category") members with
      | Some v => Returned v
      | None => Returned (JStr (codes "OTHER"))
      end
  | _ => Raised AttributeError
  end.

(** The fallback loop: the first label that occurs in the content. *)
Fixpoint first_label_in (cats : list string) (content : string) : json :=
  match cats with
  | [] => JStr (codes "OTHER")
  | cat :: rest =>
      if Py.has_substring cat content then JStr (codes cat)
      else first_label_in rest content
  end.

(** [classify_text] from the content of the model's reply on. *)
Definition classify_content (content : string) : result json :=
  try_except
    (data <- Json.loads (Py.strip content) ;;
     category <- get_category data ;;
     Returned (if negb (in_categories category)
               then JStr (codes "OTHER") else category))%py
    any_exception
    (fun _ => Returned (first_label_in CATEGORIES content)).

(** *** The label in the words of the specification

    A reply that decodes into a dictionary is read by its ['category'],
    which counts only if it is one of the labels; any other reply is
    searched for the labels in the order of the list.  OTHER is the label
    when nothing is found. *)

Definition category_of (members : list (pystr * json)) : string :=
  match dict_get (codes "category") members with
  | Some (JStr s) =>
      match find (fun cat => pystr_eqb s (codes cat)) CATEGORIES with
      | Some cat => cat
      | None => "OTHER"
      end
  | _ => "OTHER"
  end.

Definition label_in_text (content : string) : string :=
  match filter (fun cat => Py.has_substring cat content) CATEGORIES with
  | cat :: _ => cat
  | [] => "OTHER"
  end.

Definition label_of_reply (content : string) : string :=
  match Json.loads (Py.strip content) with
  | Returned (JObj members) => category_of members
  | _ => label_in_text content
  end.

Section Chat.

(** [ollama.chat], reduced to the content of the reply. *)
Variable chat : string -> result string.

Definition classify_text (text : string) : result json :=
  (content <- chat text ;; classify_content content)%py.

End Chat.

End Ticket.

(* ===================================================================== *)
(** ** [sorted]

    [sorted(l, key=key, reverse=reverse)] returns a new list and sorts
    stably.  With [reverse=True] the library reverses the list, sorts it
    stably in ascending order and reverses the result, which keeps equal
    keys in their original order. *)

Module PySort.

Section Sorted.
Context {A : Type}.
Variable key : A -> Z.

Fixpoint insert (x : A) (l : list A) : list A :=
  match l with
  | [] => [x]
  | y :: l' => if (key x <=? key y)%Z then x :: l else y :: insert x l'
  end.

Fixpoint sort_asc (l : list A) : list A :=
  match l with
  | [] => []
  | x :: l' => insert x (sort_asc l')
  end.

Definition sorted (reverse : bool) (l : list A) : list A :=
  if reverse then rev (sort_asc (rev l)) else sort_asc l.

(** Keys that never decrease, and keys that never increase, along a list. *)
Fixpoint ascending (l : list A) : Prop :=
  match l with
  | [] => True
  | x :: l' => (forall y, In y l' -> (key x <= key y)%Z) /\ ascending l'
  end.

Fixpoint descending (l : list A) : Prop :=
  match l with
  | [] => True
  | x :: l' => (forall y, In y l' -> (key y <= key x)%Z) /\ descending l'
  end.

(** The entries of a list whose key is [z], in the order of the list. *)
Definition with_key (z : Z) (l : list A) : list A :=
  filter (fun x => (key x =? z)%Z) l.

End Sorted.

End PySort.

(* ===================================================================== *)
(** ** HR-Resume-Screener: [BatchProcessor.process_multiple_resumes] *)

Module Batch.

(** The dictionary appended for a resume. *)
Record resume_result : Type := {
  filename : string;
  score : Z;
  recommendation : option string;
  analysis : string;
  key_info : string;
  resume_text : string
}.

(** The list objects of a run: a reference is a position in the store. *)
Definition store : Type := list (list resume_result).
Definition ref : Type := nat.

Definition deref (r : ref) (h : store) : list resume_result := nth r h [].

(** [[]]: a new, empty list object. *)
Definition new_list (h : store) : ref * store := (length h, h ++ [[]]).

Fixpoint assign (r : ref) (v : list resume_result) (h : store) : store :=
  match r, h with
  | _, [] => []
  | O, _ :: h' => v :: h'
  | S r', x :: h' => x :: assign r' v h'
  end.

(** [results.append(x)] changes the object [results] refers to. *)
Definition append (r : ref) (x : resume_result) (h : store) : store :=
  assign r (deref r h ++ [x]) h.

(** [sorted(results, key=lambda x: x['score'], reverse=True)] makes a new
    object. *)
Definition sorted_by_score (r : ref) (h : store) : ref * store :=
  (length h, h ++ [PySort.sorted score true (deref r h)]).

Section Processor.

(** An uploaded file, [ResumeParser.extract_text_from_pdf] (which returns
    the empty string when the PDF cannot be read) and the two chains, whose
    call gives the reply or the text of the exception raised. *)
Variable File : Type.
Variable name : File -> string.
Variable extract_text_from_pdf : File -> string.
Variable chain_run : string -> string -> string + string.
Variable extraction_chain_run : string -> string + string.

Definition analyze_resume (resume_text job_description : string) : string :=
  match chain_run (Py.take 4000 resume_text) (Py.take 2000 job_description)
  with
  | inl response => response
  | inr e => ("Analysis error: " ++ e)%string
  end.

Definition extract_key_info (resume_text : string) : string :=
  match extraction_chain_run (Py.take 3000 resume_text) with
  | inl response => response
  | inr e => ("Extraction error: " ++ e)%string
  end.

(** What one resume contributes, taken on its own: nothing when no text
    could be read, else its dictionary. *)
Definition result_of (job_description : string) (resume_file : File)
    : list resume_result :=
  let resume_text := extract_text_from_pdf resume_file in
  if Py.truthy resume_text then
    let analysis := analyze_resume resume_text job_description in
    match HR.parse_score_from_analysis analysis,
          HR.parse_recommendation_from_analysis analysis with
    | Returned score, Returned recommendation =>
        [ {| filename := name resume_file;
             score := score;
             recommendation := recommendation;
             analysis := analysis;
             key_info := extract_key_info resume_text;
             resume_text := (Py.take 500 resume_text ++ "...")%string |} ]
    | _, _ => []
    end
  else [].

(** The results of the items, each taken on its own, in input order. *)
Definition built (resume_files : list File) (job_description : string)
    : list resume_result :=
  flat_map (result_of job_description) resume_files.

(** The body of the [for] loop, on the list object [results]. *)
Definition process_resume (job_description : string) (results : ref)
    (h : store) (resume_file : File) : result store :=
  let resume_text := extract_text_from_pdf resume_file in
  if Py.truthy resume_text then
    let analysis := analyze_resume resume_text job_description in
    let key_info := extract_key_info resume_text in
    (score <- HR.parse_score_from_analysis analysis ;;
     recommendation <- HR.parse_recommendation_from_analysis analysis ;;
     Returned
       (append results
          {| filename := name resume_file;
             score := score;
             recommendation := recommendation;
             analysis := analysis;
             key_info := key_info;
             resume_text := (Py.take 500 resume_text ++ "...")%string |}
          h))%py
  else Returned h.

Fixpoint for_each (job_description : string) (results : ref)
    (resume_files : list File) (h : store) : result store :=
  match resume_files with
  | [] => Returned h
  | resume_file :: rest =>
      (h' <- process_resume job_description results h resume_file ;;
       for_each job_description results rest h')%py
  end.

(** The function returns a reference to the sorted list; the store shows
    what became of the list it built. *)
Definition process_multiple_resumes (resume_files : list File)
    (job_description : string) (h : store) : result (ref * store) :=
  let (results, h) := new_list h in
  (h' <- for_each job_description results resume_files h ;;
   Returned (sorted_by_score results h'))%py.

End Processor.

End Batch.

(* ===================================================================== *)
(** ** Concrete inputs

    Documents are written with an apostrophe for the double quote and a
    vertical bar for the line feed; [text] puts the real characters in. *)

Module Demo.

Fixpoint text (s : string) : string :=
  match s with
  | EmptyString => EmptyString
  | String c s' =>
      String (if Ascii.eqb c "'"%char then "034"%char
              else if Ascii.eqb c "|"%char then "010"%char
              else c)
             (text s')
  end.





End Demo.

From Stdlib Require DecimalString.

(* ===================================================================== *)
(** ** Patterns that cannot match without a character of a class *)

Module ReExtra.

Import Re.

(** [s] has a character of the class [p]. *)
Fixpoint has_char (p : ascii -> bool) (s : string) : bool :=
  match s with
  | EmptyString => false
  | String c s' => p c || has_char p s'
  end.

(** Every word of the pattern has a character of the class [p]. *)
Fixpoint forces (p : ascii -> bool) (r : re) : Prop :=
  match r with
  | Eps | Star _ => False
  | Chr q => forall c, q c = true -> p c = true
  | Seq a b => forces p a \/ forces p b
  | Alt a b => forces p a /\ forces p b
  | Grp a => forces p a
  end.

(** Whether [s] starts with a character of the class [p]. *)
Definition starts_with_class (p : ascii -> bool) (s : string) : bool :=
  match s with
  | EmptyString => false
  | String c _ => p c
  end.

(** [s.lower()] on the ASCII letters. *)
Fixpoint lower_str (s : string) : string :=
  match s with
  | EmptyString => EmptyString
  | String c s' => String (Py.lower c) (lower_str s')
  end.

End ReExtra.

(* ===================================================================== *)
(** ** Invoice_Extractor, [app.py]: the summary and the CSV rows of [main] *)

Module InvoiceApp.

Import Json.

(** [len([r for r in results if 'error' not in r])] and
    [len([r for r in results if 'error' in r])]. *)
Definition successful (results : list Invoice.entry) : nat :=
  length (filter (fun r => negb (Invoice.has_error_key r)) results).

Definition failed (results : list Invoice.entry) : nat :=
  length (filter Invoice.has_error_key results).

(** [result.get(key, default)] on an entry. *)
Definition get (r : list (pystr * json)) (key : string) (default : json)
    : json :=
  match dict_get (codes key) r with
  | Some v => v
  | None => default
  end.

(** [len(v)]: text, lists and dictionaries have a length. *)
Definition len (v : json) : result Z :=
  match v with
  | JStr s => Returned (Z.of_nat (length s))
  | JArr items => Returned (Z.of_nat (length items))
  | JObj members => Returned (Z.of_nat (length members))
  | JNull | JBool _ | JInt _ | JFloat _ => Raised TypeError
  end.

Definition empty_str : json := JStr [].

(** The dictionary [flat_data] built for one result. *)
Definition flat_data (r : list (pystr * json))
    : result (list (pystr * json)) :=
  (items_count <- len (get r "items" (JArr [])) ;;
   Returned
     [ (codes "filename", get r "filename" empty_str);
       (codes "invoice_number", get r "invoice_number" empty_str);
       (codes "invoice_date", get r "invoice_date" empty_str);
       (codes "company_name", get r "company_name" empty_str);
       (codes "customer_name", get r "customer_name" empty_str);
       (codes "total_amount", get r "total_amount" empty_str);
       (codes "subtotal", get r "subtotal" empty_str);
       (codes "tax_amount", get r "tax_amount" empty_str);
       (codes "phone", get r "phone" empty_str);
       (codes "email", get r "email" empty_str);
       (codes "items_count", JInt items_count) ])%py.

(** The loop that fills [csv_data]: the results with an ['error'] key are
    passed over. *)
Fixpoint csv_rows (results : list Invoice.entry)
    (csv_data : list (list (pystr * json)))
    : result (list (list (pystr * json))) :=
  match results with
  | [] => Returned csv_data
  | r :: rest =>
      if negb (Invoice.has_error_key r) then
        match r with
        | Invoice.Data d =>
            (row <- flat_data d ;; csv_rows rest (csv_data ++ [row]))%py
        | Invoice.Failure _ _ => csv_rows rest csv_data
        end
      else csv_rows rest csv_data
  end.

Section Results.

(** [pd.DataFrame(items)] and [st.dataframe] of it, the table of the items
    of a result, kept for the exception it may raise; and the truth value
    of a float.  The other calls of the display write text. *)
Variable items_table : json -> result unit.
Variable float_truthy : string -> bool.

(** [bool(v)] *)
Definition truthy (v : json) : bool :=
  match v with
  | JNull => false
  | JBool b => b
  | JInt z => negb (z =? 0)%Z
  | JFloat literal => float_truthy literal
  | JStr s => negb (Nat.eqb (length s) 0)
  | JArr items => negb (Nat.eqb (length items) 0)
  | JObj members => negb (Nat.eqb (length members) 0)
  end.

(** The body of the loop over the results: a result with an ['error'] key
    shows the error; any other shows its fields and, under
    [if 'items' in result and result['items']], the table of its items. *)
Definition show_result (r : Invoice.entry) : result unit :=
  match r with
  | Invoice.Failure _ _ => Returned tt
  | Invoice.Data d =>
      if dict_has (codes "error") d then Returned tt
      else
        match dict_get (codes "items") d with
        | Some items =>
            if truthy items then items_table items else Returned tt
        | None => Returned tt
        end
  end.

Fixpoint show_results (results : list Invoice.entry) : result unit :=
  match results with
  | [] => Returned tt
  | r :: rest => (_ <- show_result r ;; show_results rest)%py
  end.

(** The results section of [main] from the details on: every result is
    shown, then, under [if successful > 0], the rows are built. *)
Definition results_section (results : list Invoice.entry)
    : result (list (list (pystr * json))) :=
  (_ <- show_results results ;;
   if (0 <? successful results)%nat then csv_rows results []
   else Returned [])%py.

End Results.

(** *** The rows as the table has them

    A row has the ten columns of text, each with the value the result has
    under that name or the empty text, and the count of the items. *)

Definition TEXT_COLUMNS : list string :=
  [ "filename"; "invoice_number"; "invoice_date"; "company_name";
    "customer_name"; "total_amount"; "subtotal"; "tax_amount"; "phone";
    "email" ].

Definition items_count (d : list (pystr * json)) : Z :=
  match dict_get (codes "items") d with
  | Some (JStr s) => Z.of_nat (length s)
  | Some (JArr items) => Z.of_nat (length items)
  | Some (JObj members) => Z.of_nat (length members)
  | _ => 0
  end.

Definition row_of (d : list (pystr * json)) : list (pystr * json) :=
  map (fun column =>
         (codes column,
          match dict_get (codes column) d with
          | Some v => v
          | None => JStr []
          end))
      TEXT_COLUMNS
  ++ [ (codes "items_count", JInt (items_count d)) ].

(** The results that get a row, and a result whose ['items'] has no
    length: null, a number or a boolean. *)
Definition exported_data (results : list Invoice.entry)
    : list (list (pystr * json)) :=
  flat_map (fun r =>
              match r with
              | Invoice.Data d =>
                  if dict_has (codes "error") d then [] else [d]
              | Invoice.Failure _ _ => []
              end)
           results.

Definition has_no_len (v : json) : bool :=
  match v with
  | JNull | JBool _ | JInt _ | JFloat _ => true
  | JStr _ | JArr _ | JObj _ => false
  end.

Definition breaks_export (r : Invoice.entry) : bool :=
  match r with
  | Invoice.Data d =>
      negb (dict_has (codes "error") d) &&
      match dict_get (codes "items") d with
      | Some items => has_no_len items
      | None => false
      end
  | Invoice.Failure _ _ => false
  end.

Section Pipeline.
Variable File : Type.
Variable pdf_pages : File -> result (list string).
Variable chain_run : string -> result string.

(** Whether the dictionary decoded for a file has an ['error'] key of its
    own. *)
Definition reports_error (pdf_file : File) : bool :=
  match Invoice.extract_invoice_data File pdf_pages chain_run pdf_file with
  | Returned (JObj members) => dict_has (codes "error") members
  | _ => false
  end.

End Pipeline.

End InvoiceApp.

(* ===================================================================== *)
(** ** Ticketing-Sys: the single ticket and the batch of [app.py] *)

Module TicketApp.

Section Chat.
Variable chat : string -> result string.

(** The text of a single ticket, [subject.strip() + "\n\n" + body.strip()]. *)
Definition single_text (subject body : string) : string :=
  (Py.strip subject ++ Py.nl ++ Py.nl ++ Py.strip body)%string.

(** The "Classify" button: [None] stands for the warning shown instead of a
    classification when [text.strip()] is empty. *)
Definition classify_single (subject body : string)
    : result (option Json.json) :=
  let text := single_text subject body in
  if negb (Py.truthy (Py.strip text)) then Returned None
  else (label <- Ticket.classify_text chat text ;; Returned (Some label))%py.

(** The text of a row, from the texts of its two cells. *)
Definition row_text (row : string * string) : string :=
  (fst row ++ Py.nl ++ Py.nl ++ snd row)%string.

(** The batch loop: one label is appended per row. *)
Fixpoint classify_rows (rows : list (string * string))
    (results : list Json.json) : result (list Json.json) :=
  match rows with
  | [] => Returned results
  | row :: rest =>
      (label <- Ticket.classify_text chat (row_text row) ;;
       classify_rows rest (results ++ [label]))%py
  end.

End Chat.

End TicketApp.

(* ===================================================================== *)
(** ** More concrete inputs *)

Module Demo2.

(** Invoice files named by the text of their single page; the model answers
    a page that starts with a brace by repeating it, and fails otherwise. *)
Definition pages_of (f : string) : result (list string) := Returned [f].

Definition echo_model (invoice_text : string) : result string :=
  if Py.startswith "{" invoice_text then Returned invoice_text
  else Raised (External "connection refused").

(** A model that must not be called. *)
Definition no_model (invoice_text : string) : result string :=
  Raised (External "model called").

(** A chat model that repeats the ticket, and one that is down. *)
Definition echo_chat (text : string) : result string := Returned text.

Definition chat_down_on_billing (text : string) : result string :=
  if Py.has_substring "invoice" text then Raised (External "connection refused")
  else Returned text.

End Demo2.

(* ===================================================================== *)
(** ** Documents that start with an opening brace *)

Module JsonExtra.

Import Json.

Definition is_object (v : json) : bool :=
  match v with JObj _ => true | _ => false end.

Definition is_object_frame (f : frame) : bool :=
  match f with FObj _ | FObjKey _ _ => true | FArr _ => false end.

(** The outermost open container is an object. *)
Fixpoint outermost_object (stk : list frame) : bool :=
  match stk with
  | [] => false
  | [f] => is_object_frame f
  | _ :: rest => outermost_object rest
  end.

(** The states the automaton goes through after an opening brace at the
    start of the document. *)
Definition in_object (st : state) : bool :=
  match st with
  | (Done v, stk) => is_object v && match stk with [] => true | _ => false end
  | (_, stk) => outermost_object stk
  end.

End JsonExtra.

(* ===================================================================== *)
(** ** MCQ-Maker: [download_mcqs_as_text]

    The function reads whatever [parse_mcq_response] returned, so it is
    modelled on every decoded value, with the behaviour of the operators it
    applies ([not], [in], indexing, [get], iteration) on each kind of value.
    Two things are left to parameters: the text [str(v)] of a value that is
    not a string, and the truth value of a float.  A text is a sequence of
    code points, as a decoded string is. *)

Module Download.

Import Json.

Inductive error : Type := KeyError | TypeError | AttributeError.

Inductive outcome (A : Type) : Type :=
| Done (a : A)
| Fails (e : error).
Arguments Done {A} a.
Arguments Fails {A} e.

Definition and_then {A B} (r : outcome A) (f : A -> outcome B) : outcome B :=
  match r with
  | Done a => f a
  | Fails e => Fails e
  end.

Declare Scope download_scope.
Delimit Scope download_scope with download.
Notation "x <- c ;; k" := (and_then c (fun x => k))
  (at level 61, c at next level, right associativity) : download_scope.

(** [str(i)] for a counter. *)
Definition decimal (i : nat) : pystr :=
  codes (DecimalString.NilZero.string_of_uint (Nat.to_uint i)).

Definition line_feed : pystr := codes Py.nl.

(** ["MULTIPLE CHOICE QUESTIONS\n" + "=" * 50 + "\n\n"] *)
Definition header : pystr :=
  codes "MULTIPLE CHOICE QUESTIONS" ++ line_feed
  ++ repeat 61%N 50 ++ line_feed ++ line_feed.

(** ["\n" + "-" * 30 + "\n\n"] *)
Definition footer : pystr :=
  line_feed ++ repeat 45%N 30 ++ line_feed ++ line_feed.

Fixpoint starts (sub s : pystr) : bool :=
  match sub, s with
  | [], _ => true
  | x :: sub', y :: s' => N.eqb x y && starts sub' s'
  | _ :: _, [] => false
  end.

(** [sub in s] for two texts. *)
Fixpoint occurs (sub s : pystr) : bool :=
  starts sub s ||
  match s with
  | [] => false
  | _ :: s' => occurs sub s'
  end.

Section Values.
Variable str_of : json -> pystr.
Variable float_truthy : string -> bool.

(** A value inside an f-string. *)
Definition format (v : json) : pystr :=
  match v with
  | JStr s => s
  | _ => str_of v
  end.

(** [bool(v)] *)
Definition truthy (v : json) : bool :=
  match v with
  | JNull => false
  | JBool b => b
  | JInt z => negb (z =? 0)%Z
  | JFloat literal => float_truthy literal
  | JStr [] => false
  | JStr (_ :: _) => true
  | JArr [] => false
  | JArr (_ :: _) => true
  | JObj [] => false
  | JObj (_ :: _) => true
  end.

(** [key in v] for a text [key]: a key of a dictionary, an element of a
    list, a part of a text; other values do not support the test. *)
Definition contains (key : pystr) (v : json) : outcome bool :=
  match v with
  | JObj members => Done (dict_has key members)
  | JArr items =>
      Done (existsb (fun x => match x with
                              | JStr s => pystr_eqb key s
                              | _ => false
                              end) items)
  | JStr s => Done (occurs key s)
  | JNull | JBool _ | JInt _ | JFloat _ => Fails TypeError
  end.

(** [v[key]] for a text [key]: only a dictionary can be indexed by it. *)
Definition getitem (v : json) (key : pystr) : outcome json :=
  match v with
  | JObj members =>
      match dict_get key members with
      | Some x => Done x
      | None => Fails KeyError
      end
  | _ => Fails TypeError
  end.

(** [v.get(key, default)]: only a dictionary has the method. *)
Definition get (v : json) (key : pystr) (default : json) : outcome json :=
  match v with
  | JObj members =>
      match dict_get key members with
      | Some x => Done x
      | None => Done default
      end
  | _ => Fails AttributeError
  end.

(** [for x in v]: the elements of a list, the characters of a text, the keys
    of a dictionary. *)
Definition iterate (v : json) : outcome (list json) :=
  match v with
  | JArr items => Done items
  | JStr s => Done (map (fun c => JStr [c]) s)
  | JObj members => Done (map (fun kv => JStr (fst kv)) members)
  | JNull | JBool _ | JInt _ | JFloat _ => Fails TypeError
  end.

(** The body of the loop over the questions. *)
Definition add_question (content : pystr) (i : nat) (q : json)
    : outcome pystr :=
  (question <- getitem q (codes "question") ;;
   let content :=
     content ++ codes "Question " ++ decimal i ++ codes ": "
     ++ format question ++ line_feed in
   options <- getitem q (codes "options") ;;
   options <- iterate options ;;
   let content :=
     fold_left (fun content option =>
                  content ++ codes "  " ++ format option ++ line_feed)
               options content in
   answer <- get q (codes "correct_answer") (JStr (codes "Not specified")) ;;
   let content :=
     content ++ codes "Correct Answer: " ++ format answer ++ line_feed in
   has_explanation <- contains (codes "explanation") q ;;
   content <-
     (if has_explanation then
        explanation <- getitem q (codes "explanation") ;;
        Done (content ++ codes "Explanation: " ++ format explanation
              ++ line_feed)
      else Done content) ;;
   Done (content ++ footer))%download.

(** [for i, q in enumerate(..., 1)] *)
Fixpoint add_questions (content : pystr) (i : nat) (questions : list json)
    : outcome pystr :=
  match questions with
  | [] => Done content
  | q :: rest =>
      (content <- add_question content i q ;;
       add_questions content (S i) rest)%download
  end.

(** The result is [None], the text, or an exception. *)
Definition download_mcqs_as_text (mcq_data : json) : outcome (option pystr) :=
  if negb (truthy mcq_data) then Done None
  else
    (has_questions <- contains (codes "questions") mcq_data ;;
     if negb has_questions then Done None
     else
       questions <- getitem mcq_data (codes "questions") ;;
       questions <- iterate questions ;;
       content <- add_questions header 1 questions ;;
       Done (Some content))%download.

End Values.

(** *** The text of the items of a line parse *)

Definition item_block (i : nat) (item : string * list string) : pystr :=
  codes "Question " ++ decimal i ++ codes ": " ++ codes (fst item)
  ++ line_feed
  ++ concat (map (fun o => codes "  " ++ codes o ++ line_feed) (snd item))
  ++ codes "Correct Answer: A" ++ line_feed
  ++ codes "Explanation: Please verify the correct answer." ++ line_feed
  ++ footer.

Fixpoint item_blocks (i : nat) (items : list (string * list string))
    : pystr :=
  match items with
  | [] => []
  | item :: rest => item_block i item ++ item_blocks (S i) rest
  end.

End Download.

(* ===================================================================== *)
(** * Properties *)

(** ** Strings *)

Lemma append_empty_r (s : string) : (s ++ "")%string = s.
Proof. induction s as [|c s IH]; simpl; [reflexivity | now rewrite IH]. Qed.

Lemma append_assoc (a b c : string) :
  ((a ++ b) ++ c)%string = (a ++ (b ++ c))%string.
Proof. induction a as [|x a IH]; simpl; [reflexivity | now rewrite IH]. Qed.

Lemma length_append (a b : string) :
  String.length (a ++ b) = String.length a + String.length b.
Proof. induction a as [|x a IH]; simpl; [reflexivity | now rewrite IH]. Qed.

Lemma substring_prefix (w s : string) :
  substring 0 (String.length w) (w ++ s) = w.
Proof.
  induction w as [|c w IH]; simpl.
  - destruct s; reflexivity.
  - now rewrite IH.
Qed.

Lemma taken_append (w s : string) : Re.taken (w ++ s) s = w.
Proof.
  unfold Re.taken. rewrite length_append.
  replace (String.length w + String.length s - String.length s)
    with (String.length w) by lia.
  apply substring_prefix.
Qed.

Lemma all_chars_append p (a b : string) :
  Py.all_chars p (a ++ b) = Py.all_chars p a && Py.all_chars p b.
Proof.
  induction a as [|c a IH]; simpl; [reflexivity|].
  rewrite IH. now rewrite andb_assoc.
Qed.

(** ** The matcher only reports matches of the pattern *)

Lemma star_loop_sound {X} p (k : string -> option X) s x :
  Re.star_loop p k s = Some x ->
  exists w s', s = (w ++ s')%string /\ Py.all_chars p w = true /\
               k s' = Some x.
Proof.
  induction s as [|c s IH]; simpl; intros H.
  - exists EmptyString, EmptyString. auto.
  - destruct (p c) eqn:Hc.
    + destruct (Re.star_loop p k s) as [y|] eqn:Hs.
      * injection H as <-.
        destruct (IH eq_refl) as (w & s' & -> & Hw & Hk).
        exists (String c w), s'. simpl. rewrite Hc, Hw. auto.
      * exists EmptyString, (String c s). auto.
    + exists EmptyString, (String c s). auto.
Qed.

Lemma captured_refl r g : Re.sets_group r = false -> Re.captured r g g.
Proof. intros H. left. auto. Qed.

Lemma rmatch_sound {X} (r : Re.re) :
  forall s g (k : string -> option string -> option X) x,
    Re.rmatch r s g k = Some x ->
    exists w s' g',
      s = (w ++ s')%string /\ Re.lang r w /\ Re.captured r g g' /\
      k s' g' = Some x.
Proof.
  induction r as [|p|a IHa b IHb|a IHa b IHb|p|a IHa]; simpl; intros s g k x H.
  - exists EmptyString, s, g. repeat split; auto. now left.
  - destruct s as [|c s]; [discriminate|].
    destruct (p c) eqn:Hc; [|discriminate].
    exists (String c EmptyString), s, g. repeat split; eauto. now left.
  - apply IHa in H. destruct H as (u & s1 & g1 & -> & Hu & Hg1 & H).
    apply IHb in H. destruct H as (v & s2 & g2 & -> & Hv & Hg2 & H).
    exists (u ++ v)%string, s2, g2. rewrite append_assoc.
    repeat split; eauto.
    destruct Hg2 as [[-> Hb]|(w & -> & Hw)].
    + destruct Hg1 as [[-> Ha]|(w & -> & Hw)].
      * left. simpl. rewrite Ha, Hb. auto.
      * right. exists w. simpl. auto.
    + right. exists w. simpl. auto.
  - destruct (Re.rmatch a s g k) as [y|] eqn:Ha.
    + injection H as <-. apply IHa in Ha.
      destruct Ha as (w & s' & g' & -> & Hw & Hg & H).
      exists w, s', g'. repeat split; auto.
      destruct Hg as [[-> Hs]|(u & -> & Hu)].
      * left. simpl. rewrite Hs. auto.
      * right. exists u. simpl. auto.
    + apply IHb in H. destruct H as (w & s' & g' & -> & Hw & Hg & H).
      exists w, s', g'. repeat split; auto.
      destruct Hg as [[-> Hs]|(u & -> & Hu)].
      * left. simpl. rewrite Hs. now rewrite andb_false_r.
      * right. exists u. simpl. auto.
  - apply star_loop_sound in H. destruct H as (w & s' & -> & Hw & H).
    exists w, s', g. repeat split; auto. now left.
  - apply IHa in H. destruct H as (w & s' & g' & -> & Hw & _ & H).
    rewrite taken_append in H.
    exists w, s', (Some w). repeat split; auto.
    right. exists w. auto.
Qed.

Lemma match_at_sound r s m :
  Re.match_at r s = Some m ->
  exists w s', s = (w ++ s')%string /\ Re.lang r w /\ Re.group0 m = w /\
               Re.captured r None (Re.group1 m).
Proof.
  unfold Re.match_at. intros H. apply rmatch_sound in H.
  destruct H as (w & s' & g' & -> & Hw & Hg & H).
  injection H as <-. simpl. rewrite taken_append. eauto 8.
Qed.

Lemma search_sound r s m :
  Re.search r s = Some m ->
  exists w, Re.lang r w /\ Re.group0 m = w /\
            Re.captured r None (Re.group1 m).
Proof.
  induction s as [|c s IH]; simpl; intros H.
  - destruct (Re.match_at r "") eqn:Hm; [|discriminate].
    injection H as ->. apply match_at_sound in Hm.
    destruct Hm as (w & s' & _ & ?). eauto.
  - destruct (Re.match_at r (String c s)) eqn:Hm.
    + injection H as ->. apply match_at_sound in Hm.
      destruct Hm as (w & s' & _ & ?). eauto.
    + auto.
Qed.

(** A pattern whose every match goes through a group captures a word of
    that group. *)
Lemma search_group1 r s m :
  Re.sets_group r = true ->
  Re.search r s = Some m ->
  exists u, Re.group1 m = Some u /\ Re.group_lang r u.
Proof.
  intros Hs H. apply search_sound in H.
  destruct H as (w & _ & _ & [[_ Hn]|Hc]); [congruence | exact Hc].
Qed.

(** A match the search finds lies somewhere in the text. *)
Lemma search_inside r s m :
  Re.search r s = Some m ->
  exists a w b, s = (a ++ w ++ b)%string /\ Re.lang r w.
Proof.
  induction s as [|c s IH]; cbn [Re.search]; intros H.
  - destruct (Re.match_at r "") eqn:Hm; [|discriminate].
    apply match_at_sound in Hm. destruct Hm as (w & s' & E & Hw & _).
    exists EmptyString, w, s'. auto.
  - destruct (Re.match_at r (String c s)) eqn:Hm.
    + apply match_at_sound in Hm. destruct Hm as (w & s' & E & Hw & _).
      exists EmptyString, w, s'. auto.
    + destruct (IH H) as (a & w & b & -> & Hw).
      exists (String c a), w, b. auto.
Qed.

(** ** C2: the score extractor *)

Lemma digit_value_range c :
  Py.isdigit c = true -> (0 <= Py.digit_value c <= 9)%Z.
Proof.
  unfold Py.isdigit, Py.digit_value. intros H.
  apply andb_true_iff in H. destruct H as [H1 H2].
  apply N.leb_le in H1. apply N.leb_le in H2. lia.
Qed.

Lemma digits_value_nonneg s :
  forall acc, (0 <= acc)%Z -> Py.all_chars Py.isdigit s = true ->
              (0 <= Py.digits_value acc s)%Z.
Proof.
  induction s as [|c s IH]; cbn [Py.digits_value Py.all_chars];
    intros acc Hacc H; [exact Hacc|].
  apply andb_true_iff in H. destruct H as [Hc Hs].
  apply IH; [|exact Hs]. pose proof (digit_value_range c Hc). lia.
Qed.

Lemma lang_plus p u :
  Re.lang (Re.Plus p) u -> u <> EmptyString /\ Py.all_chars p u = true.
Proof.
  simpl. intros (a & b & -> & (c & -> & Hc) & Hb). simpl.
  rewrite Hc, Hb. split; [discriminate | reflexivity].
Qed.

Lemma group_lang_lit s u : ~ Re.group_lang (Re.lit s) u.
Proof. induction s; simpl; tauto. Qed.

Lemma group_lang_liti s u : ~ Re.group_lang (Re.liti s) u.
Proof. induction s; simpl; tauto. Qed.

Lemma sets_group_lit s : Re.sets_group (Re.lit s) = false.
Proof. induction s; simpl; auto. Qed.

Lemma sets_group_liti s : Re.sets_group (Re.liti s) = false.
Proof. induction s; simpl; auto. Qed.

(** Every score pattern captures a non-empty run of digits. *)
Lemma score_pattern_group pattern text m :
  In pattern HR.ordered_patterns ->
  Re.search pattern text = Some m ->
  exists digits, Re.group1 m = Some digits /\ digits <> EmptyString /\
                 Py.all_chars Py.isdigit digits = true.
Proof.
  intros Hin H.
  assert (Hs : Re.sets_group pattern = true).
  { simpl in Hin.
    destruct Hin as [<-|[<-|[<-|[<-|[]]]]]; simpl;
      rewrite ?sets_group_lit, ?sets_group_liti; reflexivity. }
  destruct (search_group1 _ _ _ Hs H) as (u & Hu & Hg).
  exists u. split; [exact Hu|].
  apply lang_plus.
  simpl in Hin.
  destruct Hin as [<-|[<-|[<-|[<-|[]]]]]; simpl in Hg;
    repeat match goal with
           | H : _ \/ _ |- _ => destruct H
           | H : False |- _ => destruct H
           | H : Re.group_lang (Re.lit _) _ |- _ =>
               destruct (group_lang_lit _ _ H)
           | H : Re.group_lang (Re.liti _) _ |- _ =>
               destruct (group_lang_liti _ _ H)
           end; assumption.
Qed.

(** [int] on a run of digits: its value, unless the run is longer than the
    conversion limit. *)
Lemma int_of_digits_ok digits :
  digits <> EmptyString -> Py.all_chars Py.isdigit digits = true ->
  Py.int_of_digits digits =
    if (String.length digits <=? 4300)%nat
    then Returned (Py.digits_value 0 digits)
    else Raised ValueError.
Proof.
  intros Hne H. unfold Py.int_of_digits.
  destruct digits; [congruence|]. rewrite H. reflexivity.
Qed.

Lemma score_loop_first_match patterns analysis :
  (forall p, In p patterns -> In p HR.ordered_patterns) ->
  match HR.first_match patterns analysis with
  | Some m => exists digits,
      Re.group1 m = Some digits /\ digits <> EmptyString /\
      Py.all_chars Py.isdigit digits = true /\
      HR.score_loop patterns analysis =
        if (String.length digits <=? 4300)%nat
        then Returned (Py.digits_value 0 digits)
        else Raised ValueError
  | None => HR.score_loop patterns analysis = Returned 5%Z
  end.
Proof.
  induction patterns as [|p ps IH];
    cbn [HR.score_loop HR.first_match]; intros Hin; [reflexivity|].
  destruct (Re.search p analysis) as [m|] eqn:Hm.
  - destruct (score_pattern_group p analysis m (Hin p (or_introl eq_refl)) Hm)
      as (d & Hd & Hne & Hall).
    exists d. unfold HR.int_group1. rewrite Hd.
    rewrite int_of_digits_ok by assumption. repeat split; assumption || reflexivity.
  - apply IH. intros q Hq. apply Hin. now right.
Qed.

(** The score extractor on every text: it returns; the value is that of
    the digits the first matching pattern captured, unless the run is
    longer than [int] converts, and 5 in that case and when no pattern
    matches. *)
Lemma parse_score_spec (analysis : string) :
  exists n,
    HR.parse_score_from_analysis analysis = Returned n /\ (0 <= n)%Z /\
    match HR.first_match HR.ordered_patterns analysis with
    | Some m => exists digits,
        Re.group1 m = Some digits /\ digits <> EmptyString /\
        Py.all_chars Py.isdigit digits = true /\
        n = if (String.length digits <=? 4300)%nat
            then Py.digits_value 0 digits else 5%Z
    | None => n = 5%Z
    end.
Proof.
  pose proof (score_loop_first_match HR.ordered_patterns analysis
                (fun p H => H)) as Hloop.
  assert (Hbody :
    match Re.search HR.re_match_score analysis with
    | Some score_match => HR.int_group1 score_match
    | None => HR.score_loop HR.score_patterns analysis
    end = HR.score_loop HR.ordered_patterns analysis) by reflexivity.
  unfold HR.parse_score_from_analysis. rewrite Hbody.
  destruct (HR.first_match HR.ordered_patterns analysis) as [m|].
  - destruct Hloop as (d & Hd & Hne & Hall & ->).
    destruct (String.length d <=? 4300)%nat eqn:Hlen.
    + exists (Py.digits_value 0 d). split; [reflexivity|].
      split; [apply digits_value_nonneg; [lia|assumption]|].
      exists d. rewrite Hlen. repeat split; assumption || reflexivity.
    + exists 5%Z. split; [reflexivity|]. split; [lia|].
      exists d. rewrite Hlen. repeat split; assumption || reflexivity.
  - rewrite Hloop. exists 5%Z. repeat split; lia.
Qed.

(** C2, as the code has it.  For every analysis text
    [parse_score_from_analysis] returns and does not raise; the result is
    a non-negative integer.  When a pattern of the ordered list
    ([MATCH SCORE:], [score], [N/10], [N out of 10]) matches the text, the
    first one that does captures a non-empty run of digits, and the result
    is the decimal value of that run, whatever that value is, as long as the
    run has at most 4300 digits; on a longer run [int] raises [ValueError],
    which the bare [except] turns into 5.  The result is 5 too when no
    pattern matches. *)
Theorem score_extractor_total (analysis : string) :
  exists n,
    HR.parse_score_from_analysis analysis = Returned n /\ (0 <= n)%Z /\
    match HR.first_match HR.ordered_patterns analysis with
    | Some m => exists digits,
        Re.group1 m = Some digits /\ digits <> EmptyString /\
        Py.all_chars Py.isdigit digits = true /\
        n = if (String.length digits <=? 4300)%nat
            then Py.digits_value 0 digits else 5%Z
    | None => n = 5%Z
    end.
Proof. exact (parse_score_spec analysis). Qed.

(** C2 as stated fails: a matched number is returned as it is, also when
    it lies outside 1..10. *)
Lemma score_extractor_out_of_range :
  ~ (exists n, HR.parse_score_from_analysis "MATCH SCORE: 42" = Returned n
               /\ (1 <= n <= 10)%Z).
Proof.
  intros (n & H & Hr). vm_compute in H. injection H as <-. lia.
Qed.

(** ** C3: the label extractors *)

Lemma pystr_eqb_eq a : forall b, Json.pystr_eqb a b = true -> a = b.
Proof.
  induction a as [|x a IH]; intros [|y b]; simpl; intros H;
    try discriminate; [reflexivity|].
  apply andb_true_iff in H. destruct H as [Hx Hab].
  apply N.eqb_eq in Hx. subst. f_equal. auto.
Qed.

Lemma first_label_in_closed cats content :
  exists cat, (In cat cats \/ cat = "OTHER"%string) /\
              Ticket.first_label_in cats content = Json.JStr (Json.codes cat).
Proof.
  induction cats as [|c cats IH]; simpl.
  - exists "OTHER"%string. auto.
  - destruct (Py.has_substring c content).
    + exists c. auto.
    + destruct IH as (cat & [Hin| ->] & H); eauto.
Qed.

Lemma other_is_category : In "OTHER"%string Ticket.CATEGORIES.
Proof. simpl. tauto. Qed.

Lemma in_categories_label category :
  Ticket.in_categories category = true ->
  exists cat, In cat Ticket.CATEGORIES /\ category = Json.JStr (Json.codes cat).
Proof.
  destruct category; cbn [Ticket.in_categories]; try discriminate. intros H.
  apply existsb_exists in H. destruct H as (cat & Hin & Heq).
  apply pystr_eqb_eq in Heq. subst. exists cat. auto.
Qed.

(** [classify_content] always returns one of [CATEGORIES]. *)
Lemma classify_content_closed content :
  exists cat, In cat Ticket.CATEGORIES /\
              Ticket.classify_content content = Returned (Json.JStr (Json.codes cat)).
Proof.
  unfold Ticket.classify_content, try_except, bind, any_exception.
  assert (Hfallback : exists cat, In cat Ticket.CATEGORIES /\
            Ticket.first_label_in Ticket.CATEGORIES content
            = Json.JStr (Json.codes cat)).
  { destruct (first_label_in_closed Ticket.CATEGORIES content)
      as (cat & [Hin| ->] & H); eauto using other_is_category. }
  destruct (Json.loads (Py.strip content)) as [data|e]; cbv beta iota.
  - destruct (Ticket.get_category data) as [category|e]; cbv beta iota.
    + destruct (Ticket.in_categories category) eqn:Hc; cbn [negb].
      * destruct (in_categories_label _ Hc) as (cat & Hin & ->).
        exists cat. split; [exact Hin | reflexivity].
      * exists "OTHER"%string. split; [apply other_is_category|reflexivity].
    + destruct Hfallback as (cat & Hin & ->).
      exists cat. split; [exact Hin | reflexivity].
  - destruct Hfallback as (cat & Hin & ->).
    exists cat. split; [exact Hin | reflexivity].
Qed.

Lemma lang_plus_upper u :
  Re.group_lang HR.re_recommendation u ->
  u <> EmptyString /\ Py.all_chars Py.isupper_ascii u = true.
Proof.
  intros H. apply lang_plus. simpl in H.
  repeat match goal with
         | H : _ \/ _ |- _ => destruct H
         | H : False |- _ => destruct H
         end; assumption.
Qed.

Lemma parse_recommendation_spec (analysis : string) :
  exists label,
    HR.parse_recommendation_from_analysis analysis = Returned (Some label) /\
    match Re.search HR.re_recommendation analysis with
    | Some m =>
        Re.group1 m = Some label /\ label <> EmptyString /\
        Py.all_chars Py.isupper_ascii label = true
    | None => In label HR.LABELS
    end.
Proof.
  unfold HR.parse_recommendation_from_analysis.
  destruct (Re.search HR.re_recommendation analysis) as [m|] eqn:Hm.
  - assert (Hs : Re.sets_group HR.re_recommendation = true) by reflexivity.
    destruct (search_group1 _ _ _ Hs Hm) as (u & Hu & Hg).
    apply lang_plus_upper in Hg. exists u. simpl. rewrite Hu. tauto.
  - unfold HR.LABELS.
    destruct (HR.found HR.re_hire analysis);
      [|destruct (HR.found HR.re_interview analysis);
        [|destruct (HR.found HR.re_reject analysis)]];
      simpl; eexists; (split; [reflexivity|]); simpl; tauto.
Qed.

(** *** The keyword tests are tests of presence *)

Lemma found_unfold r s :
  HR.found r s =
    is_some (Re.match_at r s) ||
    match s with
    | EmptyString => false
    | String _ s' => HR.found r s'
    end.
Proof.
  unfold HR.found.
  destruct s; cbn [Re.search]; destruct (Re.match_at r _); reflexivity.
Qed.

Lemma rmatch_liti_starts {X} keyword :
  forall text g (k : string -> option string -> option X),
    (forall rest, k rest g <> None) ->
    is_some (Re.rmatch (Re.liti keyword) text g k)
    = HR.starts_nocase keyword text.
Proof.
  induction keyword as [|c keyword IH]; intros text g k Hk;
    cbn [Re.liti Re.rmatch HR.starts_nocase].
  - specialize (Hk text). destruct (k text g); [reflexivity|congruence].
  - destruct text as [|x text]; [reflexivity|].
    destruct (Ascii.eqb (Py.lower x) (Py.lower c)); cbn [andb];
      [now apply IH | reflexivity].
Qed.

Lemma match_at_liti keyword text :
  is_some (Re.match_at (Re.liti keyword) text)
  = HR.starts_nocase keyword text.
Proof. unfold Re.match_at. apply rmatch_liti_starts. discriminate. Qed.

Lemma found_liti keyword text :
  HR.found (Re.liti keyword) text = HR.mentions keyword text.
Proof.
  induction text as [|c text IH]; rewrite found_unfold, match_at_liti;
    cbn [HR.mentions]; [reflexivity | now rewrite IH].
Qed.

Lemma found_alt a b text :
  HR.found (Re.Alt a b) text = HR.found a text || HR.found b text.
Proof.
  assert (Hat : forall s,
    is_some (Re.match_at (Re.Alt a b) s)
    = is_some (Re.match_at a s) || is_some (Re.match_at b s)).
  { intros s. unfold Re.match_at. cbn [Re.rmatch].
    destruct (Re.rmatch a s None _); reflexivity. }
  induction text as [|c text IH];
    rewrite (found_unfold (Re.Alt a b)), (found_unfold a), (found_unfold b),
      Hat.
  - now rewrite !orb_false_r.
  - rewrite IH.
    destruct (is_some (Re.match_at a (String c text))),
             (is_some (Re.match_at b (String c text))),
             (HR.found a text), (HR.found b text); reflexivity.
Qed.

(** Without the labelled pattern, the recommendation is the keyword label
    of the specification. *)
Lemma parse_recommendation_keywords analysis :
  Re.search HR.re_recommendation analysis = None ->
  HR.parse_recommendation_from_analysis analysis
  = Returned (Some (HR.keyword_label analysis)).
Proof.
  intros Hnone. unfold HR.parse_recommendation_from_analysis, HR.keyword_label.
  rewrite Hnone. unfold HR.re_hire, HR.re_interview, HR.re_reject.
  rewrite found_alt, !found_liti.
  destruct (HR.mentions "hire" analysis || HR.mentions "recommend" analysis);
    [reflexivity|].
  destruct (HR.mentions "interview" analysis); [reflexivity|].
  destruct (HR.mentions "reject" analysis); reflexivity.
Qed.

(** *** The ticket label *)

Lemma first_label_in_text content :
  Ticket.first_label_in Ticket.CATEGORIES content
  = Json.JStr (Json.codes (Ticket.label_in_text content)).
Proof.
  unfold Ticket.label_in_text.
  generalize Ticket.CATEGORIES as cats.
  induction cats as [|cat cats IH]; cbn [Ticket.first_label_in filter];
    [reflexivity|].
  destruct (Py.has_substring cat content); [reflexivity | exact IH].
Qed.

Lemma category_of_dictionary members :
  (category <- Ticket.get_category (Json.JObj members) ;;
   Returned (if negb (Ticket.in_categories category)
             then Json.JStr (Json.codes "OTHER") else category))%py
  = Returned (Json.JStr (Json.codes (Ticket.category_of members))).
Proof.
  unfold Ticket.get_category, Ticket.category_of, bind.
  destruct (Json.dict_get (Json.codes "category") members) as [v|];
    [|reflexivity].
  destruct v; try reflexivity. cbn [Ticket.in_categories].
  generalize Ticket.CATEGORIES as cats.
  induction cats as [|cat cats IH]; cbn [existsb find]; [reflexivity|].
  destruct (Json.pystr_eqb s (Json.codes cat)) eqn:E; cbn [orb negb].
  - apply pystr_eqb_eq in E. now subst.
  - exact IH.
Qed.

Lemma classify_content_label content :
  Ticket.classify_content content
  = Returned (Json.JStr (Json.codes (Ticket.label_of_reply content))).
Proof.
  unfold Ticket.classify_content, Ticket.label_of_reply.
  destruct (Json.loads (Py.strip content)) as [data|e].
  - destruct data;
      try (cbn [bind Ticket.get_category try_except any_exception];
           now rewrite first_label_in_text).
    change ((data <- Returned (Json.JObj members) ;;
             category <- Ticket.get_category data ;;
             Returned (if negb (Ticket.in_categories category)
                       then Json.JStr (Json.codes "OTHER") else category))%py)
      with ((category <- Ticket.get_category (Json.JObj members) ;;
             Returned (if negb (Ticket.in_categories category)
                       then Json.JStr (Json.codes "OTHER") else category))%py).
    rewrite category_of_dictionary. reflexivity.
  - cbn [bind try_except any_exception]. now rewrite first_label_in_text.
Qed.

Lemma codes_injective a :
  forall b, Json.codes a = Json.codes b -> a = b.
Proof.
  unfold Json.codes.
  induction a as [|x a IH]; intros [|y b]; cbn [list_ascii_of_string map];
    intros H; try discriminate; [reflexivity|].
  injection H as Hx Hab. f_equal; [|now apply IH].
  unfold Py.code in Hx.
  rewrite <- (ascii_N_embedding x), <- (ascii_N_embedding y). now rewrite Hx.
Qed.

(** C3, as the code has it.  Both extractors return for every text.

    The ticket classifier is closed, and OTHER is its default: a reply that
    decodes into a dictionary gives its ['category'] when that is one of
    [CATEGORIES] and OTHER when it is not; any other reply gives the first
    label of [CATEGORIES], in the order of the list, that occurs in the
    reply, and OTHER when none occurs.

    The recommendation extractor is open on its first pattern: when
    [RECOMMENDATION:\s*([A-Z]+)] matches, the result is the captured word, a
    non-empty run of capital letters, whatever it spells.  Only when that
    pattern does not match is the result one of the labels: HIRE when the
    text has "hire" or "recommend" in any letter case, else INTERVIEW when
    it has "interview", else REJECT when it has "reject", else the default
    REVIEW. *)
Theorem label_extractors_total :
  (forall content,
      Ticket.classify_content content
      = Returned (Json.JStr (Json.codes (Ticket.label_of_reply content))) /\
      In (Ticket.label_of_reply content) Ticket.CATEGORIES)
  /\
  (forall analysis, exists label,
      HR.parse_recommendation_from_analysis analysis = Returned (Some label) /\
      match Re.search HR.re_recommendation analysis with
      | Some m =>
          Re.group1 m = Some label /\ label <> EmptyString /\
          Py.all_chars Py.isupper_ascii label = true
      | None => label = HR.keyword_label analysis /\ In label HR.LABELS
      end).
Proof.
  split.
  - intros content. split; [apply classify_content_label|].
    destruct (classify_content_closed content) as (cat & Hin & H).
    rewrite classify_content_label in H. injection H as H.
    apply codes_injective in H. now rewrite H.
  - intros analysis.
    destruct (parse_recommendation_spec analysis) as (label & H & Hm).
    exists label. split; [exact H|].
    destruct (Re.search HR.re_recommendation analysis) eqn:E; [exact Hm|].
    split; [|exact Hm].
    rewrite (parse_recommendation_keywords analysis E) in H. congruence.
Qed.

(** C3 as stated fails: the word after RECOMMENDATION: is returned as it
    is, also when it is none of the labels. *)
Lemma recommendation_outside_labels :
  ~ (exists label,
       HR.parse_recommendation_from_analysis "RECOMMENDATION: MAYBE"
       = Returned (Some label) /\ In label HR.LABELS).
Proof.
  intros (label & H & Hin). vm_compute in H. injection H as <-.
  simpl in Hin. intuition discriminate.
Qed.

(** ** [sorted]: order, permutation, stability, idempotence *)

Section SortedFacts.
Context {A : Type}.
Variable key : A -> Z.

Local Abbreviation insert := (PySort.insert key).
Local Abbreviation sort_asc := (PySort.sort_asc key).
Local Abbreviation ascending := (PySort.ascending key).
Local Abbreviation descending := (PySort.descending key).
Local Abbreviation with_key := (PySort.with_key key).

Lemma insert_In x y l : In y (insert x l) <-> y = x \/ In y l.
Proof.
  induction l as [|a l IH]; simpl.
  - intuition.
  - destruct (key x <=? key a)%Z; simpl; rewrite ?IH; intuition.
Qed.

Lemma insert_ascending x l : ascending l -> ascending (insert x l).
Proof.
  induction l as [|a l IH]; simpl; intros H.
  - split; [intros y []|exact I].
  - destruct H as [Ha Hl].
    destruct (key x <=? key a)%Z eqn:Hxa.
    + apply Z.leb_le in Hxa. simpl. repeat split; auto.
      intros y [<-|Hy]; [assumption|]. specialize (Ha y Hy). lia.
    + apply Z.leb_gt in Hxa. simpl. split; [|auto].
      intros y Hy. apply insert_In in Hy. destruct Hy as [->|Hy]; [lia|auto].
Qed.

Lemma sort_asc_ascending l : ascending (sort_asc l).
Proof.
  induction l as [|x l IH]; simpl; [exact I|]. now apply insert_ascending.
Qed.

Lemma sort_asc_In y l : In y (sort_asc l) <-> In y l.
Proof.
  induction l as [|x l IH]; simpl; [tauto|].
  rewrite insert_In, IH. intuition.
Qed.

Lemma insert_permutation x l : Permutation (x :: l) (insert x l).
Proof.
  induction l as [|a l IH]; simpl; [reflexivity|].
  destruct (key x <=? key a)%Z; [reflexivity|].
  rewrite perm_swap. now constructor.
Qed.

Lemma sort_asc_permutation l : Permutation l (sort_asc l).
Proof.
  induction l as [|x l IH]; simpl; [constructor|].
  rewrite <- insert_permutation. now constructor.
Qed.

(** An ascending list is left as it is. *)
Lemma sort_asc_fixed l : ascending l -> sort_asc l = l.
Proof.
  induction l as [|x l IH]; simpl; intros H; [reflexivity|].
  destruct H as [Hx Hl]. rewrite (IH Hl).
  destruct l as [|a l]; simpl; [reflexivity|].
  assert (Hxa : (key x <= key a)%Z) by (apply Hx; now left).
  apply Z.leb_le in Hxa. now rewrite Hxa.
Qed.

Lemma ascending_app l x :
  ascending l -> (forall y, In y l -> (key y <= key x)%Z) ->
  ascending (l ++ [x]).
Proof.
  induction l as [|a l IH]; simpl; intros H Hx.
  - split; [intros y []|exact I].
  - destruct H as [Ha Hl]. split; [|auto].
    intros y Hy. apply in_app_or in Hy. destruct Hy as [Hy|[<-|[]]]; auto.
Qed.

Lemma descending_app l x :
  descending l -> (forall y, In y l -> (key x <= key y)%Z) ->
  descending (l ++ [x]).
Proof.
  induction l as [|a l IH]; simpl; intros H Hx.
  - split; [intros y []|exact I].
  - destruct H as [Ha Hl]. split; [|auto].
    intros y Hy. apply in_app_or in Hy. destruct Hy as [Hy|[<-|[]]]; auto.
Qed.

Lemma ascending_rev l : ascending l -> descending (rev l).
Proof.
  induction l as [|x l IH]; simpl; intros H; [exact I|].
  destruct H as [Hx Hl]. apply descending_app; [auto|].
  intros y Hy. apply in_rev in Hy. auto.
Qed.

Lemma descending_rev l : descending l -> ascending (rev l).
Proof.
  induction l as [|x l IH]; simpl; intros H; [exact I|].
  destruct H as [Hx Hl]. apply ascending_app; [auto|].
  intros y Hy. apply in_rev in Hy. auto.
Qed.

(** Stability of an insertion: the new entry comes before the entries of
    the same key, and no other class is touched. *)
Lemma with_key_insert z x l :
  with_key z (insert x l) = with_key z (x :: l).
Proof.
  unfold PySort.with_key.
  induction l as [|a l IH]; simpl; [reflexivity|].
  destruct (key x <=? key a)%Z eqn:Hxa; [reflexivity|].
  apply Z.leb_gt in Hxa. simpl. rewrite IH. simpl.
  destruct (key x =? z)%Z eqn:Hx, (key a =? z)%Z eqn:Ha; try reflexivity.
  apply Z.eqb_eq in Hx, Ha. lia.
Qed.

Lemma with_key_sort_asc z l : with_key z (sort_asc l) = with_key z l.
Proof.
  induction l as [|x l IH]; simpl; [reflexivity|].
  rewrite with_key_insert. unfold PySort.with_key in *. simpl.
  now rewrite IH.
Qed.

Lemma sorted_descending l : descending (PySort.sorted key true l).
Proof. apply ascending_rev, sort_asc_ascending. Qed.

Lemma sorted_permutation l :
  Permutation l (PySort.sorted key true l).
Proof.
  unfold PySort.sorted.
  rewrite <- Permutation_rev, <- sort_asc_permutation.
  apply Permutation_rev.
Qed.

Lemma sorted_stable z l :
  with_key z (PySort.sorted key true l) = with_key z l.
Proof.
  unfold PySort.sorted.
  unfold PySort.with_key. rewrite filter_rev.
  fold (with_key z (sort_asc (rev l))). rewrite with_key_sort_asc.
  unfold PySort.with_key. rewrite filter_rev. apply rev_involutive.
Qed.

Lemma sorted_fixed l : descending l -> PySort.sorted key true l = l.
Proof.
  intros H. unfold PySort.sorted.
  rewrite sort_asc_fixed by now apply descending_rev.
  apply rev_involutive.
Qed.

Lemma sorted_idempotent l :
  PySort.sorted key true (PySort.sorted key true l)
  = PySort.sorted key true l.
Proof. apply sorted_fixed, sorted_descending. Qed.

End SortedFacts.

(** ** The store of list objects *)

Lemma length_assign r v : forall h, length (Batch.assign r v h) = length h.
Proof.
  induction r as [|r IH]; intros [|x h]; simpl; auto.
Qed.

Lemma deref_assign_same r v :
  forall h, r < length h -> Batch.deref r (Batch.assign r v h) = v.
Proof.
  unfold Batch.deref.
  induction r as [|r IH]; intros [|x h]; simpl; intros H; try lia; auto.
  apply IH. lia.
Qed.

Lemma deref_assign_other r r' v :
  r' <> r ->
  forall h, Batch.deref r' (Batch.assign r v h) = Batch.deref r' h.
Proof.
  unfold Batch.deref. revert r'.
  induction r as [|r IH]; intros [|r'] Hne [|x h]; simpl; auto; try lia.
Qed.

Lemma deref_app_old r h h2 :
  r < length h -> Batch.deref r (h ++ h2) = Batch.deref r h.
Proof. intros H. unfold Batch.deref. now apply app_nth1. Qed.

Lemma deref_app_new h v : Batch.deref (length h) (h ++ [v]) = v.
Proof. unfold Batch.deref. apply nth_middle. Qed.


Section ResumeBatch.
Variable File : Type.
Variable name : File -> string.
Variable extract_text_from_pdf : File -> string.
Variable chain_run : string -> string -> string + string.
Variable extraction_chain_run : string -> string + string.

Local Abbreviation process_resume :=
  (Batch.process_resume File name extract_text_from_pdf chain_run
     extraction_chain_run).
Local Abbreviation for_each :=
  (Batch.for_each File name extract_text_from_pdf chain_run
     extraction_chain_run).
Local Abbreviation result_of :=
  (Batch.result_of File name extract_text_from_pdf chain_run
     extraction_chain_run).
Local Abbreviation built :=
  (Batch.built File name extract_text_from_pdf chain_run
     extraction_chain_run).
Local Abbreviation process_multiple_resumes :=
  (Batch.process_multiple_resumes File name extract_text_from_pdf chain_run
     extraction_chain_run).

(** One turn of the loop appends what the item contributes and touches no
    other list object. *)
Lemma process_resume_spec jd results h f :
  results < length h ->
  exists h',
    process_resume jd results h f = Returned h' /\
    length h' = length h /\
    Batch.deref results h' = Batch.deref results h ++ result_of jd f /\
    (forall r, r <> results -> Batch.deref r h' = Batch.deref r h).
Proof.
  intros Hr. unfold Batch.process_resume, Batch.result_of.
  destruct (Py.truthy (extract_text_from_pdf f)).
  - set (a := Batch.analyze_resume _ _ _).
    destruct (parse_score_spec a) as (n & -> & _).
    destruct (parse_recommendation_spec a) as (l & -> & _).
    cbn [bind]. eexists. split; [reflexivity|].
    unfold Batch.append. rewrite length_assign.
    rewrite deref_assign_same by assumption.
    split; [reflexivity|]. split; [reflexivity|].
    intros r Hne. now apply deref_assign_other.
  - exists h. rewrite app_nil_r. auto.
Qed.

Lemma for_each_spec jd results files :
  forall h,
    results < length h ->
    exists h',
      for_each jd results files h = Returned h' /\
      length h' = length h /\
      Batch.deref results h' = Batch.deref results h ++ built files jd /\
      (forall r, r <> results -> Batch.deref r h' = Batch.deref r h).
Proof.
  unfold Batch.built.
  induction files as [|f files IH]; intros h Hr; cbn [Batch.for_each flat_map].
  - exists h. rewrite app_nil_r. auto.
  - destruct (process_resume_spec jd results h f Hr)
      as (h1 & -> & Hlen1 & Hres1 & Hoth1).
    cbn [bind].
    destruct (IH h1) as (h2 & -> & Hlen2 & Hres2 & Hoth2); [lia|].
    exists h2. split; [reflexivity|]. split; [lia|].
    split.
    + rewrite Hres2, Hres1. now rewrite app_assoc.
    + intros r Hne. rewrite Hoth2, Hoth1; auto.
Qed.

(** The run returns a reference to a new, sorted list; the list it built is
    still in the store as it was built, and no earlier object changed. *)
Lemma process_multiple_resumes_spec files jd h :
  exists h',
    process_multiple_resumes files jd h = Returned (S (length h), h') /\
    Batch.deref (length h) h' = built files jd /\
    Batch.deref (S (length h)) h'
    = PySort.sorted Batch.score true (built files jd) /\
    (forall r, r < length h -> Batch.deref r h' = Batch.deref r h).
Proof.
  unfold Batch.process_multiple_resumes, Batch.new_list.
  destruct (for_each_spec jd (length h) files (h ++ [[]]))
    as (h1 & -> & Hlen & Hres & Hoth).
  { rewrite length_app. simpl. lia. }
  rewrite deref_app_new in Hres. simpl in Hres.
  rewrite length_app in Hlen. simpl in Hlen.
  cbn [bind]. unfold Batch.sorted_by_score.
  replace (length h1) with (S (length h)) by lia.
  eexists. split; [reflexivity|].
  assert (Hlt : length h < length h1) by lia.
  split; [|split].
  - rewrite deref_app_old by assumption. exact Hres.
  - replace (S (length h)) with (length h1) by lia.
    rewrite deref_app_new. now rewrite Hres.
  - intros r Hr. rewrite deref_app_old by lia.
    rewrite Hoth by lia. apply deref_app_old. assumption.
Qed.

End ResumeBatch.

(** C9.  The ranking step of [process_multiple_resumes] is
    [sorted(results, key=score, reverse=True)].  It leaves the list
    [results] as the loop built it and returns a new list, which is a
    permutation of it in descending order of score; entries of equal score
    keep their relative order; sorting the ranked list again changes
    nothing. *)
Theorem ranking_stable_idempotent
    (File : Type) (name : File -> string)
    (extract_text_from_pdf : File -> string)
    (chain_run : string -> string -> string + string)
    (extraction_chain_run : string -> string + string)
    (resume_files : list File) (job_description : string)
    (h : Batch.store) :
  exists ranked h',
    Batch.process_multiple_resumes File name extract_text_from_pdf chain_run
      extraction_chain_run resume_files job_description h
    = Returned (ranked, h') /\
    ranked <> length h /\
    (forall r, r < length h -> Batch.deref r h' = Batch.deref r h) /\
    let results := Batch.deref (length h) h' in
    let shown := Batch.deref ranked h' in
    results = Batch.built File name extract_text_from_pdf chain_run
                extraction_chain_run resume_files job_description /\
    shown = PySort.sorted Batch.score true results /\
    Permutation results shown /\
    PySort.descending Batch.score shown /\
    (forall z, PySort.with_key Batch.score z shown
               = PySort.with_key Batch.score z results) /\
    PySort.sorted Batch.score true shown = shown.
Proof.
  destruct (process_multiple_resumes_spec File name extract_text_from_pdf
              chain_run extraction_chain_run resume_files job_description h)
    as (h' & Hrun & Hres & Hsorted & Hold).
  exists (S (length h)), h'.
  split; [exact Hrun|]. split; [lia|]. split; [exact Hold|].
  cbv zeta. rewrite Hsorted, Hres.
  repeat split.
  - apply sorted_permutation.
  - apply sorted_descending.
  - intros z. apply sorted_stable.
  - apply sorted_idempotent.
Qed.

(** ** C4: the batch loops *)

Section InvoiceBatch.
Variable File : Type.
Variable name : File -> string.
Variable pdf_pages : File -> result (list string).
Variable chain_run : string -> result string.

Local Abbreviation process_file :=
  (Invoice.process_file File name pdf_pages chain_run).
Local Abbreviation entry_of :=
  (Invoice.entry_of File name pdf_pages chain_run).
Local Abbreviation fails := (Invoice.fails File name pdf_pages chain_run).
Local Abbreviation process_multiple_files :=
  (Invoice.process_multiple_files File name pdf_pages chain_run).

Lemma process_file_appends results f :
  process_file results f = results ++ [entry_of f].
Proof.
  unfold Invoice.process_file, Invoice.entry_of.
  destruct (bind _ _); reflexivity.
Qed.

Lemma fold_process_file files :
  forall results,
    fold_left process_file files results = results ++ map entry_of files.
Proof.
  induction files as [|f files IH]; intros results; simpl.
  - now rewrite app_nil_r.
  - rewrite IH, process_file_appends, <- app_assoc. reflexivity.
Qed.

Lemma process_multiple_files_map files :
  process_multiple_files files = map entry_of files.
Proof. unfold Invoice.process_multiple_files. apply fold_process_file. Qed.



End InvoiceBatch.



(** ** C8 and C10: the heuristic line parse *)

Lemma flush_pending st :
  MCQ.flush st
  = MCQ.questions st
    ++ MCQ.pending (MCQ.current_question st) (MCQ.current_options st).
Proof.
  unfold MCQ.flush, MCQ.pending.
  destruct (MCQ.current_question st) as [q|];
    destruct (MCQ.current_options st); try (now rewrite app_nil_r).
  destruct (Py.truthy q); [reflexivity | now rewrite app_nil_r].
Qed.

Lemma contains_truthy c s : Py.contains c s = true -> Py.truthy s = true.
Proof. destruct s; simpl; [discriminate | reflexivity]. Qed.

Lemma question_line_truthy line :
  MCQ.is_question_line line = true -> Py.truthy line = true.
Proof.
  unfold MCQ.is_question_line. intros H. apply andb_true_iff in H.
  destruct H as [H _]. now apply contains_truthy in H.
Qed.

(** The loop invariant: what is flushed at the end is what was already
    appended, then the item in progress with the options still to come,
    then the items of the remaining lines. *)
Lemma fold_on_line lines :
  forall st,
    MCQ.flush (fold_left MCQ.on_line lines st)
    = MCQ.questions st
      ++ MCQ.pending (MCQ.current_question st)
           (MCQ.current_options st ++ MCQ.options_until_question lines)
      ++ MCQ.kept_items lines.
Proof.
  unfold MCQ.kept_items.
  induction lines as [|line lines IH]; intros st;
    cbn [fold_left MCQ.options_until_question MCQ.items].
  - cbn [filter map]. rewrite !app_nil_r. apply flush_pending.
  - rewrite IH. unfold MCQ.on_line.
    destruct (MCQ.is_question_line line) eqn:Hq.
    + cbn [MCQ.questions MCQ.current_question MCQ.current_options].
      rewrite flush_pending, app_nil_r, <- app_assoc. f_equal. f_equal.
      cbn [filter]. unfold MCQ.has_options at 2. cbn [snd app].
      unfold MCQ.pending at 1.
      rewrite (question_line_truthy _ Hq).
      destruct (MCQ.options_until_question lines); reflexivity.
    + destruct (MCQ.is_option_line line) eqn:Ho.
      * cbn [MCQ.questions MCQ.current_question MCQ.current_options].
        now rewrite <- app_assoc.
      * reflexivity.
Qed.

Lemma fold_loop_body raw_lines :
  forall st,
    fold_left MCQ.loop_body raw_lines st
    = fold_left MCQ.on_line (filter Py.truthy (map Py.strip raw_lines)) st.
Proof.
  induction raw_lines as [|raw raw_lines IH]; intros st; simpl;
    [reflexivity|].
  unfold MCQ.loop_body at 2.
  destruct (Py.truthy (Py.strip raw)); simpl; apply IH.
Qed.

Lemma parsed_questions_line_parse response :
  MCQ.parsed_questions response = MCQ.line_parse response.
Proof.
  unfold MCQ.parsed_questions, MCQ.line_parse, MCQ.trimmed_lines.
  rewrite fold_loop_body, fold_on_line. reflexivity.
Qed.

(** *** The loop against the line parse of the specification *)

Lemma is_option_line_marker line :
  MCQ.is_option_line line = MCQ.has_marker line.
Proof.
  unfold MCQ.is_option_line, MCQ.has_marker, MCQ.OPTION_MARKERS, Py.startswith.
  cbn [existsb]. now rewrite orb_false_r, !orb_assoc.
Qed.

Lemma is_question_line_starts line :
  MCQ.is_question_line line = MCQ.starts_item line.
Proof.
  unfold MCQ.is_question_line, MCQ.starts_item.
  now rewrite is_option_line_marker.
Qed.

Lemma flush_flushed st :
  (forall q, MCQ.current_question st = Some q -> Py.truthy q = true) ->
  MCQ.flush st
  = MCQ.questions st ++ map MCQ.item_record (MCQ.flushed (MCQ.current_item st)).
Proof.
  intros Hq. unfold MCQ.flush, MCQ.flushed, MCQ.current_item.
  destruct (MCQ.current_question st) as [q|];
    [|cbn [map]; now rewrite app_nil_r].
  cbn [MCQ.item_options].
  destruct (MCQ.current_options st) as [|o os];
    [cbn [map]; now rewrite app_nil_r|].
  rewrite (Hq q eq_refl). reflexivity.
Qed.

(** The loop invariant: at the end the loop has appended, to what it had,
    the items the specification makes of the current item and the
    remaining lines, each line trimmed. *)
Lemma loop_line_items raw_lines :
  forall st,
    (forall q, MCQ.current_question st = Some q -> Py.truthy q = true) ->
    MCQ.flush (fold_left MCQ.loop_body raw_lines st)
    = MCQ.questions st
      ++ map MCQ.item_record
           (MCQ.line_items (MCQ.current_item st) (map Py.strip raw_lines)).
Proof.
  induction raw_lines as [|raw raw_lines IH]; intros st Hq;
    cbn [fold_left map MCQ.line_items]; [now apply flush_flushed|].
  unfold MCQ.loop_body at 2.
  destruct (Py.truthy (Py.strip raw)) eqn:Ht; cbn [negb].
  - unfold MCQ.on_line.
    rewrite is_question_line_starts, is_option_line_marker.
    destruct (MCQ.starts_item (Py.strip raw)).
    + rewrite IH.
      * cbn [MCQ.questions]. rewrite (flush_flushed st Hq).
        rewrite map_app, app_assoc. reflexivity.
      * cbn [MCQ.current_question]. intros q H. injection H as <-. exact Ht.
    + destruct (MCQ.has_marker (Py.strip raw)).
      * rewrite IH; [|exact Hq]. cbn [MCQ.questions]. f_equal. f_equal.
        f_equal. unfold MCQ.current_item.
        cbn [MCQ.current_question MCQ.current_options].
        destruct (MCQ.current_question st); reflexivity.
      * now apply IH.
  - destruct (Py.strip raw); [|discriminate].
    change (MCQ.starts_item "") with false.
    change (MCQ.has_marker "") with false. cbv iota.
    now apply IH.
Qed.

Lemma parse_text_response_line_parse response :
  MCQ.parse_text_response response = MCQ.line_parse_trimmed response.
Proof.
  unfold MCQ.parse_text_response, MCQ.line_parse_trimmed,
    MCQ.questions_record, MCQ.parsed_questions.
  rewrite loop_line_items; [reflexivity | discriminate].
Qed.

(** C8, as the code has it.  For every response, [parse_text_response]
    returns the record of the line parse the specification describes,
    applied to the lines of the response with each line trimmed of the
    white space around it: a trimmed line that contains a question mark and
    does not start with [A)], [B)], [C)] or [D)] starts a new item; a
    trimmed line that starts with one of these markers is added to the
    options of the current item; the current item is flushed when the next
    question line is met and at the end of the input; an item without
    options is left out.  Each item of the record holds the question line,
    the list of its option lines and the two constant fields. *)
Theorem heuristic_line_parse (response : string) :
  MCQ.parse_text_response response
  = Json.JObj
      [ (Json.codes "questions",
         Json.JArr
           (map MCQ.item_record
              (MCQ.line_items None
                 (map Py.strip (Py.split_lines response))))) ].
Proof. exact (parse_text_response_line_parse response). Qed.

(** C8 as stated fails: the claim tests the lines as they are split, the
    loop tests them trimmed.  No line of this response starts with an option
    marker, so the line parse of the claim collects nothing and discards the
    item; the loop returns the item with the indented line as its option. *)
Lemma indented_option_is_collected :
  let response := Demo.text "Which one?|   A) this one" in
  Forall (fun line => MCQ.has_marker line = false) (Py.split_lines response)
  /\ MCQ.line_parse_as_split response = MCQ.questions_record []
  /\ MCQ.parse_text_response response
     = MCQ.questions_record
         [ {| MCQ.item_question := "Which one?";
              MCQ.item_options := ["A) this one"] |} ]
  /\ MCQ.parse_text_response response <> MCQ.line_parse_as_split response.
Proof.
  cbv zeta. split; [|split; [|split]].
  - vm_compute. repeat constructor.
  - vm_compute. reflexivity.
  - vm_compute. reflexivity.
  - vm_compute. discriminate.
Qed.

Lemma kept_items_fields lines :
  Forall (fun item =>
            MCQ.field "correct_answer" item
            = Some (Json.JStr (Json.codes "A")) /\
            MCQ.field "explanation" item
            = Some (Json.JStr
                      (Json.codes "Please verify the correct answer.")))
         (MCQ.kept_items lines).
Proof.
  unfold MCQ.kept_items. apply Forall_map. apply Forall_forall.
  intros item _. split; reflexivity.
Qed.

(** C10.  For every response, each question of the record
    [parse_text_response] returns has ["A"] as its [correct_answer] and
    ["Please verify the correct answer."] as its [explanation]. *)
Theorem fallback_answer_is_constant (response : string) :
  exists questions,
    MCQ.parse_text_response response
    = Json.JObj [ (Json.codes "questions", Json.JArr questions) ] /\
    Forall (fun item =>
              MCQ.field "correct_answer" item
              = Some (Json.JStr (Json.codes "A")) /\
              MCQ.field "explanation" item
              = Some (Json.JStr
                        (Json.codes "Please verify the correct answer.")))
           questions.
Proof.
  exists (MCQ.parsed_questions response). split; [reflexivity|].
  rewrite parsed_questions_line_parse. apply kept_items_fields.
Qed.

(** ** The invoice and MCQ response parsers *)

Lemma rstrip_keeps_end c w :
  Py.isspace c = false ->
  Py.rstrip (w ++ String c EmptyString) = (w ++ String c EmptyString)%string.
Proof.
  intros Hc. induction w as [|a w IH]; simpl.
  - now rewrite Hc.
  - rewrite IH. destruct (w ++ String c EmptyString)%string eqn:E;
      [|reflexivity].
    destruct w; discriminate.
Qed.

(** A span from a brace to a brace is left alone by the cleaning step. *)
Lemma clean_response_span body :
  Invoice.clean_response ("{" ++ body ++ "}") = ("{" ++ body ++ "}")%string.
Proof.
  unfold Invoice.clean_response, Py.strip.
  change (Py.lstrip ("{" ++ body ++ "}")) with ("{" ++ body ++ "}")%string.
  change ("{" ++ body ++ "}")%string
    with (String "{"%char body ++ String "}"%char EmptyString)%string.
  rewrite rstrip_keeps_end by reflexivity. reflexivity.
Qed.

Section SpanSearch.
Context {X : Type}.
Variable kc : string -> option X.
Hypothesis kc_empty : kc EmptyString = None.
Hypothesis kc_other :
  forall c s, Ascii.eqb "}"%char c = false -> kc (String c s) = None.

Lemma star_any_none post :
  Py.contains "}"%char post = false ->
  Re.star_loop (fun _ => true) kc post = None.
Proof.
  induction post as [|c post IH]; cbn [Re.star_loop Py.contains]; intros H;
    [exact kc_empty|].
  apply orb_false_iff in H. destruct H as [Hc Hpost].
  rewrite (IH Hpost). now apply kc_other.
Qed.

(** Greedy repetition with backtracking stops at the last closing brace. *)
Lemma star_any_last body post x :
  Py.contains "}"%char post = false ->
  kc (String "}"%char post) = Some x ->
  Re.star_loop (fun _ => true) kc (body ++ String "}"%char post) = Some x.
Proof.
  intros Hpost Hk. induction body as [|c body IH].
  - cbn [append Re.star_loop]. now rewrite (star_any_none post Hpost).
  - cbn [append Re.star_loop]. now rewrite IH.
Qed.

End SpanSearch.

Lemma match_at_span body post :
  Py.contains "}"%char post = false ->
  Re.match_at re_json_span (String "{"%char (body ++ String "}"%char post))
  = Some {| Re.group0 := String "{"%char (body ++ "}"); Re.group1 := None |}.
Proof.
  intros Hpost. unfold Re.match_at, re_json_span.
  cbn [Re.seq Re.lit Re.rmatch].
  change (Ascii.eqb "{"%char "{"%char) with true. cbv iota.
  apply star_any_last; [reflexivity | | exact Hpost |].
  - intros c s Hc. now rewrite Hc.
  - change (Ascii.eqb "}"%char "}"%char) with true. cbv iota.
    f_equal. f_equal.
    change (String "{"%char (body ++ String "}"%char post))
      with (("{" ++ (body ++ String "}"%char post)))%string.
    replace ("{" ++ body ++ String "}"%char post)%string
      with ((String "{"%char (body ++ "}")) ++ post)%string.
    + apply taken_append.
    + cbn [append]. f_equal. rewrite append_assoc. reflexivity.
Qed.

(** The search finds the span from the first opening brace to the last
    closing brace. *)
Lemma search_span pre body post :
  Py.contains "{"%char pre = false ->
  Py.contains "}"%char post = false ->
  Re.search re_json_span (pre ++ "{" ++ body ++ "}" ++ post)
  = Some {| Re.group0 := ("{" ++ body ++ "}")%string; Re.group1 := None |}.
Proof.
  intros Hpre Hpost.
  change ("{" ++ body ++ "}" ++ post)%string
    with (String "{"%char (body ++ String "}"%char post)).
  change ("{" ++ body ++ "}")%string with (String "{"%char (body ++ "}")).
  induction pre as [|c pre IH].
  - cbn [append Re.search]. now rewrite (match_at_span body post Hpost).
  - cbn [Py.contains] in Hpre. apply orb_false_iff in Hpre.
    destruct Hpre as [Hc Hpre].
    cbn [append Re.search].
    assert (Hnone : Re.match_at re_json_span
              (String c (pre ++ String "{"%char (body ++ String "}"%char post)))
            = None).
    { unfold Re.match_at, re_json_span.
      cbn [Re.seq Re.lit Re.rmatch]. now rewrite Hc. }
    rewrite Hnone. now apply IH.
Qed.

(** The two limits of the decoder: an integer of 4300 digits is converted
    and one of 4301 digits is not; arrays nested a hundred deep are decoded
    and arrays nested a thousand deep are not. *)
Lemma decoder_limits :
  returns (Json.loads (Py.repeat "7" 4300)) = true /\
  Json.loads (Py.repeat "7" 4301) = Raised ValueError /\
  returns (Json.loads (Py.repeat "[" 100 ++ Py.repeat "]" 100)) = true /\
  Json.loads (Py.repeat "[" 1000 ++ Py.repeat "]" 1000)
  = Raised RecursionError.
Proof. split; [|split; [|split]]; vm_compute; reflexivity. Qed.

(** The words of the span pattern, and a text without such a word. *)
Lemma span_language w :
  Re.lang re_json_span w -> exists middle, w = ("{" ++ middle ++ "}")%string.
Proof.
  unfold re_json_span. cbn [Re.seq Re.lit Re.lang].
  intros (u & v & -> & (u1 & u2 & -> & (c & -> & Hc) & ->) &
          (middle & v2 & -> & _ & (v3 & v4 & -> & (d & -> & Hd) & ->))).
  apply Ascii.eqb_eq in Hc, Hd. subst c d. exists middle.
  reflexivity.
Qed.

Lemma search_no_span s :
  (forall before middle after,
      s <> (before ++ "{" ++ middle ++ "}" ++ after)%string) ->
  Re.search re_json_span s = None.
Proof.
  intros Hno. destruct (Re.search re_json_span s) as [m|] eqn:Hm;
    [|reflexivity].
  apply search_inside in Hm. destruct Hm as (a & w & b & -> & Hw).
  destruct (span_language w Hw) as (middle & ->).
  exfalso. apply (Hno a middle b). now rewrite !append_assoc.
Qed.

Lemma no_brace_no_span s :
  Py.contains "{"%char s = false ->
  forall before middle after,
    s <> (before ++ "{" ++ middle ++ "}" ++ after)%string.
Proof.
  intros H before middle after ->.
  induction before as [|c before IH]; cbn [append Py.contains] in H.
  - discriminate.
  - apply orb_false_iff in H. destruct H as [_ H]. auto.
Qed.

(** *** Trimming around a span *)

Lemma lstrip_before_brace pre rest :
  Py.lstrip (pre ++ String "{"%char rest)
  = (Py.lstrip pre ++ String "{"%char rest)%string.
Proof.
  induction pre as [|c pre IH]; cbn [append Py.lstrip]; [reflexivity|].
  destruct (Py.isspace c); [exact IH | reflexivity].
Qed.

Lemma rstrip_after_brace a post :
  Py.rstrip (a ++ String "}"%char post)
  = (a ++ String "}"%char (Py.rstrip post))%string.
Proof.
  induction a as [|c a IH]; cbn [append Py.rstrip].
  - destruct (Py.rstrip post); reflexivity.
  - rewrite IH.
    destruct (a ++ String "}"%char (Py.rstrip post))%string eqn:E;
      [|reflexivity].
    destruct a; discriminate.
Qed.

Lemma contains_lstrip c s :
  Py.contains c s = false -> Py.contains c (Py.lstrip s) = false.
Proof.
  induction s as [|d s IH]; cbn [Py.contains Py.lstrip]; intros H;
    [reflexivity|].
  destruct (Py.isspace d); [|exact H].
  apply orb_false_iff in H. destruct H as [_ H]. auto.
Qed.

Lemma contains_rstrip c s :
  Py.contains c s = false -> Py.contains c (Py.rstrip s) = false.
Proof.
  induction s as [|d s IH]; cbn [Py.contains Py.rstrip]; intros H;
    [reflexivity|].
  apply orb_false_iff in H. destruct H as [Hd H].
  specialize (IH H).
  destruct (Py.rstrip s) eqn:E.
  - destruct (Py.isspace d); cbn [Py.contains]; [reflexivity|].
    now rewrite Hd.
  - cbn [Py.contains] in *. now rewrite Hd, IH.
Qed.

Lemma strip_around_span pre body post :
  Py.strip (pre ++ "{" ++ body ++ "}" ++ post)
  = (Py.lstrip pre ++ "{" ++ body ++ "}" ++ Py.rstrip post)%string.
Proof.
  unfold Py.strip.
  change ("{" ++ body ++ "}" ++ post)%string
    with (String "{"%char (body ++ String "}"%char post)).
  rewrite lstrip_before_brace.
  replace (Py.lstrip pre ++ String "{"%char (body ++ String "}"%char post))%string
    with ((Py.lstrip pre ++ String "{"%char body) ++ String "}"%char post)%string
    by (now rewrite append_assoc).
  rewrite rstrip_after_brace. now rewrite append_assoc.
Qed.

Lemma strict_parse_span body :
  Invoice.strict_parse ("{" ++ body ++ "}") = Json.loads ("{" ++ body ++ "}").
Proof. unfold Invoice.strict_parse. now rewrite clean_response_span. Qed.

Lemma recover_span pre body post :
  Py.contains "{"%char pre = false ->
  Py.contains "}"%char post = false ->
  Invoice.recover (pre ++ "{" ++ body ++ "}" ++ post)
  = Json.loads ("{" ++ body ++ "}").
Proof.
  intros Hpre Hpost. unfold Invoice.recover.
  now rewrite (search_span pre body post Hpre Hpost).
Qed.

(** *** The tiers of the two parsers *)

Lemma parse_response_tiers response :
  Invoice.parse_response response
  = match Invoice.strict_parse response with
    | Returned record => Returned record
    | Raised JSONDecodeError => Invoice.recover (Invoice.clean_response response)
    | Raised e => Raised e
    end.
Proof.
  unfold Invoice.parse_response, Invoice.strict_parse, try_except.
  destruct (Json.loads (Invoice.clean_response response)) as [v|[]];
    reflexivity.
Qed.

Lemma parse_response_returns response record :
  Invoice.parse_response response = Returned record ->
  Invoice.strict_parse response = Returned record \/
  (Invoice.strict_parse response = Raised JSONDecodeError /\
   exists m, Re.search re_json_span (Invoice.clean_response response) = Some m
             /\ Json.loads (Re.group0 m) = Returned record).
Proof.
  rewrite parse_response_tiers.
  destruct (Invoice.strict_parse response) as [v|[]]; try discriminate.
  - intros H. left. exact H.
  - unfold Invoice.recover.
    destruct (Re.search re_json_span (Invoice.clean_response response))
      as [m|]; [|discriminate].
    intros H. right. split; [reflexivity|]. exists m. auto.
Qed.

Lemma parse_mcq_response_tiers response :
  MCQ.parse_mcq_response response
  = match Re.search re_json_span response with
    | Some json_match =>
        match Json.loads (Re.group0 json_match) with
        | Returned record => Returned record
        | Raised JSONDecodeError =>
            Returned (MCQ.parse_text_response response)
        | Raised e => Raised e
        end
    | None => Returned (MCQ.parse_text_response response)
    end.
Proof.
  unfold MCQ.parse_mcq_response, try_except.
  destruct (Re.search re_json_span response) as [m|]; [|reflexivity].
  destruct (Json.loads (Re.group0 m)) as [v|[]]; reflexivity.
Qed.

Lemma parse_mcq_response_returns response record :
  MCQ.parse_mcq_response response = Returned record ->
  record = MCQ.parse_text_response response \/
  exists m, Re.search re_json_span response = Some m /\
            Json.loads (Re.group0 m) = Returned record.
Proof.
  rewrite parse_mcq_response_tiers.
  destruct (Re.search re_json_span response) as [m|];
    [|intros H; injection H as <-; now left].
  destruct (Json.loads (Re.group0 m)) as [v|[]] eqn:E; try discriminate.
  - intros H. injection H as <-. right. exists m. auto.
  - intros H. injection H as <-. now left.
Qed.

(** C6.  The recovered-substring parse against the strict parse of the
    isolated span.

    The invoice parser reaches its second tier only after the strict parse
    of the cleaned response raised [JSONDecodeError], and it searches the
    cleaned response, not the reply: when the cleaned response is prose
    without an opening brace, a span from brace to brace, and prose without
    a closing brace, the parser gives what the strict parse gives on the
    span alone.  [parse_mcq_response] searches the reply itself and returns
    the record of a span that decodes.

    The equivalence is lost at a reply that the cleaning step damages: the
    reply made of a fence and a line feed, the span [{"a": 1}], a line feed
    and a fence has a span that decodes, and the parser raises. *)
Theorem recovered_span_after_cleaning :
  (forall response before middle after,
      Invoice.clean_response response
      = (before ++ "{" ++ middle ++ "}" ++ after)%string ->
      Py.contains "{"%char before = false ->
      Py.contains "}"%char after = false ->
      Invoice.strict_parse response = Raised JSONDecodeError ->
      Invoice.parse_response response
      = Invoice.strict_parse ("{" ++ middle ++ "}"))
  /\
  (forall before middle after record,
      Py.contains "{"%char before = false ->
      Py.contains "}"%char after = false ->
      Invoice.strict_parse ("{" ++ middle ++ "}") = Returned record ->
      MCQ.parse_mcq_response (before ++ "{" ++ middle ++ "}" ++ after)
      = Returned record)
  /\
  (let response := Demo.text "```|{'a': 1}|```" in
   response
   = ((Invoice.fence ++ Py.nl) ++ "{" ++ Demo.text "'a': 1" ++ "}"
      ++ (Py.nl ++ Invoice.fence))%string /\
   Py.contains "{"%char (Invoice.fence ++ Py.nl) = false /\
   Py.contains "}"%char (Py.nl ++ Invoice.fence) = false /\
   Invoice.strict_parse ("{" ++ Demo.text "'a': 1" ++ "}")
   = Returned (Json.JObj [ (Json.codes "a", Json.JInt 1) ]) /\
   Invoice.parse_response response
   = Raised (Exception "Unable to parse JSON from model response")).
Proof.
  split; [|split].
  - intros response before middle after Hclean Hpre Hpost Hstrict.
    rewrite parse_response_tiers, Hstrict, Hclean.
    rewrite (recover_span _ _ _ Hpre Hpost). now rewrite strict_parse_span.
  - intros before middle after record Hpre Hpost Hvalid.
    rewrite strict_parse_span in Hvalid.
    rewrite parse_mcq_response_tiers, (search_span _ _ _ Hpre Hpost).
    cbn [Re.group0]. now rewrite Hvalid.
  - vm_compute. repeat split.
Qed.

Lemma recovered_span_after_cleaning_witness :
  Invoice.parse_response
    (Demo.text "Sure! The data: {'total': 108.5} Hope that helps!")
  = Invoice.strict_parse ("{" ++ Demo.text "'total': 108.5" ++ "}")
  /\
  MCQ.parse_mcq_response
    ("Sure! The data: " ++ "{" ++ Demo.text "'total': 108.5" ++ "}"
     ++ " Hope that helps!")
  = Returned (Json.JObj [ (Json.codes "total", Json.JFloat "108.5") ]).
Proof.
  split.
  - apply (proj1 recovered_span_after_cleaning
             (Demo.text "Sure! The data: {'total': 108.5} Hope that helps!")
             "Sure! The data: " (Demo.text "'total': 108.5")
             " Hope that helps!");
      vm_compute; reflexivity.
  - apply (proj1 (proj2 recovered_span_after_cleaning)
             "Sure! The data: " (Demo.text "'total': 108.5")
             " Hope that helps!");
      vm_compute; reflexivity.
Defined.

(** C1, as the code has it.  Neither parser is total.

    [parse_mcq_response] looks for the span from the first opening brace to
    the last closing brace.  Without a span it returns the record of the
    line parse.  With a span, the outcome is that of [json.loads] on the
    span: the decoded record when it returns, the record of the line parse
    when it raises [JSONDecodeError], and any other exception of the decoder
    ([ValueError] for an integer of more than 4300 digits, [RecursionError]
    for a document nested too deep) is raised by the parser.

    The invoice parser decodes the cleaned response.  It returns the record
    when that returns, and raises the decoder's exception when that is not
    [JSONDecodeError].  On [JSONDecodeError] it turns to the span of the
    cleaned response: its outcome is that of [json.loads] on the span,
    record or exception, and without a span it raises
    "Unable to parse JSON from model response". *)
Theorem response_parsers_outcomes (response : string) :
  (forall before middle after,
      response = (before ++ "{" ++ middle ++ "}" ++ after)%string ->
      Py.contains "{"%char before = false ->
      Py.contains "}"%char after = false ->
      MCQ.parse_mcq_response response
      = match Json.loads ("{" ++ middle ++ "}") with
        | Returned record => Returned record
        | Raised JSONDecodeError =>
            Returned (MCQ.parse_text_response response)
        | Raised e => Raised e
        end)
  /\
  ((forall before middle after,
       response <> (before ++ "{" ++ middle ++ "}" ++ after)%string) ->
   MCQ.parse_mcq_response response
   = Returned (MCQ.parse_text_response response))
  /\
  match Json.loads (Invoice.clean_response response) with
  | Returned record => Invoice.parse_response response = Returned record
  | Raised JSONDecodeError =>
      (forall before middle after,
          Invoice.clean_response response
          = (before ++ "{" ++ middle ++ "}" ++ after)%string ->
          Py.contains "{"%char before = false ->
          Py.contains "}"%char after = false ->
          Invoice.parse_response response
          = Json.loads ("{" ++ middle ++ "}"))
      /\
      ((forall before middle after,
           Invoice.clean_response response
           <> (before ++ "{" ++ middle ++ "}" ++ after)%string) ->
       Invoice.parse_response response
       = Raised (Exception "Unable to parse JSON from model response"))
  | Raised e => Invoice.parse_response response = Raised e
  end.
Proof.
  split; [|split].
  - intros before middle after -> Hpre Hpost.
    rewrite parse_mcq_response_tiers, (search_span _ _ _ Hpre Hpost).
    reflexivity.
  - intros Hno. rewrite parse_mcq_response_tiers.
    now rewrite (search_no_span response Hno).
  - rewrite parse_response_tiers. unfold Invoice.strict_parse.
    destruct (Json.loads (Invoice.clean_response response)) as [v|[]];
      try reflexivity.
    split.
    + intros before middle after -> Hpre Hpost.
      apply (recover_span _ _ _ Hpre Hpost).
    + intros Hno. unfold Invoice.recover.
      now rewrite (search_no_span _ Hno).
Qed.

(** The outcomes at four replies: prose around a span that does not decode
    goes to the line parse; the same with an integer of 4301 digits in the
    span makes the parser of the questions raise; a reply without a brace
    goes to the line parse; and the invoice parser gives the outcome of the
    decoder on the span of a reply that does not decode as a whole. *)
Lemma response_parsers_outcomes_witness :
  MCQ.parse_mcq_response
    ("Here it is: " ++ "{" ++ "count: 7" ++ "}" ++ " Done.")%string
  = Returned
      (MCQ.parse_text_response
         ("Here it is: " ++ "{" ++ "count: 7" ++ "}" ++ " Done.")%string)
  /\
  MCQ.parse_mcq_response
    ("Here it is: " ++ "{" ++ (Demo.text "'count': " ++ Py.repeat "7" 4301)
     ++ "}" ++ " Done.")%string
  = Raised ValueError
  /\
  MCQ.parse_mcq_response "No questions today."
  = Returned (MCQ.parse_text_response "No questions today.")
  /\
  Invoice.parse_response (Demo.text "Total: {'total': 5} as asked")
  = Json.loads ("{" ++ Demo.text "'total': 5" ++ "}").
Proof.
  split; [|split; [|split]].
  - rewrite (proj1 (response_parsers_outcomes _)
               "Here it is: " "count: 7" " Done." eq_refl eq_refl eq_refl).
    vm_compute. reflexivity.
  - rewrite (proj1 (response_parsers_outcomes _)
               "Here it is: "
               (Demo.text "'count': " ++ Py.repeat "7" 4301)%string
               " Done." eq_refl eq_refl eq_refl).
    vm_compute. reflexivity.
  - apply (proj1 (proj2 (response_parsers_outcomes "No questions today."))).
    apply no_brace_no_span. reflexivity.
  - pose proof (proj2 (proj2 (response_parsers_outcomes
                                (Demo.text "Total: {'total': 5} as asked"))))
      as H.
    destruct H as [H _].
    apply (H "Total: " (Demo.text "'total': 5") " as asked");
      vm_compute; reflexivity.
Defined.

(** C1 as stated fails, for both parsers: on a reply without any brace the
    invoice parser raises; on a reply whose span holds an integer of 4301
    digits the parser of the questions raises the [ValueError] of the
    decoder, and on a reply whose span holds a thousand nested arrays its
    [RecursionError]. *)
Lemma response_parsers_raise :
  Invoice.parse_response "I could not read this invoice."
  = Raised (Exception "Unable to parse JSON from model response")
  /\
  MCQ.parse_mcq_response
    ("{" ++ Demo.text "'count': " ++ Py.repeat "7" 4301 ++ "}")%string
  = Raised ValueError
  /\
  MCQ.parse_mcq_response
    ("{" ++ Demo.text "'rows': " ++ Py.repeat "[" 1000 ++ Py.repeat "]" 1000
     ++ "}")%string
  = Raised RecursionError.
Proof. split; [|split]; vm_compute; reflexivity. Qed.

(** C7, as the code has it.  A record the invoice parser returns is what
    [json.loads] decodes, from the cleaned response or from its span: it
    has the keys of the decoded document and no other. *)
Theorem parsed_record_is_decoded_document
    (response : string) (record : Json.json) :
  Invoice.parse_response response = Returned record ->
  exists document,
    Json.loads document = Returned record /\
    (document = Invoice.clean_response response \/
     exists m,
       Re.search re_json_span (Invoice.clean_response response) = Some m /\
       document = Re.group0 m).
Proof.
  intros H. apply parse_response_returns in H.
  destruct H as [H|(_ & m & Hm & Hl)].
  - exists (Invoice.clean_response response). split; [exact H | now left].
  - exists (Re.group0 m). split; [exact Hl|]. right. exists m. auto.
Qed.

Lemma parsed_record_is_decoded_document_witness :
  exists document,
    Json.loads document
    = Returned (Json.JObj [ (Json.codes "invoice_number",
                             Json.JStr (Json.codes "INV-1")) ]) /\
    (document
     = Invoice.clean_response (Demo.text "Here: {'invoice_number': 'INV-1'}")
     \/
     exists m,
       Re.search re_json_span
         (Invoice.clean_response
            (Demo.text "Here: {'invoice_number': 'INV-1'}")) = Some m /\
       document = Re.group0 m).
Proof.
  apply (parsed_record_is_decoded_document
           (Demo.text "Here: {'invoice_number': 'INV-1'}")).
  vm_compute. reflexivity.
Defined.

(** C7 as stated fails: the reply of the specification's own scenario is
    parsed with success into a record of two keys; the other required
    fields are absent from it. *)
Lemma parsed_record_lacks_required_fields :
  ~ (forall record,
       Invoice.parse_response
         (Demo.text "Sure! Here's the data: {'invoice_number': 'INV-1', 'total_amount': 108.5} Hope that helps!")
       = Returned record ->
       Invoice.complete record = true).
Proof.
  intros H.
  specialize (H _ eq_refl). vm_compute in H. discriminate.
Qed.

(** C5: the code at a reply whose fence is followed by a line feed.  The
    first branch of the cleaning step tests for a prefix of four characters
    and cuts seven: the first three characters of the content go with the
    fence, and neither tier can decode what is left. *)
Theorem fence_strip_cuts_content :
  Invoice.clean_response (Demo.text "```|{'a': 1}|```")
  = Demo.text "': 1}|" /\
  Invoice.strict_parse (Demo.text "{'a': 1}")
  = Returned (Json.JObj [ (Json.codes "a", Json.JInt 1) ]) /\
  Invoice.parse_response (Demo.text "```|{'a': 1}|```")
  = Raised (Exception "Unable to parse JSON from model response").
Proof. vm_compute. repeat split. Qed.

Lemma prefix_append a b :
  forall s, prefix (a ++ b) s = true -> prefix a s = true.
Proof.
  induction a as [|c a IH]; intros [|d s]; cbn [append prefix];
    try reflexivity; try discriminate.
  destruct (ascii_dec c d); [apply IH | discriminate].
Qed.

(** In the whole invoice parser the handler sees the cleaned response.
    When the trimmed response does not start with a fence and does not
    decode as a whole, the record of the span is what the parser returns. *)
Lemma parse_response_recovers_span pre body post record :
  Py.contains "{"%char pre = false ->
  Py.contains "}"%char post = false ->
  Json.loads ("{" ++ body ++ "}") = Returned record ->
  Py.startswith Invoice.fence
    (Py.strip (pre ++ "{" ++ body ++ "}" ++ post)) = false ->
  Invoice.strict_parse (pre ++ "{" ++ body ++ "}" ++ post)
  = Raised JSONDecodeError ->
  Invoice.parse_response (pre ++ "{" ++ body ++ "}" ++ post)
  = Returned record.
Proof.
  intros Hpre Hpost Hvalid Hfence Hstrict.
  unfold Invoice.parse_response. unfold Invoice.strict_parse in Hstrict.
  rewrite Hstrict. cbn [try_except is_JSONDecodeError].
  assert (Hclean : Invoice.clean_response (pre ++ "{" ++ body ++ "}" ++ post)
                   = Py.strip (pre ++ "{" ++ body ++ "}" ++ post)).
  { unfold Invoice.clean_response. rewrite Hfence.
    destruct (Py.startswith (Invoice.fence ++ Py.nl)
                (Py.strip (pre ++ "{" ++ body ++ "}" ++ post))) eqn:E;
      [|reflexivity].
    apply prefix_append in E. unfold Py.startswith in Hfence. congruence. }
  rewrite Hclean, strip_around_span.
  rewrite recover_span; auto using contains_lstrip, contains_rstrip.
Qed.

(** The second branch of the cleaning step does what the claim says: a
    reply between two fences, the first not followed by a line feed, is
    reduced to what stands between them. *)
Lemma clean_response_plain_fence content :
  Py.startswith Py.nl content = false ->
  Invoice.clean_response (Invoice.fence ++ content ++ Invoice.fence)
  = content.
Proof.
  intros Hnl. unfold Invoice.clean_response, Py.strip, Invoice.fence.
  change (Py.lstrip ("```" ++ content ++ "```"))
    with ("```" ++ content ++ "```")%string.
  replace ("```" ++ content ++ "```")%string
    with (("```" ++ content ++ "``") ++ String "`"%char EmptyString)%string
    by (cbn [append]; now rewrite append_assoc).
  rewrite rstrip_keeps_end by reflexivity.
  replace (("```" ++ content ++ "``") ++ String "`"%char EmptyString)%string
    with ("```" ++ content ++ "```")%string
    by (cbn [append]; now rewrite append_assoc).
  assert (H1 : Py.startswith ("```" ++ Py.nl) ("```" ++ content ++ "```")
               = false).
  { unfold Py.startswith, Py.nl in *. cbn [append prefix].
    destruct (ascii_dec "`" "`"); [|congruence].
    destruct content as [|c content]; cbn [append prefix] in *.
    - reflexivity.
    - destruct (ascii_dec "010" c); [|reflexivity].
      destruct content; discriminate. }
  rewrite H1.
  assert (H2 : Py.startswith "```" ("```" ++ content ++ "```") = true).
  { unfold Py.startswith. cbn [append prefix].
    destruct (ascii_dec "`" "`"); [|congruence].
    destruct (content ++ "```")%string; reflexivity. }
  rewrite H2. unfold Py.slice. cbn [append String.length].
  rewrite length_append. cbn [String.length].
  replace (S (S (S (String.length content + 3))) - (3 + 3))
    with (String.length content) by lia.
  cbn [substring]. apply substring_prefix.
Qed.

Section InvoicePipeline.
Variable File : Type.
Variable name : File -> string.
Variable pdf_pages : File -> result (list string).
Variable chain_run : string -> result string.

(** Whatever goes wrong in [extract_invoice_data] leaves it as an
    [Exception] that starts with "Error processing invoice: ". *)
Lemma extract_invoice_data_raises pdf_file e :
  Invoice.extract_invoice_data File pdf_pages chain_run pdf_file = Raised e ->
  exists cause, e = ExceptionFrom "Error processing invoice: " cause.
Proof.
  unfold Invoice.extract_invoice_data, try_except.
  destruct (bind _ _) as [v|cause]; [discriminate|].
  cbn [any_exception]. intros H. injection H as <-. eauto.
Qed.

End InvoicePipeline.

Section TicketChat.
Variable chat : string -> result string.

(** [classify_text] does not guard the model call: its exception goes
    through; every reply is classified into [CATEGORIES]. *)
Lemma classify_text_outcome text :
  match chat text with
  | Returned content =>
      exists cat, In cat Ticket.CATEGORIES /\
                  Ticket.classify_text chat text
                  = Returned (Json.JStr (Json.codes cat))
  | Raised e => Ticket.classify_text chat text = Raised e
  end.
Proof.
  unfold Ticket.classify_text.
  destruct (chat text) as [content|e]; cbn [bind]; [|reflexivity].
  apply classify_content_closed.
Qed.

End TicketChat.

(* ===================================================================== *)
(** * Further properties of the code *)

(** ** Dictionaries *)

Lemma pystr_eqb_refl a : Json.pystr_eqb a a = true.
Proof. induction a; simpl; [reflexivity|]. now rewrite N.eqb_refl. Qed.

Lemma dict_get_set_same k v d :
  Json.dict_get k (Json.dict_set k v d) = Some v.
Proof.
  induction d as [|[k' v'] d IH]; simpl.
  - now rewrite pystr_eqb_refl.
  - destruct (Json.pystr_eqb k k') eqn:E; simpl.
    + now rewrite pystr_eqb_refl.
    + now rewrite E.
Qed.

Lemma dict_get_set_other k k' v d :
  Json.pystr_eqb k' k = false ->
  Json.dict_get k' (Json.dict_set k v d) = Json.dict_get k' d.
Proof.
  intros Hne. induction d as [|[k2 v2] d IH]; simpl.
  - now rewrite Hne.
  - destruct (Json.pystr_eqb k k2) eqn:E; simpl.
    + apply pystr_eqb_eq in E. subst k2. now rewrite Hne.
    + now rewrite IH.
Qed.

(** ** Blank text *)

Lemma lstrip_blank s : Py.all_chars Py.isspace s = true -> Py.lstrip s = EmptyString.
Proof.
  induction s as [|c s IH]; simpl; intros H; [reflexivity|].
  apply andb_true_iff in H. destruct H as [Hc Hs]. rewrite Hc. auto.
Qed.

Lemma strip_blank s : Py.all_chars Py.isspace s = true -> Py.strip s = EmptyString.
Proof. intros H. unfold Py.strip. now rewrite lstrip_blank. Qed.

Lemma lstrip_empty_blank s :
  Py.lstrip s = EmptyString -> Py.all_chars Py.isspace s = true.
Proof.
  induction s as [|c s IH]; simpl; intros H; [reflexivity|].
  destruct (Py.isspace c); [auto | discriminate].
Qed.

Lemma rstrip_empty_blank s :
  Py.rstrip s = EmptyString -> Py.all_chars Py.isspace s = true.
Proof.
  induction s as [|c s IH]; simpl; intros H; [reflexivity|].
  destruct (Py.rstrip s) eqn:E; [|discriminate].
  destruct (Py.isspace c); [auto | discriminate].
Qed.

Lemma lstrip_head s :
  match Py.lstrip s with
  | EmptyString => True
  | String c _ => Py.isspace c = false
  end.
Proof.
  induction s as [|c s IH]; simpl; [exact I|].
  destruct (Py.isspace c) eqn:E; [exact IH | exact E].
Qed.

(** [s.strip()] is empty exactly when [s] is made of white space. *)
Lemma strip_empty_iff s :
  Py.strip s = EmptyString <-> Py.all_chars Py.isspace s = true.
Proof.
  split; [|apply strip_blank].
  unfold Py.strip. intros H. apply rstrip_empty_blank in H.
  pose proof (lstrip_head s) as Hh.
  destruct (Py.lstrip s) as [|c t] eqn:E.
  - now apply lstrip_empty_blank.
  - simpl in H. rewrite Hh in H. discriminate.
Qed.

Lemma concat_pages_blank pages :
  Forall (fun p => Py.all_chars Py.isspace p = true) pages ->
  Py.all_chars Py.isspace
    (String.concat "" (map (fun p => (p ++ Py.nl)%string) pages)) = true.
Proof.
  induction 1 as [|p pages Hp _ IH]; [reflexivity|].
  cbn [map String.concat].
  destruct (map (fun p0 => (p0 ++ Py.nl)%string) pages) as [|q qs] eqn:E.
  - rewrite all_chars_append, Hp. reflexivity.
  - rewrite !all_chars_append, Hp. cbn [append Py.all_chars andb].
    exact IH.
Qed.

(** ** The invoice pipeline and its callers *)

Section InvoiceMore.
Variable File : Type.
Variable name : File -> string.
Variable pdf_pages : File -> result (list string).
Variable chain_run : string -> result string.

Local Abbreviation extract_invoice_data :=
  (Invoice.extract_invoice_data File pdf_pages chain_run).
Local Abbreviation entry_of :=
  (Invoice.entry_of File name pdf_pages chain_run).
Local Abbreviation fails := (Invoice.fails File name pdf_pages chain_run).
Local Abbreviation process_multiple_files :=
  (Invoice.process_multiple_files File name pdf_pages chain_run).

(** A PDF whose pages hold nothing but white space is refused with "No text
    found in the PDF file"; the answer does not depend on the model. *)
Theorem blank_pdf_is_refused pdf_file pages :
  pdf_pages pdf_file = Returned pages ->
  Forall (fun p => Py.all_chars Py.isspace p = true) pages ->
  extract_invoice_data pdf_file
  = Raised (ExceptionFrom "Error processing invoice: "
              (Exception "No text found in the PDF file")).
Proof.
  intros Hpages Hblank.
  unfold Invoice.extract_invoice_data, Invoice.extract_text_from_pdf.
  rewrite Hpages. cbn [bind try_except].
  rewrite strip_blank by now apply concat_pages_blank.
  reflexivity.
Qed.

(** What a file leaves in the list.  A decoded dictionary is kept with the
    name of the file under ['filename'], whatever the model wrote there,
    and with every other key as decoded.  A decoded value that is not a
    dictionary is a failure with [TypeError].  Any other failure carries an
    exception that starts with "Error processing invoice: ". *)
Theorem entry_of_outcomes pdf_file :
  match extract_invoice_data pdf_file with
  | Returned (Json.JObj members) =>
      exists d,
        entry_of pdf_file = Invoice.Data d /\
        Json.dict_get (Json.codes "filename") d
        = Some (Json.JStr (Json.codes (name pdf_file))) /\
        forall k, Json.pystr_eqb k (Json.codes "filename") = false ->
                  Json.dict_get k d = Json.dict_get k members
  | Returned _ =>
      entry_of pdf_file = Invoice.Failure (name pdf_file) TypeError
  | Raised e =>
      entry_of pdf_file = Invoice.Failure (name pdf_file) e /\
      exists cause, e = ExceptionFrom "Error processing invoice: " cause
  end.
Proof.
  unfold Invoice.entry_of.
  destruct (extract_invoice_data pdf_file) as [v|e] eqn:E; cbn [bind].
  - destruct v; cbn [Invoice.set_filename]; try reflexivity.
    eexists. split; [reflexivity|]. split.
    + apply dict_get_set_same.
    + intros k Hk. now apply dict_get_set_other.
  - split; [reflexivity|].
    now apply (extract_invoice_data_raises File pdf_pages chain_run pdf_file).
Qed.

Local Abbreviation reports_error :=
  (InvoiceApp.reports_error File pdf_pages chain_run).

Lemma has_error_key_entry_of pdf_file :
  Invoice.has_error_key (entry_of pdf_file)
  = fails pdf_file || reports_error pdf_file.
Proof.
  unfold Invoice.entry_of, Invoice.fails, InvoiceApp.reports_error.
  destruct (extract_invoice_data pdf_file) as [v|e]; cbn [bind];
    [|reflexivity].
  destruct v; cbn [Invoice.set_filename Invoice.has_error_key orb];
    try reflexivity.
  unfold Json.dict_has. rewrite dict_get_set_other by reflexivity.
  reflexivity.
Qed.

Lemma fails_excludes_reports pdf_file :
  fails pdf_file = true -> reports_error pdf_file = false.
Proof.
  unfold Invoice.fails, InvoiceApp.reports_error.
  destruct (extract_invoice_data pdf_file) as [v|e]; cbn [bind];
    [|reflexivity].
  destruct v; cbn [Invoice.set_filename]; try reflexivity. discriminate.
Qed.

Lemma filter_or_disjoint {A} (p q : A -> bool) (l : list A) :
  (forall x, p x = true -> q x = false) ->
  length (filter (fun x => p x || q x) l)
  = length (filter p l) + length (filter q l).
Proof.
  intros Hpq. induction l as [|x l IH]; simpl; [reflexivity|].
  destruct (p x) eqn:Hp; simpl.
  - rewrite (Hpq x Hp). simpl. now rewrite IH.
  - destruct (q x); simpl; rewrite IH; lia.
Qed.

Lemma filter_negb_length {A} (p : A -> bool) (l : list A) :
  length (filter (fun x => negb (p x)) l) + length (filter p l) = length l.
Proof.
  induction l as [|x l IH]; simpl; [reflexivity|].
  destruct (p x); simpl; lia.
Qed.

Lemma filter_map_length {A B} (f : A -> B) (p : B -> bool) (l : list A) :
  length (filter p (map f l)) = length (filter (fun x => p (f x)) l).
Proof.
  induction l as [|x l IH]; simpl; [reflexivity|].
  destruct (p (f x)); simpl; now rewrite IH.
Qed.

(** The summary of the application adds up to the number of files.  The
    count of failures is the number of files whose processing raised plus
    the number of invoices decoded into a dictionary that has an ['error']
    key of its own: such an invoice is counted as failed. *)
Theorem summary_counts (pdf_files : list File) :
  let results := process_multiple_files pdf_files in
  InvoiceApp.successful results + InvoiceApp.failed results
  = length pdf_files /\
  InvoiceApp.failed results
  = length (filter fails pdf_files) + length (filter reports_error pdf_files).
Proof.
  cbv zeta. rewrite process_multiple_files_map.
  unfold InvoiceApp.successful, InvoiceApp.failed. split.
  - rewrite filter_negb_length. apply length_map.
  - rewrite filter_map_length.
    rewrite <- (filter_or_disjoint fails reports_error)
      by apply fails_excludes_reports.
    f_equal. apply filter_ext. intros f. apply has_error_key_entry_of.
Qed.

End InvoiceMore.

Lemma blank_pdf_is_refused_witness :
  Invoice.extract_invoice_data string Demo2.pages_of Demo2.no_model "  "
  = Raised (ExceptionFrom "Error processing invoice: "
              (Exception "No text found in the PDF file")).
Proof.
  apply (blank_pdf_is_refused string Demo2.pages_of Demo2.no_model
           "  " ["  "%string]).
  - reflexivity.
  - repeat constructor.
Defined.

(** ** The CSV rows *)

Lemma flat_data_row d :
  InvoiceApp.flat_data d =
    if match Json.dict_get (Json.codes "items") d with
       | Some items => InvoiceApp.has_no_len items
       | None => false
       end
    then Raised TypeError
    else Returned (InvoiceApp.row_of d).
Proof.
  unfold InvoiceApp.flat_data, InvoiceApp.row_of, InvoiceApp.items_count.
  unfold InvoiceApp.get at 1.
  destruct (Json.dict_get (Json.codes "items") d) as [[]|]; reflexivity.
Qed.

Lemma csv_rows_from results :
  forall csv_data,
    InvoiceApp.csv_rows results csv_data =
      if existsb InvoiceApp.breaks_export results then Raised TypeError
      else Returned
             (csv_data
              ++ map InvoiceApp.row_of (InvoiceApp.exported_data results)).
Proof.
  induction results as [|r results IH]; intros csv_data;
    cbn [existsb InvoiceApp.csv_rows InvoiceApp.exported_data flat_map map].
  - now rewrite app_nil_r.
  - fold (InvoiceApp.exported_data results).
    destruct r as [d|f e];
      cbn [Invoice.has_error_key InvoiceApp.breaks_export negb andb orb app];
      [|exact (IH csv_data)].
    destruct (Json.dict_has (Json.codes "error") d);
      cbn [negb andb orb app]; [exact (IH csv_data)|].
    rewrite flat_data_row.
    destruct (match Json.dict_get (Json.codes "items") d with
              | Some items => InvoiceApp.has_no_len items
              | None => false
              end); cbn [orb bind]; [reflexivity|].
    rewrite IH. cbn [map].
    destruct (existsb InvoiceApp.breaks_export results); [reflexivity|].
    now rewrite <- app_assoc.
Qed.

Lemma nothing_exported results :
  InvoiceApp.successful results = 0 ->
  existsb InvoiceApp.breaks_export results = false /\
  InvoiceApp.exported_data results = [].
Proof.
  unfold InvoiceApp.successful.
  induction results as [|r results IH];
    cbn [filter existsb InvoiceApp.exported_data flat_map]; [auto|].
  fold (InvoiceApp.exported_data results).
  destruct r as [d|f e];
    cbn [Invoice.has_error_key InvoiceApp.breaks_export negb andb orb app];
    [|exact IH].
  destruct (Json.dict_has (Json.codes "error") d);
    cbn [negb andb orb app length]; [exact IH | discriminate].
Qed.

Section InvoiceResults.
Variable items_table : Json.json -> result unit.
Variable float_truthy : string -> bool.

(** The results section of the invoice application.  The results are
    shown first, and an exception of the table of some result's items ends
    the section before any row is built.  After that, a result without an
    ['error'] key whose ['items'] is null, a number or a boolean makes the
    export raise [TypeError].  Otherwise the rows are those of the results
    without an ['error'] key, in their order: each of the ten columns of
    text has the value decoded under that name, or the empty text when the
    model left the key out, and [items_count] is the length of ['items'],
    0 when the key is left out. *)
Theorem csv_export_outcome (results : list Invoice.entry) :
  match InvoiceApp.show_results items_table float_truthy results with
  | Raised e =>
      InvoiceApp.results_section items_table float_truthy results = Raised e
  | Returned _ =>
      InvoiceApp.results_section items_table float_truthy results =
        if existsb InvoiceApp.breaks_export results then Raised TypeError
        else Returned
               (map InvoiceApp.row_of (InvoiceApp.exported_data results))
  end.
Proof.
  unfold InvoiceApp.results_section.
  destruct (InvoiceApp.show_results items_table float_truthy results);
    cbn [bind]; [|reflexivity].
  destruct (InvoiceApp.successful results) eqn:Hs.
  - destruct (nothing_exported results Hs) as [-> ->]. reflexivity.
  - cbn [Nat.ltb Nat.leb]. now rewrite csv_rows_from.
Qed.

End InvoiceResults.

(** ** The matcher finds what is there *)

Lemma rmatch_lit {X} L rest g (k : string -> option string -> option X) :
  Re.rmatch (Re.lit L) (L ++ rest) g k = k rest g.
Proof.
  induction L as [|c L IH]; cbn [Re.lit Re.rmatch append]; [reflexivity|].
  rewrite Ascii.eqb_refl. exact IH.
Qed.

Lemma rmatch_liti {X} L :
  forall w rest g (k : string -> option string -> option X),
    ReExtra.lower_str w = ReExtra.lower_str L ->
    Re.rmatch (Re.liti L) (w ++ rest) g k = k rest g.
Proof.
  induction L as [|c L IH]; intros [|x w] rest g k H;
    cbn [ReExtra.lower_str] in H; try discriminate;
    cbn [Re.liti Re.rmatch append]; [reflexivity|].
  injection H as Hx Hw. rewrite Hx, Ascii.eqb_refl. now apply IH.
Qed.

(** Greedy repetition takes the whole run when the rest can follow it. *)
Lemma star_loop_greedy {X} p (k : string -> option X) w rest x :
  Py.all_chars p w = true ->
  ReExtra.starts_with_class p rest = false ->
  k rest = Some x ->
  Re.star_loop p k (w ++ rest) = Some x.
Proof.
  intros Hw Hrest Hk. induction w as [|c w IH]; cbn [append].
  - destruct rest as [|c rest]; cbn [Re.star_loop]; [exact Hk|].
    cbn [ReExtra.starts_with_class] in Hrest. now rewrite Hrest.
  - cbn [Py.all_chars] in Hw. apply andb_true_iff in Hw.
    destruct Hw as [Hc Hw]. cbn [Re.star_loop]. rewrite Hc.
    now rewrite (IH Hw).
Qed.

(** Positions whose first character cannot start a match are passed over. *)
Lemma search_skip r (p : ascii -> bool) before s :
  (forall c t, p c = false -> Re.match_at r (String c t) = None) ->
  ReExtra.has_char p before = false ->
  Re.search r (before ++ s) = Re.search r s.
Proof.
  intros Hfirst. induction before as [|c before IH];
    cbn [append ReExtra.has_char]; intros H; [reflexivity|].
  apply orb_false_iff in H. destruct H as [Hc Hb].
  cbn [Re.search]. rewrite (Hfirst c _ Hc). auto.
Qed.

(** A match at some position makes the search succeed. *)
Lemma search_finds r before s m :
  Re.match_at r s = Some m ->
  exists m', Re.search r (before ++ s) = Some m'.
Proof.
  intros Hm. induction before as [|c before IH]; cbn [append].
  - exists m. destruct s; cbn [Re.search]; now rewrite Hm.
  - cbn [Re.search].
    destruct (Re.match_at r (String c (before ++ s))) as [m1|]; eauto.
Qed.

Lemma has_char_append p a b :
  ReExtra.has_char p (a ++ b)
  = ReExtra.has_char p a || ReExtra.has_char p b.
Proof.
  induction a as [|c a IH]; cbn [append ReExtra.has_char]; [reflexivity|].
  rewrite IH. now rewrite orb_assoc.
Qed.

Lemma forces_lang p r :
  ReExtra.forces p r ->
  forall w, Re.lang r w -> ReExtra.has_char p w = true.
Proof.
  induction r as [|q|a IHa b IHb|a IHa b IHb|q|a IHa];
    cbn [ReExtra.forces Re.lang]; intros Hf w Hw; try contradiction.
  - destruct Hw as (c & -> & Hc). cbn [ReExtra.has_char].
    now rewrite (Hf c Hc).
  - destruct Hw as (u & v & -> & Hu & Hv). rewrite has_char_append.
    destruct Hf as [Hf|Hf].
    + now rewrite (IHa Hf u Hu).
    + rewrite (IHb Hf v Hv). apply orb_true_r.
  - destruct Hf as [Hfa Hfb]. destruct Hw as [Hw|Hw]; auto.
  - auto.
Qed.

Lemma search_needs_char p r s :
  ReExtra.forces p r -> ReExtra.has_char p s = false -> Re.search r s = None.
Proof.
  intros Hf Hs. destruct (Re.search r s) as [m|] eqn:E; [|reflexivity].
  apply search_inside in E. destruct E as (a & w & b & -> & Hw).
  rewrite !has_char_append, (forces_lang p r Hf w Hw) in Hs.
  rewrite orb_true_r in Hs. discriminate.
Qed.

(** ** The score of a reply *)

Lemma score_pattern_forces_digit pattern :
  In pattern HR.ordered_patterns -> ReExtra.forces Py.isdigit pattern.
Proof.
  intros Hin. simpl in Hin.
  destruct Hin as [<-|[<-|[<-|[<-|[]]]]];
    cbn [HR.re_match_score Re.seq ReExtra.forces Re.Plus].
  - right. right. left. auto.
  - right. right. left. auto.
  - left. left. auto.
  - left. left. auto.
Qed.

Lemma score_loop_without_digits patterns analysis :
  (forall p, In p patterns -> In p HR.ordered_patterns) ->
  ReExtra.has_char Py.isdigit analysis = false ->
  HR.score_loop patterns analysis = Returned 5%Z.
Proof.
  intros Hin Hd. induction patterns as [|p ps IH]; cbn [HR.score_loop];
    [reflexivity|].
  rewrite (search_needs_char Py.isdigit p analysis).
  - apply IH. intros q Hq. apply Hin. now right.
  - apply score_pattern_forces_digit, Hin. now left.
  - exact Hd.
Qed.

(** A text without any digit has the default score: this is the score of a
    failed analysis whose error message has no digit. *)
Theorem score_without_digits_is_default (analysis : string) :
  ReExtra.has_char Py.isdigit analysis = false ->
  HR.parse_score_from_analysis analysis = Returned 5%Z.
Proof.
  intros Hd. unfold HR.parse_score_from_analysis.
  rewrite (search_needs_char Py.isdigit HR.re_match_score analysis).
  - rewrite score_loop_without_digits; [reflexivity | | exact Hd].
    intros p Hp. now right.
  - apply score_pattern_forces_digit. now left.
  - exact Hd.
Qed.

Lemma score_without_digits_is_default_witness :
  HR.parse_score_from_analysis "Analysis error: connection refused"
  = Returned 5%Z.
Proof.
  apply (score_without_digits_is_default
           "Analysis error: connection refused").
  reflexivity.
Defined.

Lemma digit_is_not_space c : Py.isdigit c = true -> Py.isspace c = false.
Proof.
  unfold Py.isdigit, Py.isspace. intros H.
  apply andb_true_iff in H. destruct H as [H1 H2].
  apply N.leb_le in H1. apply N.leb_le in H2.
  repeat rewrite orb_false_iff. repeat rewrite andb_false_iff.
  repeat split.
  - right. apply N.leb_gt. lia.
  - right. apply N.leb_gt. lia.
  - apply N.eqb_neq. lia.
  - apply N.eqb_neq. lia.
Qed.

Lemma match_score_at ws digits rest :
  Py.all_chars Py.isspace ws = true ->
  digits <> EmptyString ->
  Py.all_chars Py.isdigit digits = true ->
  ReExtra.starts_with_class Py.isdigit rest = false ->
  exists m,
    Re.match_at HR.re_match_score ("MATCH SCORE:" ++ ws ++ digits ++ rest)
    = Some m /\ Re.group1 m = Some digits.
Proof.
  intros Hws Hne Hd Hrest.
  unfold Re.match_at, HR.re_match_score. cbn [Re.seq Re.rmatch].
  rewrite rmatch_lit. cbn [Re.rmatch Re.Plus].
  destruct digits as [|c digits]; [congruence|].
  cbn [Py.all_chars] in Hd. apply andb_true_iff in Hd.
  destruct Hd as [Hc Hd].
  eexists. split.
  - apply star_loop_greedy; [exact Hws | |].
    + cbn [append ReExtra.starts_with_class]. now apply digit_is_not_space.
    + cbn [append]. rewrite Hc.
      apply star_loop_greedy; [exact Hd | exact Hrest | reflexivity].
  - cbn [Re.group1]. f_equal.
    change (String c (digits ++ rest)) with (String c digits ++ rest)%string.
    apply taken_append.
Qed.

(** A literal that does not start the text stops the match at once. *)
Lemma rmatch_lit_fail {X} L :
  forall s g (k : string -> option string -> option X),
    prefix L s = false -> Re.rmatch (Re.lit L) s g k = None.
Proof.
  induction L as [|c L IH]; intros [|d s] g k;
    cbn [prefix Re.lit Re.rmatch]; try discriminate; try reflexivity.
  destruct (ascii_dec c d) as [->|Hne].
  - rewrite Ascii.eqb_refl. apply IH.
  - intros _. apply Ascii.eqb_neq in Hne. now rewrite Hne.
Qed.

Lemma prefix_short L :
  forall s t, String.length L <= String.length s ->
              prefix L (s ++ t) = prefix L s.
Proof.
  induction L as [|c L IH]; intros [|d s] t; cbn [String.length append prefix];
    intros Hlen; try lia; try reflexivity.
  - destruct t; reflexivity.
  - destruct (ascii_dec c d); [apply IH; lia | reflexivity].
Qed.

(** The search passes over a stretch of text in which the literal that
    opens the pattern does not start. *)
Lemma search_skip_literal r L L' x before tail :
  (forall t, prefix L t = false -> Re.match_at r t = None) ->
  String.length L <= S (String.length L') ->
  Py.has_substring L (before ++ L') = false ->
  Re.search r (before ++ L' ++ x ++ tail)
  = Re.search r (L' ++ x ++ tail).
Proof.
  intros Hfail Hlen. induction before as [|c before IH];
    cbn [append Py.has_substring]; intros H; [reflexivity|].
  apply orb_false_iff in H. destruct H as [Hp Hs].
  cbn [Re.search]. rewrite Hfail.
  - now apply IH.
  - replace (String c (before ++ L' ++ x ++ tail))
      with (String c (before ++ L') ++ (x ++ tail))%string
      by (cbn [append]; now rewrite append_assoc).
    rewrite prefix_short; [exact Hp|].
    cbn [String.length]. rewrite length_append. lia.
Qed.

(** A reply in the format the prompt asks for is read as written: at the
    first "MATCH SCORE:", after any white space, the whole run of digits is
    the score, with leading zeros ignored and without regard to the range
    1-10 - whatever other numbers the text has before or after.  The one
    bound is that of [int]: a run of more than 4300 digits gives the
    default 5. *)
Theorem formatted_score_is_read (before ws digits rest : string) :
  Py.has_substring "MATCH SCORE:" (before ++ "MATCH SCORE") = false ->
  Py.all_chars Py.isspace ws = true ->
  digits <> EmptyString ->
  Py.all_chars Py.isdigit digits = true ->
  ReExtra.starts_with_class Py.isdigit rest = false ->
  HR.parse_score_from_analysis
    (before ++ "MATCH SCORE:" ++ ws ++ digits ++ rest)
  = Returned (if (String.length digits <=? 4300)%nat
              then Py.digits_value 0 digits else 5%Z).
Proof.
  intros Hbefore Hws Hne Hd Hrest.
  destruct (match_score_at ws digits rest Hws Hne Hd Hrest) as (m & Hm & Hg).
  unfold HR.parse_score_from_analysis.
  change ("MATCH SCORE:" ++ ws ++ digits ++ rest)%string
    with ("MATCH SCORE" ++ ":" ++ (ws ++ digits ++ rest))%string in *.
  rewrite (search_skip_literal HR.re_match_score "MATCH SCORE:"
             "MATCH SCORE" ":" before (ws ++ digits ++ rest)).
  - change ("MATCH SCORE" ++ ":" ++ ws ++ digits ++ rest)%string
      with (String "M"%char ("ATCH SCORE:" ++ ws ++ digits ++ rest)) in *.
    cbn [Re.search]. rewrite Hm. unfold HR.int_group1. rewrite Hg.
    rewrite int_of_digits_ok by assumption.
    destruct (String.length digits <=? 4300)%nat; reflexivity.
  - intros t Ht. unfold Re.match_at, HR.re_match_score.
    cbn [Re.seq Re.rmatch]. now apply rmatch_lit_fail.
  - cbn [String.length]. lia.
  - exact Hbefore.
Qed.

Lemma formatted_score_is_read_witness :
  HR.parse_score_from_analysis
    ("Matches 3/10 skills. " ++ "MATCH SCORE:" ++ " " ++ "08"
     ++ "/10 overall")
  = Returned 8%Z.
Proof.
  apply (formatted_score_is_read "Matches 3/10 skills. " " " "08"
           "/10 overall"); try reflexivity.
  discriminate.
Defined.

Lemma upper_is_not_space c :
  Py.isupper_ascii c = true -> Py.isspace c = false.
Proof.
  unfold Py.isupper_ascii, Py.isspace. intros H.
  apply andb_true_iff in H. destruct H as [H1 H2].
  apply N.leb_le in H1. apply N.leb_le in H2.
  repeat rewrite orb_false_iff. repeat rewrite andb_false_iff.
  repeat split.
  - right. apply N.leb_gt. lia.
  - right. apply N.leb_gt. lia.
  - apply N.eqb_neq. lia.
  - apply N.eqb_neq. lia.
Qed.

Lemma match_recommendation_at ws label rest :
  Py.all_chars Py.isspace ws = true ->
  label <> EmptyString ->
  Py.all_chars Py.isupper_ascii label = true ->
  ReExtra.starts_with_class Py.isupper_ascii rest = false ->
  exists m,
    Re.match_at HR.re_recommendation
      ("RECOMMENDATION:" ++ ws ++ label ++ rest)
    = Some m /\ Re.group1 m = Some label.
Proof.
  intros Hws Hne Hd Hrest.
  unfold Re.match_at, HR.re_recommendation. cbn [Re.seq Re.rmatch].
  rewrite rmatch_lit. cbn [Re.rmatch Re.Plus].
  destruct label as [|c label]; [congruence|].
  cbn [Py.all_chars] in Hd. apply andb_true_iff in Hd.
  destruct Hd as [Hc Hd].
  eexists. split.
  - apply star_loop_greedy; [exact Hws | |].
    + cbn [append ReExtra.starts_with_class]. now apply upper_is_not_space.
    + cbn [append]. rewrite Hc.
      apply star_loop_greedy; [exact Hd | exact Hrest | reflexivity].
  - cbn [Re.group1]. f_equal.
    change (String c (label ++ rest)) with (String c label ++ rest)%string.
    apply taken_append.
Qed.

(** At the first "RECOMMENDATION:", after any white space, the whole run of
    capital letters is returned as the recommendation, as it is written:
    nothing restricts it to the labels. *)
Theorem formatted_recommendation_is_read (before ws label rest : string) :
  Py.has_substring "RECOMMENDATION:" (before ++ "RECOMMENDATION") = false ->
  Py.all_chars Py.isspace ws = true ->
  label <> EmptyString ->
  Py.all_chars Py.isupper_ascii label = true ->
  ReExtra.starts_with_class Py.isupper_ascii rest = false ->
  HR.parse_recommendation_from_analysis
    (before ++ "RECOMMENDATION:" ++ ws ++ label ++ rest)
  = Returned (Some label).
Proof.
  intros Hbefore Hws Hne Hd Hrest.
  destruct (match_recommendation_at ws label rest Hws Hne Hd Hrest)
    as (m & Hm & Hg).
  unfold HR.parse_recommendation_from_analysis.
  change ("RECOMMENDATION:" ++ ws ++ label ++ rest)%string
    with ("RECOMMENDATION" ++ ":" ++ (ws ++ label ++ rest))%string in *.
  rewrite (search_skip_literal HR.re_recommendation "RECOMMENDATION:"
             "RECOMMENDATION" ":" before (ws ++ label ++ rest)).
  - change ("RECOMMENDATION" ++ ":" ++ ws ++ label ++ rest)%string
      with (String "R"%char ("ECOMMENDATION:" ++ ws ++ label ++ rest)) in *.
    cbn [Re.search]. rewrite Hm. cbn [try_except]. now rewrite Hg.
  - intros t Ht. unfold Re.match_at, HR.re_recommendation.
    cbn [Re.seq Re.rmatch]. now apply rmatch_lit_fail.
  - cbn [String.length]. lia.
  - exact Hbefore.
Qed.

Lemma formatted_recommendation_is_read_witness :
  HR.parse_recommendation_from_analysis
    ("MATCH SCORE: 8. " ++ "RECOMMENDATION:" ++ " " ++ "INTERVIEW"
     ++ " - would hire later")
  = Returned (Some "INTERVIEW"%string).
Proof.
  apply (formatted_recommendation_is_read "MATCH SCORE: 8. " " "
           "INTERVIEW" " - would hire later"); try reflexivity.
  discriminate.
Defined.

(** ** The recommendation keywords *)

Lemma match_at_hire word rest :
  ReExtra.lower_str word = "hire"%string \/
  ReExtra.lower_str word = "recommend"%string ->
  exists m, Re.match_at HR.re_hire (word ++ rest) = Some m.
Proof.
  intros H. unfold Re.match_at, HR.re_hire. cbn [Re.rmatch].
  destruct H as [H|H].
  - rewrite (rmatch_liti "hire") by exact H. eauto.
  - destruct (Re.rmatch (Re.liti "hire") (word ++ rest) None _) as [m|];
      [eauto|].
    rewrite (rmatch_liti "recommend") by exact H. eauto.
Qed.

(** The keyword test comes first and does not look at the context: when the
    pattern [RECOMMENDATION:] followed by capitals does not match, any text
    that has "hire" or "recommend" in any case, also inside a word such as
    "Recommendation", is read as HIRE - whatever else it says. *)
Theorem keyword_hire_shadows (before word rest : string) :
  ReExtra.lower_str word = "hire"%string \/
  ReExtra.lower_str word = "recommend"%string ->
  Re.search HR.re_recommendation (before ++ word ++ rest) = None ->
  HR.parse_recommendation_from_analysis (before ++ word ++ rest)
  = Returned (Some "HIRE"%string).
Proof.
  intros Hword Hnone. unfold HR.parse_recommendation_from_analysis.
  rewrite Hnone.
  destruct (match_at_hire word rest Hword) as (m & Hm).
  destruct (search_finds HR.re_hire before _ m Hm) as (m' & Hs).
  unfold HR.found. rewrite Hs. reflexivity.
Qed.

Lemma keyword_hire_shadows_witness :
  HR.parse_recommendation_from_analysis
    ("" ++ "Recommend" ++ "ation: Reject - not a fit")
  = Returned (Some "HIRE"%string).
Proof.
  apply (keyword_hire_shadows "" "Recommend" "ation: Reject - not a fit").
  - right. reflexivity.
  - vm_compute. reflexivity.
Defined.

(** ** The resume batch keeps every readable file *)

Section ResumeBatchMore.
Variable File : Type.
Variable name : File -> string.
Variable extract_text_from_pdf : File -> string.
Variable chain_run : string -> string -> string + string.
Variable extraction_chain_run : string -> string + string.

Local Abbreviation result_of :=
  (Batch.result_of File name extract_text_from_pdf chain_run
     extraction_chain_run).
Local Abbreviation built :=
  (Batch.built File name extract_text_from_pdf chain_run
     extraction_chain_run).
Local Abbreviation readable :=
  (fun f : File => Py.truthy (extract_text_from_pdf f)).

Lemma result_of_readable jd f :
  map Batch.filename (result_of jd f)
  = if readable f then [name f] else [].
Proof.
  unfold Batch.result_of.
  destruct (Py.truthy (extract_text_from_pdf f)); [|reflexivity].
  set (a := Batch.analyze_resume _ _ _).
  destruct (parse_score_spec a) as (n & -> & _).
  destruct (parse_recommendation_spec a) as (l & -> & _).
  reflexivity.
Qed.

Lemma built_filenames files jd :
  map Batch.filename (built files jd) = map name (filter readable files).
Proof.
  unfold Batch.built.
  induction files as [|f files IH]; cbn [flat_map filter map];
    [reflexivity|].
  rewrite map_app, IH, result_of_readable.
  destruct (Py.truthy (extract_text_from_pdf f)); reflexivity.
Qed.

(** Every file from which text could be read has exactly one result,
    whatever the model answered or failed to answer; the files without text
    have none.  The list is built in the order of the files and ranked
    afterwards. *)
Theorem resume_batch_keeps_readable_files
    (resume_files : list File) (job_description : string)
    (h : Batch.store) :
  exists ranked h',
    Batch.process_multiple_resumes File name extract_text_from_pdf chain_run
      extraction_chain_run resume_files job_description h
    = Returned (ranked, h') /\
    map Batch.filename (Batch.deref (length h) h')
    = map name (filter readable resume_files) /\
    Permutation (map Batch.filename (Batch.deref ranked h'))
                (map name (filter readable resume_files)) /\
    length (Batch.deref ranked h') = length (filter readable resume_files).
Proof.
  destruct (process_multiple_resumes_spec File name extract_text_from_pdf
              chain_run extraction_chain_run resume_files job_description h)
    as (h' & Hrun & Hres & Hsorted & _).
  exists (S (length h)), h'. split; [exact Hrun|].
  rewrite Hres, Hsorted.
  pose proof (built_filenames resume_files job_description) as Hnames.
  pose proof (sorted_permutation Batch.score
                (built resume_files job_description)) as Hperm.
  split; [exact Hnames|]. split.
  - rewrite <- Hnames. apply Permutation_map. now symmetry.
  - rewrite <- (Permutation_length Hperm).
    rewrite <- (length_map Batch.filename), Hnames. apply length_map.
Qed.

End ResumeBatchMore.

(** ** Tickets *)

Lemma all_chars_strip s :
  Py.all_chars Py.isspace (Py.strip s) = true ->
  Py.all_chars Py.isspace s = true.
Proof.
  intros H. apply strip_empty_iff.
  unfold Py.strip in *.
  pose proof (lstrip_head s) as Hh.
  destruct (Py.lstrip s) as [|c t] eqn:E; [reflexivity|].
  exfalso.
  assert (Hr : exists r, Py.rstrip (String c t) = String c r).
  { cbn [Py.rstrip]. destruct (Py.rstrip t); [|eauto].
    rewrite Hh. eauto. }
  destruct Hr as (r & Hr). rewrite Hr in H. cbn [Py.all_chars] in H.
  rewrite Hh in H. discriminate.
Qed.

Lemma single_text_blank subject body :
  Py.strip (TicketApp.single_text subject body) = EmptyString <->
  Py.all_chars Py.isspace subject = true /\
  Py.all_chars Py.isspace body = true.
Proof.
  unfold TicketApp.single_text. rewrite strip_empty_iff.
  rewrite !all_chars_append. cbn [Py.nl Py.all_chars].
  change (Py.isspace "010") with true. cbn [andb].
  rewrite andb_true_iff. split.
  - intros [Hs Hb]. split; now apply all_chars_strip.
  - intros [Hs Hb]. rewrite !strip_blank by assumption. auto.
Qed.

Section TicketMore.
Variable chat : string -> result string.

(** A single ticket is passed over, with a warning and without a call of
    the model, exactly when its subject and its description are both made
    of white space.  Any other ticket is classified into [CATEGORIES],
    unless the call of the model raises. *)
Theorem single_ticket_outcome (subject body : string) :
  if Py.all_chars Py.isspace subject && Py.all_chars Py.isspace body
  then TicketApp.classify_single chat subject body = Returned None
  else
    match chat (TicketApp.single_text subject body) with
    | Returned _ =>
        exists cat,
          In cat Ticket.CATEGORIES /\
          TicketApp.classify_single chat subject body
          = Returned (Some (Json.JStr (Json.codes cat)))
    | Raised e => TicketApp.classify_single chat subject body = Raised e
    end.
Proof.
  unfold TicketApp.classify_single.
  destruct (Py.all_chars Py.isspace subject && Py.all_chars Py.isspace body)
    eqn:E.
  - apply andb_true_iff in E.
    apply single_text_blank in E. now rewrite E.
  - destruct (Py.strip (TicketApp.single_text subject body)) eqn:Es.
    + apply single_text_blank in Es. apply andb_true_iff in Es. congruence.
    + cbn [Py.truthy negb].
      pose proof (classify_text_outcome chat
                    (TicketApp.single_text subject body)) as H.
      destruct (chat (TicketApp.single_text subject body)) as [content|e].
      * destruct H as (cat & Hin & ->). exists cat. auto.
      * now rewrite H.
Qed.

Lemma classify_rows_from rows :
  forall results,
    Forall (fun label => exists cat, In cat Ticket.CATEGORIES /\
                                     label = Json.JStr (Json.codes cat))
           results ->
    match TicketApp.classify_rows chat rows results with
    | Returned labels =>
        length labels = length results + length rows /\
        Forall (fun label => exists cat, In cat Ticket.CATEGORIES /\
                                         label = Json.JStr (Json.codes cat))
               labels /\
        Forall (fun row => exists content,
                    chat (TicketApp.row_text row) = Returned content) rows
    | Raised e =>
        exists row, In row rows /\ chat (TicketApp.row_text row) = Raised e
    end.
Proof.
  induction rows as [|row rows IH]; intros results Hres;
    cbn [TicketApp.classify_rows].
  - cbn [length]. repeat split; [lia | assumption | constructor].
  - pose proof (classify_text_outcome chat (TicketApp.row_text row)) as H.
    destruct (chat (TicketApp.row_text row)) as [content|e] eqn:Ec.
    + destruct H as (cat & Hin & ->). cbn [bind].
      assert (Hres' : Forall (fun label => exists cat, In cat Ticket.CATEGORIES
                                /\ label = Json.JStr (Json.codes cat))
                        (results ++ [Json.JStr (Json.codes cat)])).
      { apply Forall_app. split; [assumption|]. constructor; eauto. }
      specialize (IH _ Hres').
      destruct (TicketApp.classify_rows chat rows _) as [labels|e].
      * destruct IH as (Hlen & Hall & Hrows).
        rewrite length_app in Hlen. cbn [length] in *.
        repeat split; [lia | assumption |]. constructor; eauto.
      * destruct IH as (r & Hr & He). exists r. split; [now right | exact He].
    + rewrite H. cbn [bind]. exists row. split; [now left | exact Ec].
Qed.

(** The ticket batch is all or nothing.  When it returns, every call of the
    model returned and there is one label of [CATEGORIES] per row.  A call
    that raises ends the batch with its exception: the labels of the rows
    before it are not returned. *)
Theorem ticket_batch_all_or_nothing (rows : list (string * string)) :
  match TicketApp.classify_rows chat rows [] with
  | Returned labels =>
      length labels = length rows /\
      Forall (fun label => exists cat, In cat Ticket.CATEGORIES /\
                                       label = Json.JStr (Json.codes cat))
             labels /\
      Forall (fun row => exists content,
                  chat (TicketApp.row_text row) = Returned content) rows
  | Raised e =>
      exists row, In row rows /\ chat (TicketApp.row_text row) = Raised e
  end.
Proof. apply (classify_rows_from rows []). constructor. Qed.

End TicketMore.

(** A reply that decodes into a dictionary is never searched for labels:
    its ["category"] is returned when it is one of [CATEGORIES], and OTHER
    is returned when the key is missing or holds anything else, also when
    the reply spells a label elsewhere. *)
Theorem dictionary_reply_decides (content : string)
    (members : list (Json.pystr * Json.json)) :
  Json.loads (Py.strip content) = Returned (Json.JObj members) ->
  Ticket.classify_content content
  = Returned
      match Json.dict_get (Json.codes "category") members with
      | Some category =>
          if Ticket.in_categories category then category
          else Json.JStr (Json.codes "OTHER")
      | None => Json.JStr (Json.codes "OTHER")
      end.
Proof.
  intros H. unfold Ticket.classify_content. rewrite H.
  cbn [bind Ticket.get_category].
  destruct (Json.dict_get (Json.codes "category") members) as [v|];
    cbn [bind try_except].
  - destruct (Ticket.in_categories v); reflexivity.
  - reflexivity.
Qed.

Lemma dictionary_reply_decides_witness :
  Ticket.classify_content
    (Demo.text "{'category': 'billing', 'note': 'BILLING'}")
  = Returned (Json.JStr (Json.codes "OTHER")).
Proof.
  apply (dictionary_reply_decides
           (Demo.text "{'category': 'billing', 'note': 'BILLING'}")
           [ (Json.codes "category", Json.JStr (Json.codes "billing"));
             (Json.codes "note", Json.JStr (Json.codes "BILLING")) ]).
  vm_compute. reflexivity.
Defined.

(** ** A document that starts with a brace decodes into a dictionary *)

Lemma outermost_object_cons f stk :
  JsonExtra.outermost_object stk = true ->
  JsonExtra.outermost_object (f :: stk) = true.
Proof. destruct stk; [discriminate | auto]. Qed.

(** Closing the container [f] and handing its value to what encloses it. *)
Lemma pop_in_object v f stk st :
  JsonExtra.outermost_object (f :: stk) = true ->
  (JsonExtra.is_object_frame f = true -> JsonExtra.is_object v = true) ->
  Json.push_value v stk = Returned st ->
  JsonExtra.in_object st = true.
Proof.
  intros Hout Hv H. destruct stk as [|g stk].
  - cbn in H. injection H as <-. cbn. rewrite Hv; [reflexivity | exact Hout].
  - assert (Hout' : JsonExtra.outermost_object (g :: stk) = true)
      by exact Hout.
    destruct g; cbn [Json.push_value Json.malformed] in H; try discriminate;
      injection H as <-; cbn [JsonExtra.in_object];
      destruct stk; exact Hout'.
Qed.

(** Handing a value to the innermost open container. *)
Lemma push_in_object v stk st :
  JsonExtra.outermost_object stk = true ->
  Json.push_value v stk = Returned st ->
  JsonExtra.in_object st = true.
Proof.
  intros Hout H. destruct stk as [|g stk]; [discriminate|].
  destruct g; cbn [Json.push_value Json.malformed] in H; try discriminate;
    injection H as <-; cbn [JsonExtra.in_object];
    destruct stk; exact Hout.
Qed.

Lemma after_value_in_object st c st' :
  JsonExtra.in_object st = true ->
  Json.after_value st c = Returned st' ->
  JsonExtra.in_object st' = true.
Proof.
  destruct st as [m stk]. intros Hin H.
  unfold Json.after_value, Json.malformed in H.
  destruct m; try discriminate.
  - destruct stk as [|[items|members|members k] rest]; try discriminate.
    + destruct (Json.is_ws c); [injection H as <-; exact Hin|].
      destruct (Ascii.eqb c ","); [injection H as <-; exact Hin|].
      destruct (Ascii.eqb c "]"); [|discriminate].
      refine (pop_in_object _ (Json.FArr items) rest st' Hin _ H).
      discriminate.
    + destruct (Json.is_ws c); [injection H as <-; exact Hin|].
      destruct (Ascii.eqb c ","); [injection H as <-; exact Hin|].
      destruct (Ascii.eqb c "}"); [|discriminate].
      refine (pop_in_object _ (Json.FObj members) rest st' Hin _ H).
      reflexivity.
  - destruct (Json.is_ws c); [injection H as <-; exact Hin | discriminate].
Qed.

Lemma start_value_in_object stk c st' :
  JsonExtra.outermost_object stk = true ->
  Json.start_value stk c = Returned st' ->
  JsonExtra.in_object st' = true.
Proof.
  intros Hout H.
  unfold Json.start_value, Json.open_container, Json.malformed in H.
  repeat match type of H with
         | context [if ?b then _ else _] => destruct b
         end;
    try discriminate; injection H as <-; cbn [JsonExtra.in_object];
    auto using outermost_object_cons.
Qed.

Lemma step_in_object st c st' :
  JsonExtra.in_object st = true ->
  Json.step st c = Returned st' ->
  JsonExtra.in_object st' = true.
Proof.
  destruct st as [m stk]. intros Hin H.
  destruct m; cbn [Json.step] in H; unfold Json.malformed in H;
    try (now apply (after_value_in_object _ _ _ Hin H)).
  - (* Value *)
    destruct (Json.is_ws c); [injection H as <-; exact Hin|].
    now apply (start_value_in_object stk c).
  - (* ValueOrClose *)
    destruct (Json.is_ws c); [injection H as <-; exact Hin|].
    destruct (Ascii.eqb c "]").
    + destruct stk as [|[items|members|members k] rest]; try discriminate.
      refine (pop_in_object _ (Json.FArr items) rest st' Hin _ H).
      discriminate.
    + now apply (start_value_in_object stk c).
  - (* KeyOrClose *)
    destruct (Json.is_ws c); [injection H as <-; exact Hin|].
    destruct (Ascii.eqb c "}").
    + destruct stk as [|[items|members|members k] rest]; try discriminate.
      refine (pop_in_object _ (Json.FObj members) rest st' Hin _ H).
      reflexivity.
    + destruct (Ascii.eqb c "034"); [|discriminate].
      injection H as <-. exact Hin.
  - (* Key *)
    destruct (Json.is_ws c); [injection H as <-; exact Hin|].
    destruct (Ascii.eqb c "034"); [|discriminate].
    injection H as <-. exact Hin.
  - (* Colon *)
    destruct (Json.is_ws c); [injection H as <-; exact Hin|].
    destruct (Ascii.eqb c ":"); [|discriminate].
    injection H as <-. exact Hin.
  - (* InString *)
    destruct (Ascii.eqb c "034").
    + unfold Json.close_string, Json.malformed in H. destruct is_key.
      * destruct stk as [|[items|members|members k] rest]; try discriminate.
        injection H as <-. cbn [JsonExtra.in_object] in *.
        destruct rest; exact Hin.
      * exact (push_in_object _ stk st' Hin H).
    + destruct (Ascii.eqb c "092"); [injection H as <-; exact Hin|].
      destruct (Py.code c <? 32)%N; [discriminate|].
      injection H as <-. exact Hin.
  - (* Escape *)
    destruct (Ascii.eqb c "u"); [injection H as <-; exact Hin|].
    destruct (Json.simple_escape c); [|discriminate].
    injection H as <-. exact Hin.
  - (* Unicode *)
    destruct (Json.hex_value c); [|discriminate].
    destruct (Nat.eqb n 3); injection H as <-; exact Hin.
  - (* Number *)
    destruct (Json.number_next ns c); [injection H as <-; exact Hin|].
    assert (Hfinish :
      (v <- Json.number_value ns lexeme ;;
       st0 <- Json.push_value v stk ;;
       Json.after_value st0 c)%py = Returned st' ->
      JsonExtra.in_object st' = true).
    { unfold bind.
      destruct (Json.number_value ns lexeme) as [v|]; [|discriminate].
      destruct (Json.push_value v stk) as [st0|] eqn:Ep; [|discriminate].
      intros Ha. apply (after_value_in_object st0 c st'); [|exact Ha].
      exact (push_in_object v stk st0 Hin Ep). }
    destruct ns; try (now apply Hfinish).
    destruct (Ascii.eqb c "I"); [|discriminate].
    injection H as <-. exact Hin.
  - (* Literal *)
    destruct rest as [|c' rest']; [discriminate|].
    destruct (Ascii.eqb c c'); [|discriminate].
    destruct rest'.
    + exact (push_in_object v stk st' Hin H).
    + injection H as <-. exact Hin.
Qed.

Lemma run_in_object s :
  forall st st',
    JsonExtra.in_object st = true ->
    Json.run st s = Returned st' ->
    JsonExtra.in_object st' = true.
Proof.
  induction s as [|c s IH]; intros st st' Hin H; cbn [Json.run] in H.
  - now injection H as <-.
  - unfold bind in H.
    destruct (Json.step st c) as [st1|] eqn:E; [|discriminate].
    apply (IH st1 st'); [|exact H]. now apply (step_in_object st c).
Qed.

(** [json.loads] of a text that starts with an opening brace gives a
    dictionary or raises. *)
Lemma loads_brace_is_object s v :
  Json.loads (String "{"%char s) = Returned v ->
  exists members, v = Json.JObj members.
Proof.
  unfold Json.loads. cbn [Json.run].
  change (Json.step (Json.Value, []) "{")
    with (Returned (Json.KeyOrClose, [Json.FObj []])).
  cbn [bind].
  destruct (Json.run (Json.KeyOrClose, [Json.FObj []]) s) as [st|] eqn:E;
    [|discriminate].
  apply run_in_object in E; [|reflexivity].
  destruct st as [m stk]. unfold Json.finish, Json.malformed, bind.
  destruct m; try discriminate.
  - destruct stk; [|discriminate]. intros H. injection H as <-.
    cbn in E. destruct v0; try discriminate. eauto.
  - destruct stk; [discriminate|].
    destruct (Json.number_value ns lexeme); discriminate.
Qed.

Lemma span_starts_with_brace w :
  Re.lang re_json_span w -> exists s, w = String "{"%char s.
Proof.
  unfold re_json_span. cbn [Re.seq Re.lit Re.lang].
  intros (u & v & -> & (u1 & u2 & -> & (c & -> & Hc) & ->) & _).
  apply Ascii.eqb_eq in Hc. subst c. cbn [append]. eauto.
Qed.

Lemma span_decodes_to_object response m v :
  Re.search re_json_span response = Some m ->
  Json.loads (Re.group0 m) = Returned v ->
  exists members, v = Json.JObj members.
Proof.
  intros Hm Hl. apply search_sound in Hm.
  destruct Hm as (w & Hw & Hg & _). rewrite Hg in Hl.
  destruct (span_starts_with_brace w Hw) as (s & ->).
  now apply (loads_brace_is_object s).
Qed.

(** What [parse_mcq_response] returns, when it returns, is a dictionary:
    the span it decodes starts with a brace, and the line parse builds one.
    The test ["questions" in mcq_data] of its callers is therefore a key
    test. *)
Theorem mcq_data_is_dictionary (response : string) (mcq_data : Json.json) :
  MCQ.parse_mcq_response response = Returned mcq_data ->
  exists members, mcq_data = Json.JObj members.
Proof.
  intros H. apply parse_mcq_response_returns in H.
  destruct H as [->|(m & Hm & Hl)].
  - unfold MCQ.parse_text_response. eauto.
  - exact (span_decodes_to_object response m mcq_data Hm Hl).
Qed.

Lemma mcq_data_is_dictionary_witness :
  exists members,
    Json.JObj [ (Json.codes "questions", Json.JArr []) ]
    = Json.JObj members.
Proof.
  apply (mcq_data_is_dictionary (Demo.text "Sure: {'questions': []}")).
  vm_compute. reflexivity.
Defined.

(** A record recovered by the second tier of the invoice parser is a
    dictionary, so the batch can always put the file name into it. *)
Theorem recovered_record_is_dictionary (response : string) (v : Json.json) :
  Invoice.recover response = Returned v ->
  exists members,
    v = Json.JObj members /\
    forall name, exists d, Invoice.set_filename v name = Returned d.
Proof.
  unfold Invoice.recover.
  destruct (Re.search re_json_span response) as [m|] eqn:Hm; [|discriminate].
  intros Hl.
  destruct (span_decodes_to_object response m v Hm Hl) as (d & ->).
  exists d. split; [reflexivity|]. intros name. cbn. eauto.
Qed.

Lemma recovered_record_is_dictionary_witness :
  exists members,
    Json.JObj [ (Json.codes "total", Json.JInt 7) ] = Json.JObj members /\
    forall name, exists d,
        Invoice.set_filename
          (Json.JObj [ (Json.codes "total", Json.JInt 7) ]) name
        = Returned d.
Proof.
  apply (recovered_record_is_dictionary
           (Demo.text "The data: {'total': 7}. Done.")).
  vm_compute. reflexivity.
Defined.

(** ** The items of the line parse *)

Lemma options_until_question_are_options lines :
  Forall (fun o => MCQ.is_option_line o = true /\ In o lines)
         (MCQ.options_until_question lines).
Proof.
  induction lines as [|l lines IH]; cbn [MCQ.options_until_question];
    [constructor|].
  assert (IH' : Forall (fun o => MCQ.is_option_line o = true /\
                                 In o (l :: lines))
                  (MCQ.options_until_question lines)).
  { eapply Forall_impl; [|exact IH]. intros o [Ho Hin]. split; [|right]; auto. }
  destruct (MCQ.is_question_line l); [constructor|].
  destruct (MCQ.is_option_line l) eqn:Ho; [|exact IH'].
  constructor; [|exact IH']. split; [exact Ho | now left].
Qed.

Lemma items_are_questions lines :
  Forall (fun item =>
            MCQ.is_question_line (fst item) = true /\
            In (fst item) lines /\
            Forall (fun o => MCQ.is_option_line o = true /\ In o lines)
                   (snd item))
         (MCQ.items lines).
Proof.
  induction lines as [|l lines IH]; cbn [MCQ.items]; [constructor|].
  assert (IH' : Forall (fun item =>
              MCQ.is_question_line (fst item) = true /\
              In (fst item) (l :: lines) /\
              Forall (fun o => MCQ.is_option_line o = true /\
                               In o (l :: lines)) (snd item))
            (MCQ.items lines)).
  { eapply Forall_impl; [|exact IH]. intros item (Hq & Hin & Ho).
    split; [exact Hq|]. split; [now right|].
    eapply Forall_impl; [|exact Ho]. intros o [H1 H2]. split; [|right]; auto. }
  destruct (MCQ.is_question_line l) eqn:Hq; [|exact IH'].
  constructor; [|exact IH']. cbn [fst snd].
  split; [exact Hq|]. split; [now left|].
  pose proof (options_until_question_are_options lines) as Ho.
  eapply Forall_impl; [|exact Ho]. intros o [H1 H2]. split; [|right]; auto.
Qed.

(** Every question the line parse returns is a trimmed line of the response
    that has a question mark and no option marker in front, and it comes
    with at least one option; every option is a trimmed line that starts
    with [A)], [B)], [C)] or [D)].  Nothing limits the options to four, or
    to one of each letter. *)
Theorem fallback_items_are_well_formed (response : string) :
  exists kept,
    MCQ.parsed_questions response
    = map (fun item => MCQ.question_item (fst item) (snd item)) kept /\
    Forall (fun item =>
              MCQ.is_question_line (fst item) = true /\
              In (fst item) (MCQ.trimmed_lines response) /\
              snd item <> [] /\
              Forall (fun o => MCQ.is_option_line o = true /\
                               In o (MCQ.trimmed_lines response))
                     (snd item))
           kept.
Proof.
  exists (filter MCQ.has_options (MCQ.items (MCQ.trimmed_lines response))).
  split; [apply parsed_questions_line_parse|].
  apply Forall_forall. intros item Hin. apply filter_In in Hin.
  destruct Hin as [Hin Hopt].
  pose proof (items_are_questions (MCQ.trimmed_lines response)) as Hall.
  rewrite Forall_forall in Hall. destruct (Hall item Hin) as (Hq & Hl & Ho).
  repeat split; try assumption.
  unfold MCQ.has_options in Hopt. destruct (snd item); [discriminate|].
  discriminate.
Qed.

(** ** The text file of the questions *)

Section DownloadFacts.
Variable str_of : Json.json -> Json.pystr.
Variable float_truthy : string -> bool.

Local Abbreviation add_question := (Download.add_question str_of).
Local Abbreviation add_questions := (Download.add_questions str_of).
Local Abbreviation download_mcqs_as_text :=
  (Download.download_mcqs_as_text str_of float_truthy).

Lemma getitem_question q opts :
  Download.getitem (MCQ.question_item q opts) (Json.codes "question")
  = Download.Done (Json.JStr (Json.codes q)).
Proof. reflexivity. Qed.

Lemma getitem_options q opts :
  Download.getitem (MCQ.question_item q opts) (Json.codes "options")
  = Download.Done (Json.JArr (map (fun o => Json.JStr (Json.codes o)) opts)).
Proof. reflexivity. Qed.

Lemma get_correct_answer q opts default :
  Download.get (MCQ.question_item q opts) (Json.codes "correct_answer") default
  = Download.Done (Json.JStr (Json.codes "A")).
Proof. reflexivity. Qed.

Lemma contains_explanation q opts :
  Download.contains (Json.codes "explanation") (MCQ.question_item q opts)
  = Download.Done true.
Proof. reflexivity. Qed.

Lemma getitem_explanation q opts :
  Download.getitem (MCQ.question_item q opts) (Json.codes "explanation")
  = Download.Done
      (Json.JStr (Json.codes "Please verify the correct answer.")).
Proof. reflexivity. Qed.

Lemma add_options opts :
  forall content,
    fold_left
      (fun content option =>
         content ++ Json.codes "  " ++ Download.format str_of option
         ++ Download.line_feed)
      (map (fun o => Json.JStr (Json.codes o)) opts) content
    = content
      ++ concat (map (fun o => Json.codes "  " ++ Json.codes o
                               ++ Download.line_feed) opts).
Proof.
  induction opts as [|o opts IH]; intros content; cbn [map fold_left concat].
  - now rewrite app_nil_r.
  - rewrite IH. cbn [Download.format]. now rewrite <- !app_assoc.
Qed.

Lemma add_question_item content i q opts :
  add_question content i (MCQ.question_item q opts)
  = Download.Done (content ++ Download.item_block i (q, opts)).
Proof.
  unfold Download.add_question.
  rewrite getitem_question, getitem_options, get_correct_answer,
    contains_explanation, getitem_explanation.
  cbn [Download.and_then Download.iterate Download.format].
  rewrite add_options. unfold Download.item_block. cbn [fst snd].
  f_equal. now rewrite <- !app_assoc.
Qed.

Lemma add_questions_items items :
  forall content i,
    add_questions content i
      (map (fun item => MCQ.question_item (fst item) (snd item)) items)
    = Download.Done (content ++ Download.item_blocks i items).
Proof.
  induction items as [|[q opts] items IH]; intros content i;
    cbn [map Download.add_questions Download.item_blocks fst snd].
  - now rewrite app_nil_r.
  - rewrite add_question_item. cbn [Download.and_then].
    rewrite IH. now rewrite <- app_assoc.
Qed.

(** The text file made from a line parse.  Whatever the response was, the
    export of [parse_text_response] returns a text and does not raise: the
    header, then for each kept item, numbered from 1, its question, its
    options, the lines "Correct Answer: A" and "Explanation: Please verify
    the correct answer." and the rule.  No value other than a string is
    ever formatted. *)
Theorem export_of_line_parse (response : string) :
  download_mcqs_as_text (MCQ.parse_text_response response)
  = Download.Done
      (Some (Download.header
             ++ Download.item_blocks 1
                  (filter MCQ.has_options
                     (MCQ.items (MCQ.trimmed_lines response))))).
Proof.
  unfold MCQ.parse_text_response. rewrite parsed_questions_line_parse.
  unfold MCQ.line_parse, MCQ.kept_items, Download.download_mcqs_as_text.
  cbn [Download.truthy negb].
  change (Download.contains (Json.codes "questions")
            (Json.JObj [(Json.codes "questions", ?a)]))
    with (Download.Done true).
  cbn [Download.and_then negb].
  change (Download.getitem (Json.JObj [(Json.codes "questions", ?a)])
            (Json.codes "questions"))
    with (Download.Done a).
  cbn [Download.and_then Download.iterate].
  now rewrite add_questions_items.
Qed.

(** Only a dictionary is ever turned into text: on any other decoded value
    the export returns [None] or raises [TypeError]. *)
Theorem export_needs_dictionary (mcq_data : Json.json) :
  JsonExtra.is_object mcq_data = false ->
  download_mcqs_as_text mcq_data = Download.Done None \/
  download_mcqs_as_text mcq_data = Download.Fails Download.TypeError.
Proof.
  intros Hv. unfold Download.download_mcqs_as_text.
  destruct (Download.truthy float_truthy mcq_data); cbn [negb]; [|now left].
  destruct mcq_data; try discriminate Hv;
    cbn [Download.contains Download.and_then]; try (now right).
  - destruct (Download.occurs _ _); cbn [negb]; [now right | now left].
  - destruct (existsb _ _); cbn [negb]; [now right | now left].
Qed.

End DownloadFacts.

Lemma export_needs_dictionary_witness :
  Download.download_mcqs_as_text (fun _ => []) (fun _ => true)
    (Json.JArr [Json.JStr (Json.codes "questions")])
  = Download.Done None \/
  Download.download_mcqs_as_text (fun _ => []) (fun _ => true)
    (Json.JArr [Json.JStr (Json.codes "questions")])
  = Download.Fails Download.TypeError.
Proof.
  apply (export_needs_dictionary (fun _ => []) (fun _ => true)
           (Json.JArr [Json.JStr (Json.codes "questions")])).
  reflexivity.
Defined.

Section DownloadMore.
Variable str_of : Json.json -> Json.pystr.
Variable float_truthy : string -> bool.

(** For a dictionary, the export gives nothing exactly when there is no
    ["questions"] key; with the key it gives a text or raises. *)
Theorem export_none_iff_no_questions
    (members : list (Json.pystr * Json.json)) :
  Download.download_mcqs_as_text str_of float_truthy (Json.JObj members)
  = Download.Done None
  <-> Json.dict_has (Json.codes "questions") members = false.
Proof.
  unfold Download.download_mcqs_as_text.
  destruct members as [|kv members]; cbn [Download.truthy negb].
  - split; reflexivity.
  - cbn [Download.contains Download.and_then Download.getitem].
    unfold Json.dict_has.
    destruct (Json.dict_get (Json.codes "questions") (kv :: members))
      as [x|]; cbn [negb Download.and_then].
    + split; [|discriminate].
      destruct (Download.iterate x) as [qs|e]; cbn [Download.and_then];
        [|discriminate].
      destruct (Download.add_questions str_of Download.header 1 qs);
        cbn [Download.and_then]; discriminate.
    + split; reflexivity.
Qed.

End DownloadMore.

(** ** A response without a question mark *)

Lemma split_lines_contains c s :
  Py.contains c s = false ->
  Forall (fun l => Py.contains c l = false) (Py.split_lines s).
Proof.
  induction s as [|d s IH]; cbn [Py.contains Py.split_lines]; intros H.
  - constructor; [reflexivity | constructor].
  - apply orb_false_iff in H. destruct H as [Hd Hs]. specialize (IH Hs).
    destruct (Ascii.eqb d "010").
    + constructor; [reflexivity | exact IH].
    + destruct (Py.split_lines s) as [|l ls].
      * constructor; [|constructor]. cbn [Py.contains]. now rewrite Hd.
      * inversion IH as [|? ? Hl Hls]; subst.
        constructor; [|exact Hls]. cbn [Py.contains]. now rewrite Hd, Hl.
Qed.

Lemma contains_strip c s :
  Py.contains c s = false -> Py.contains c (Py.strip s) = false.
Proof. intros H. unfold Py.strip. now apply contains_rstrip, contains_lstrip. Qed.

Lemma items_without_questions lines :
  Forall (fun l => Py.contains "?"%char l = false) lines ->
  MCQ.items lines = [].
Proof.
  induction 1 as [|l lines Hl _ IH]; cbn [MCQ.items]; [reflexivity|].
  unfold MCQ.is_question_line. rewrite Hl. exact IH.
Qed.

(** A response without any question mark, the empty response among them,
    gives a record with an empty list of questions, whatever options it
    lists. *)
Theorem no_question_mark_no_questions (response : string) :
  Py.contains "?"%char response = false ->
  MCQ.parse_text_response response
  = Json.JObj [ (Json.codes "questions", Json.JArr []) ].
Proof.
  intros H. unfold MCQ.parse_text_response.
  rewrite parsed_questions_line_parse.
  unfold MCQ.line_parse, MCQ.kept_items.
  rewrite items_without_questions; [reflexivity|].
  unfold MCQ.trimmed_lines.
  apply Forall_forall. intros l Hl. apply filter_In in Hl.
  destruct Hl as [Hl _]. apply in_map_iff in Hl.
  destruct Hl as (raw & <- & Hraw).
  apply contains_strip.
  pose proof (split_lines_contains "?"%char response H) as Hall.
  rewrite Forall_forall in Hall. now apply Hall.
Qed.

Lemma no_question_mark_no_questions_witness :
  MCQ.parse_text_response (Demo.text "A) one|B) two|C) three")
  = Json.JObj [ (Json.codes "questions", Json.JArr []) ].
Proof.
  apply (no_question_mark_no_questions (Demo.text "A) one|B) two|C) three")).
  reflexivity.
Defined.

(** ** Witnesses for the fence and the span *)

Lemma clean_response_plain_fence_witness :
  Invoice.clean_response
    (Invoice.fence ++ Demo.text "{'a': 1}" ++ Invoice.fence)
  = Demo.text "{'a': 1}".
Proof.
  apply (clean_response_plain_fence (Demo.text "{'a': 1}")). reflexivity.
Defined.

Lemma parse_response_recovers_span_witness :
  Invoice.parse_response
    ("Sure: " ++ "{" ++ Demo.text "'total': 7" ++ "}" ++ " Bye.")
  = Returned (Json.JObj [ (Json.codes "total", Json.JInt 7) ]).
Proof.
  apply (parse_response_recovers_span "Sure: " (Demo.text "'total': 7")
           " Bye."); vm_compute; reflexivity.
Defined.
